(** * Stacked denoising auto-encoders (code/SdA.py): model and properties

    A shallow embedding of [code/SdA.py]: the classes [LogisticRegression],
    [dA] and [SdA], and the driver [sgd_optimization_mnist] (layer-wise
    pretraining, joint fine-tuning, early stopping).

    Numbers are binary64 floats, as Python's [float] and Theano's
    [floatX = float64]; Python integers are [Z].  A symbolic Theano
    expression is embedded as the function that evaluates it in an
    environment (the values of the shared variables, the values given for
    the symbolic inputs [x] and [y], the state of the random streams).
    What Theano and numpy supply (sigmoid, log, softmax, the random draws,
    symbolic differentiation) is an interface, [Backend]. *)

From Stdlib Require Import Floats Uint63 ZArith Lia.
From stdpp Require Import base tactics option list strings.

Set Warnings "-inexact-float".

Abbreviation Vector := (list float).
Abbreviation Matrix := (list (list float)).

(** ** Python: exceptions, ranges, slices *)

Inductive PyError :=
| NameError (name : string)
| TypeError
| NotImplementedError
| ZeroDivisionError
| ValueError
| IndexError
| UnboundLocalError (name : string).

Inductive result (A : Type) :=
| Ok (a : A)
| Raise (e : PyError).
Arguments Ok {A} a.
Arguments Raise {A} e.

Definition bind {A B} (m : result A) (k : A -> result B) : result B :=
  match m with
  | Ok a => k a
  | Raise e => Raise e
  end.

Notation "'do' x <- m ; k" := (bind m (fun x => k))
  (at level 10, x pattern, m at level 100, k at level 200).

(** [l[i]] for a Python index [i]: a negative one counts from the end. *)
Definition getitem {A} (l : list A) (i : Z) : result A :=
  let j := if (i <? 0)%Z then (Z.of_nat (length l) + i)%Z else i in
  if (j <? 0)%Z then Raise IndexError
  else match l !! Z.to_nat j with
       | Some a => Ok a
       | None => Raise IndexError
       end.

(** [xrange(n)] and [xrange(a, b)]. *)
Definition xrange2 (a b : Z) : list Z := seqZ a (b - a).
Definition xrange (n : Z) : list Z := xrange2 0 n.

(** [data[lo:hi]] for [0 <= lo], the only slices the program takes. *)
Definition slice {A} (data : list A) (lo hi : Z) : list A :=
  take (Z.to_nat hi - Z.to_nat lo) (drop (Z.to_nat lo) data).

(** The minibatch [data[index*batch_size:(index+1)*batch_size]]. *)
Definition minibatch {A} (data : list A) (batch_size index : Z) : list A :=
  slice data (index * batch_size) ((index + 1) * batch_size).

(** ** numpy and theano.tensor on nested lists *)

Definition of_Z (z : Z) : float := PrimFloat.of_uint63 (Uint63.of_Z z).

Module T.

(** [T.sum] of a vector, [T.sum(m, axis=1)] and [T.mean]. *)
Definition sum (v : Vector) : float := fold_left PrimFloat.add v 0%float.
Definition sum_axis1 (m : Matrix) : Vector := map sum m.
Definition mean (v : Vector) : float :=
  (sum v / of_Z (Z.of_nat (length v)))%float.

(** [m.T]. *)
Fixpoint transpose (m : Matrix) : Matrix :=
  match m with
  | [] => []
  | r :: rs =>
      match rs with
      | [] => map (fun v => [v]) r
      | _ :: _ => zip_with cons r (transpose rs)
      end
  end.

(** [T.dot] of a vector and a matrix, and of two matrices (row by row). *)
Definition vdot (u v : Vector) : float := sum (zip_with PrimFloat.mul u v).
Definition vecmat (r : Vector) (B : Matrix) : Vector :=
  map (vdot r) (transpose B).
Definition dot (A B : Matrix) : Matrix := map (fun r => vecmat r B) A.

(** Element-wise arithmetic on floats, on vectors and on matrices.
    Theano runs these on operands of one shape and refuses others when
    the compiled function is called; here the result stops with the
    shorter operand, and no property below is stated about float operands
    of different shapes. *)
Definition vadd (u v : Vector) : Vector := zip_with PrimFloat.add u v.
Definition vsub (u v : Vector) : Vector := zip_with PrimFloat.sub u v.
Definition vmul (u v : Vector) : Vector := zip_with PrimFloat.mul u v.
Definition vneg (u : Vector) : Vector := map PrimFloat.opp u.
Definition add (A B : Matrix) : Matrix := zip_with vadd A B.
Definition sub (A B : Matrix) : Matrix := zip_with vsub A B.
Definition mul (A B : Matrix) : Matrix := zip_with vmul A B.

(** Broadcasting: [m + b] for a bias vector [b], [1 - m], [g * c] and
    [c * g] for a scalar [c]. *)
Definition add_row (A : Matrix) (b : Vector) : Matrix :=
  map (fun r => vadd r b) A.
Definition vone_minus (u : Vector) : Vector :=
  map (fun v => (1 - v)%float) u.
Definition one_minus (A : Matrix) : Matrix := map vone_minus A.
Definition vscale_r (g : Vector) (c : float) : Vector :=
  map (fun v => (v * c)%float) g.
Definition vscale_l (c : float) (g : Vector) : Vector :=
  map (fun v => (c * v)%float) g.
Definition scale_r (G : Matrix) (c : float) : Matrix :=
  map (fun r => vscale_r r c) G.
Definition scale_l (c : float) (G : Matrix) : Matrix :=
  map (fun r => vscale_l c r) G.

(** [T.argmax(m, axis=1)]: the first index of a largest entry per row. *)
Fixpoint argmax_from (best_i : Z) (best : float) (i : Z) (r : Vector) : Z :=
  match r with
  | [] => best_i
  | v :: r' =>
      if PrimFloat.ltb best v then argmax_from i v (i + 1)%Z r'
      else argmax_from best_i best (i + 1)%Z r'
  end.
Definition argmax (r : Vector) : Z :=
  match r with
  | [] => 0%Z
  | v :: r' => argmax_from 0 v 1 r'
  end.
Definition argmax_axis1 (m : Matrix) : list Z := map argmax m.

(** [T.neq]: a vector of 0s and 1s, 1 where the operands differ.  When
    the compiled function is called on vectors of different lengths,
    Theano refuses them with a [ValueError] (input dimension mismatch). *)
Definition neq (p q : list Z) : result (list Z) :=
  if (length p =? length q)%nat
  then Ok (zip_with (fun a c => if Z.eqb a c then 0%Z else 1%Z) p q)
  else Raise ValueError.

(** [T.mean] of an integer vector. *)
Definition mean_int (v : list Z) : float := mean (map of_Z v).

(** [numpy.zeros]. *)
Definition zeros (n : Z) : Vector := replicate (Z.to_nat n) 0%float.
Definition zeros2 (n m : Z) : Matrix := replicate (Z.to_nat n) (zeros m).

(** [m.shape]. *)
Definition shape (m : Matrix) : nat * nat :=
  (length m, match m with [] => 0 | r :: _ => length r end).

End T.

(** [p[i]] for a Python index [i] (a negative one counts from the end);
    0 stands for an index out of range, which numpy refuses. *)
Definition py_index (r : Vector) (i : Z) : float :=
  let j := if (i <? 0)%Z then (Z.of_nat (length r) + i)%Z else i in
  if (j <? 0)%Z then 0%float else default 0%float (r !! Z.to_nat j).

(** ** Shared variables and evaluation environments *)

(** The shared variables of the model: [W], [b] and [b_prime] of the dA
    at position [i] of [SdA.layers], and [W], [b] of [SdA.logLayer].
    [W_prime] is not one of them. *)
Inductive matrix_var :=
| dA_W (i : nat)
| logLayer_W.

Inductive vector_var :=
| dA_b (i : nat)
| dA_b_prime (i : nat)
| logLayer_b.

Global Instance matrix_var_eq_dec : EqDecision matrix_var.
Proof. solve_decision. Defined.
Global Instance vector_var_eq_dec : EqDecision vector_var.
Proof. solve_decision. Defined.

(** The values of the shared variables, and for each dA the number of
    draws its random stream has made. *)
Record State := {
  mat : matrix_var -> Matrix;
  vec : vector_var -> Vector;
  rng : nat -> nat
}.

Definition set_mat (v : matrix_var) (m : Matrix) (s : State) : State :=
  {| mat := fun v' => if decide (v' = v) then m else mat s v';
     vec := vec s; rng := rng s |}.
Definition set_vec (v : vector_var) (u : Vector) (s : State) : State :=
  {| mat := mat s;
     vec := fun v' => if decide (v' = v) then u else vec s v';
     rng := rng s |}.
Definition advance_rng (i : nat) (s : State) : State :=
  {| mat := mat s; vec := vec s;
     rng := fun j => if decide (j = i) then S (rng s j) else rng s j |}.

(** What a compiled function is evaluated in: the state, and the values
    given for the symbolic inputs [x] (a matrix) and [y] (an ivector). *)
Record Env := {
  state : State;
  x_given : Matrix;
  y_given : list Z
}.

Definition with_state (s : State) (env : Env) : Env :=
  {| state := s; x_given := x_given env; y_given := y_given env |}.

(** What Theano and numpy supply. [binomial i k rows cols] is the [k]-th
    draw of shape [(rows, cols)] of the random stream of dA [i];
    [uniform i low high rows cols] the sample drawn for the initial [W]
    of dA [i]; [gradM cost v] and [gradV cost v] are [T.grad(cost, v)]. *)
Class Backend := {
  sigmoid : float -> float;
  log : float -> float;
  softmax : Vector -> Vector;
  binomial : nat -> nat -> nat -> nat -> Matrix;
  uniform : nat -> float -> float -> Z -> Z -> Matrix;
  gradM : (Env -> float) -> matrix_var -> Env -> Matrix;
  gradV : (Env -> float) -> vector_var -> Env -> Vector
}.

Definition msigmoid `{Backend} (m : Matrix) : Matrix := map (map sigmoid) m.
Definition vlog `{Backend} (v : Vector) : Vector := map log v.
Definition mlog `{Backend} (m : Matrix) : Matrix := map vlog m.

(** The type of a symbolic variable, and an integer vector variable. *)
Record TensorType := { dtype : string; ndim : nat }.
Record TensorVariable := { type : TensorType; value : Env -> list Z }.

(** [x = T.matrix('x')] and [y = T.ivector('y')]. *)
Definition x : Env -> Matrix := x_given.
Definition y : TensorVariable :=
  {| type := {| dtype := "int32"; ndim := 1 |}; value := y_given |}.

(** ** class LogisticRegression *)

Module LogisticRegression.

Record t := {
  W : matrix_var;
  b : vector_var;
  p_y_given_x : Env -> Matrix;
  y_pred : TensorVariable
}.

(** [__init__]: [W] and [b] start at zero; [numpy.zeros] refuses a
    negative dimension. *)
Definition init `{Backend} (input : Env -> Matrix) (n_in n_out : Z)
    (s : State) : result (t * State) :=
  if ((n_in <? 0) || (n_out <? 0))%Z then Raise ValueError
  else
    let s1 := set_mat logLayer_W (T.zeros2 n_in n_out) s in
    let s2 := set_vec logLayer_b (T.zeros n_out) s1 in
    let p_y_given_x := fun env =>
      map softmax
        (T.add_row (T.dot (input env) (mat (state env) logLayer_W))
                   (vec (state env) logLayer_b)) in
    let y_pred :=
      {| type := {| dtype := "int64"; ndim := 1 |};
         value := fun env => T.argmax_axis1 (p_y_given_x env) |} in
    Ok ({| W := logLayer_W; b := logLayer_b;
           p_y_given_x := p_y_given_x; y_pred := y_pred |}, s2).

(** [-T.mean(T.log(self.p_y_given_x)[T.arange(y.shape[0]), y])]. *)
Definition negative_log_likelihood `{Backend} (self : t)
    (y : TensorVariable) : Env -> float :=
  fun env =>
    let lp := mlog (p_y_given_x self env) in
    PrimFloat.opp
      (T.mean (imap (fun i yi => py_index (default [] (lp !! i)) yi)
                    (value y env))).

(** [errors]: the two checks are made on the type of the symbolic [y],
    when the graph is built.  The name [target] in the arguments of the
    first [raise] is bound nowhere, so evaluating them raises
    [NameError] before [TypeError] is constructed.  The expression
    returned is evaluated when the compiled function is called, and
    [T.neq] may then refuse its operands. *)
Definition errors (self : t) (y : TensorVariable)
    : result (Env -> result float) :=
  if negb (ndim (type y) =? ndim (type (y_pred self)))%nat
  then Raise (NameError "target")
  else if String.prefix "int" (dtype (type y))
  then Ok (fun env =>
             do mistakes <- T.neq (value (y_pred self) env) (value y env);
             Ok (T.mean_int mistakes))
  else Raise NotImplementedError.

End LogisticRegression.

(** ** class dA *)

Module dA.

Record t := {
  n_visible : Z;
  n_hidden : Z;
  W : matrix_var;
  b : vector_var;
  W_prime : Env -> Matrix;
  b_prime : vector_var;
  x : Env -> Matrix;
  tilde_x : Env -> Matrix;
  y : Env -> Matrix;
  z : Env -> Matrix;
  L : Env -> Vector;
  cost : Env -> float;
  hidden_values : Env -> Matrix
}.

(** The attributes [__init__] sets, for the dA whose shared variables
    are those of position [i].  Equations (1) to (4) of the class
    docstring, the cost, and the hidden layer of the uncorrupted input. *)
Definition make `{Backend} (i : nat) (n_visible n_hidden : Z)
    (input : Env -> Matrix) : t :=
  let W := fun env => mat (state env) (dA_W i) in
  let b := fun env => vec (state env) (dA_b i) in
  let W_prime := fun env => T.transpose (W env) in
  let b_prime := fun env => vec (state env) (dA_b_prime i) in
  let x := input in
  let tilde_x := fun env =>
    T.mul (binomial i (rng (state env) i)
                    (fst (T.shape (x env))) (snd (T.shape (x env))))
          (x env) in
  let y := fun env => msigmoid (T.add_row (T.dot (tilde_x env) (W env)) (b env)) in
  let z := fun env =>
    msigmoid (T.add_row (T.dot (y env) (W_prime env)) (b_prime env)) in
  let L := fun env =>
    T.vneg (T.sum_axis1
              (T.add (T.mul (x env) (mlog (z env)))
                     (T.mul (T.one_minus (x env))
                            (mlog (T.one_minus (z env)))))) in
  let cost := fun env => T.mean (L env) in
  let hidden_values := fun env =>
    msigmoid (T.add_row (T.dot (x env) (W env)) (b env)) in
  {| n_visible := n_visible; n_hidden := n_hidden;
     W := dA_W i; b := dA_b i; W_prime := W_prime; b_prime := dA_b_prime i;
     x := x; tilde_x := tilde_x; y := y; z := z; L := L; cost := cost;
     hidden_values := hidden_values |}.

(** [__init__], with [input] given (as [SdA] always does): the initial
    values are stored in the three shared variables.  [6./(n_visible +
    n_hidden)] divides by zero when the sum is 0, and numpy refuses a
    negative dimension. *)
Definition init `{Backend} (i : nat) (n_visible n_hidden : Z)
    (input : Env -> Matrix) (s : State) : result (t * State) :=
  if (n_visible + n_hidden =? 0)%Z then Raise ZeroDivisionError
  else if ((n_visible <? 0) || (n_hidden <? 0))%Z then Raise ValueError
  else
    let bound := PrimFloat.sqrt (6 / of_Z (n_visible + n_hidden))%float in
    let initial_W := uniform i (PrimFloat.opp bound) bound n_visible n_hidden in
    let initial_b := T.zeros n_hidden in
    let initial_b_prime := T.zeros n_visible in
    let s1 := set_mat (dA_W i) initial_W s in
    let s2 := set_vec (dA_b i) initial_b s1 in
    let s3 := set_vec (dA_b_prime i) initial_b_prime s2 in
    Ok (make i n_visible n_hidden input, s3).

End dA.

(** ** class SdA *)

Module SdA.

Record t := {
  layers : list dA.t;
  n_layers : Z;
  logLayer : LogisticRegression.t
}.

(** One turn of the loop that adds the intermediate layers. *)
Definition add_layer `{Backend} (hidden_layers_sizes : list Z)
    (acc : result (list dA.t * State)) (i : Z) : result (list dA.t * State) :=
  do (layers, s) <- acc;
  do n_visible <- getitem hidden_layers_sizes (i - 1);
  do n_hidden <- getitem hidden_layers_sizes i;
  do prev <- getitem layers (-1);
  do (layer, s') <- dA.init (length layers) n_visible n_hidden
                        (dA.hidden_values prev) s;
  Ok (layers ++ [layer], s').

(** [__init__].  [raiseException] is one name, bound nowhere: with no
    hidden layer the test raises [NameError]. *)
Definition init `{Backend} (input : Env -> Matrix) (n_ins : Z)
    (hidden_layers_sizes : list Z) (n_outs : Z) (s : State)
    : result (t * State) :=
  let layers := [] in
  if (Z.of_nat (length hidden_layers_sizes) <? 1)%Z
  then Raise (NameError "raiseException")
  else
    do n_hidden <- getitem hidden_layers_sizes 0;
    do (layer, s) <- dA.init (length layers) n_ins n_hidden input s;
    let layers := layers ++ [layer] in
    do (layers, s) <-
      fold_left (add_layer hidden_layers_sizes)
                (xrange2 1 (Z.of_nat (length hidden_layers_sizes)))
                (Ok (layers, s));
    do top <- getitem layers (-1);
    do n_in <- getitem hidden_layers_sizes (-1);
    do (logLayer, s) <-
      LogisticRegression.init (dA.hidden_values top) n_in n_outs s;
    Ok ({| layers := layers; n_layers := Z.of_nat (length layers);
           logLayer := logLayer |}, s).

Definition negative_log_likelihood `{Backend} (self : t)
    (y : TensorVariable) : Env -> float :=
  LogisticRegression.negative_log_likelihood (logLayer self) y.

Definition errors (self : t) (y : TensorVariable)
    : result (Env -> result float) :=
  LogisticRegression.errors (logLayer self) y.

End SdA.

(** ** theano.function *)

(** An entry of [updates]: a shared variable and the expression of its
    new value.  [UpdRng i] is the update Theano adds by itself for the
    random stream of dA [i] when its draw occurs in the graph. *)
Inductive update :=
| UpdM (v : matrix_var) (e : Env -> Matrix)
| UpdV (v : vector_var) (e : Env -> Vector)
| UpdRng (i : nat).

Definition apply_update (env : Env) (s : State) (u : update) : State :=
  match u with
  | UpdM v e => set_mat v (e env) s
  | UpdV v e => set_vec v (e env) s
  | UpdRng i => advance_rng i s
  end.

(** Every new value is computed in [env], the environment of the call,
    and only then stored. *)
Definition apply_updates (updates : list update) (env : Env) (s : State) : State :=
  fold_left (apply_update env) updates s.

(** [theano.function([index], outputs, updates=updates, givens=givens)]. *)
Definition function {O} (outputs : Env -> O) (updates : list update)
    (givens : Z -> Matrix * list Z) : Z -> State -> O * State :=
  fun index s =>
    let env := {| state := s; x_given := fst (givens index);
                  y_given := snd (givens index) |} in
    (outputs env, apply_updates updates env s).

(** ** sgd_optimization_mnist: pretraining *)

(** [layer_update] for layer [i]: one gradient step on the layer's cost. *)
Definition layer_update `{Backend} (classifier : SdA.t) (pretraining_lr : float)
    (train_set_x : Matrix) (batch_size : Z) (i : Z)
    : result (Z -> State -> (float * Matrix * Matrix) * State) :=
  do layer <- getitem (SdA.layers classifier) i;
  let gW := gradM (dA.cost layer) (dA.W layer) in
  let gb := gradV (dA.cost layer) (dA.b layer) in
  let gb_prime := gradV (dA.cost layer) (dA.b_prime layer) in
  let new_W := fun env =>
    T.sub (mat (state env) (dA.W layer)) (T.scale_r (gW env) pretraining_lr) in
  let new_b := fun env =>
    T.vsub (vec (state env) (dA.b layer)) (T.vscale_r (gb env) pretraining_lr) in
  let new_b_prime := fun env =>
    T.vsub (vec (state env) (dA.b_prime layer))
           (T.vscale_r (gb_prime env) pretraining_lr) in
  let cost := dA.cost layer in
  Ok (function (fun env => (cost env, dA.x layer env, dA.z layer env))
        [UpdM (dA.W layer) new_W; UpdV (dA.b layer) new_b;
         UpdV (dA.b_prime layer) new_b_prime; UpdRng (Z.to_nat i)]
        (fun index => (minibatch train_set_x batch_size index, []))).

(** [for batch_index in xrange(n_train_batches): c = layer_update(...)].
    The state goes with the local variable [c], which only this loop
    assigns. *)
Definition pretraining_batches {O} (layer_update : Z -> State -> O * State)
    (indices : list Z) (sc : State * option O) : State * option O :=
  fold_left (fun sc batch_index =>
               let '(c, s) := layer_update batch_index (fst sc) in (s, Some c))
            indices sc.

(** One pretraining epoch of a layer: every minibatch in index order,
    then the [print] that ends the epoch and reads [c]: while nothing has
    assigned it, reading it raises [UnboundLocalError]. *)
Definition pretraining_epoch {O} (layer_update : Z -> State -> O * State)
    (n_train_batches : Z) (sc : State * option O) : result (State * option O) :=
  let sc' := pretraining_batches layer_update (xrange n_train_batches) sc in
  match snd sc' with
  | Some _ => Ok sc'
  | None => Raise (UnboundLocalError "c")
  end.

(** The pretraining epochs of one layer. *)
Definition pretraining_epochs_loop {O} (layer_update : Z -> State -> O * State)
    (pretraining_epochs n_train_batches : Z) (sc : State * option O)
    : result (State * option O) :=
  fold_left
    (fun acc (epoch : Z) =>
       do sc <- acc; pretraining_epoch layer_update n_train_batches sc)
    (xrange pretraining_epochs) (Ok sc).

Definition pretrain_layer `{Backend} (classifier : SdA.t) (pretraining_lr : float)
    (train_set_x : Matrix) (batch_size pretraining_epochs n_train_batches : Z)
    (sc : result (State * option (float * Matrix * Matrix))) (i : Z)
    : result (State * option (float * Matrix * Matrix)) :=
  do sc <- sc;
  do f <- layer_update classifier pretraining_lr train_set_x batch_size i;
  pretraining_epochs_loop f pretraining_epochs n_train_batches sc.

(** The loop [for i in xrange(classifier.n_layers)]; [c] is unbound when
    it starts. *)
Definition pretrain `{Backend} (classifier : SdA.t) (pretraining_lr : float)
    (train_set_x : Matrix) (batch_size pretraining_epochs n_train_batches : Z)
    (s : State) : result State :=
  do sc <-
    fold_left
      (pretrain_layer classifier pretraining_lr train_set_x batch_size
                      pretraining_epochs n_train_batches)
      (xrange (SdA.n_layers classifier)) (Ok (s, None));
  Ok (fst sc).

(** ** sgd_optimization_mnist: fine-tuning *)

(** One turn of the loop that fills [updates] with the layers' [W] and [b]. *)
Definition add_updates `{Backend} (classifier : SdA.t) (cost : Env -> float)
    (learning_rate : float) (updates : result (list update)) (i : Z)
    : result (list update) :=
  do updates <- updates;
  do layer <- getitem (SdA.layers classifier) i;
  let g_W := gradM cost (dA.W layer) in
  let g_b := gradV cost (dA.b layer) in
  let new_W := fun env =>
    T.sub (mat (state env) (dA.W layer)) (T.scale_l learning_rate (g_W env)) in
  let new_b := fun env =>
    T.vsub (vec (state env) (dA.b layer)) (T.vscale_l learning_rate (g_b env)) in
  Ok (updates ++ [UpdM (dA.W layer) new_W; UpdV (dA.b layer) new_b]).

(** The list [updates] of the fine-tuning step. *)
Definition finetune_updates `{Backend} (classifier : SdA.t) (cost : Env -> float)
    (learning_rate : float) : result (list update) :=
  let updates := [] in
  do updates <-
    fold_left (add_updates classifier cost learning_rate)
              (xrange (SdA.n_layers classifier)) (Ok updates);
  let logLayer := SdA.logLayer classifier in
  let g_log_W := gradM cost (LogisticRegression.W logLayer) in
  let g_log_b := gradV cost (LogisticRegression.b logLayer) in
  let new_log_W := fun env =>
    T.sub (mat (state env) (LogisticRegression.W logLayer))
          (T.scale_l learning_rate (g_log_W env)) in
  let new_log_b := fun env =>
    T.vsub (vec (state env) (LogisticRegression.b logLayer))
           (T.vscale_l learning_rate (g_log_b env)) in
  Ok (updates ++ [UpdM (LogisticRegression.W logLayer) new_log_W;
                  UpdV (LogisticRegression.b logLayer) new_log_b]).

(** [train_model], and [test_model] / [validate_model] on a partition. *)
Definition train_model `{Backend} (classifier : SdA.t) (learning_rate : float)
    (train_set_x : Matrix) (train_set_y : list Z) (batch_size : Z)
    : result (Z -> State -> float * State) :=
  let cost := SdA.negative_log_likelihood classifier y in
  do updates <- finetune_updates classifier cost learning_rate;
  Ok (function cost updates
        (fun index => (minibatch train_set_x batch_size index,
                       minibatch train_set_y batch_size index))).

Definition errors_model (classifier : SdA.t) (set_x : Matrix) (set_y : list Z)
    (batch_size : Z) : result (Z -> State -> result float * State) :=
  do errors <- SdA.errors classifier y;
  Ok (function errors []
        (fun index => (minibatch set_x batch_size index,
                       minibatch set_y batch_size index))).

(** Early-stopping parameters. *)
Definition patience0 : Z := 10000.
Definition patience_increase : Z := 2.
Definition improvement_threshold : float := 0.995%float.

(** The variables the fine-tuning loop assigns; [params] is what
    [train_model] updates. *)
Record Loop (S : Type) := {
  params : S;
  patience : Z;
  best_validation_loss : float;
  best_iter : option Z;
  test_score : float;
  cost_ij : list float
}.
Arguments params {S} l.
Arguments patience {S} l.
Arguments best_validation_loss {S} l.
Arguments best_iter {S} l.
Arguments test_score {S} l.
Arguments cost_ij {S} l.

Section FineTuning.

Context {S : Type}.
Variable train_model : Z -> S -> float * S.
Variables validate_model test_model : Z -> S -> float.
Variables n_train_batches n_valid_batches n_test_batches : Z.

Definition validation_frequency : Z := Z.min n_train_batches (patience0 / 2).

(** The statements under [if (iter+1) % validation_frequency == 0],
    after the validation loss is computed: the early-stopping
    controller. *)
Definition early_stopping (iter : Z) (this_validation_loss : float)
    (l : Loop S) : Loop S :=
  if PrimFloat.ltb this_validation_loss (best_validation_loss l) then
    let patience' :=
      if PrimFloat.ltb this_validation_loss
           (best_validation_loss l * improvement_threshold)%float
      then Z.max (patience l) (iter * patience_increase)
      else patience l in
    let test_losses :=
      map (fun i => test_model i (params l)) (xrange n_test_batches) in
    {| params := params l; patience := patience';
       best_validation_loss := this_validation_loss;
       best_iter := Some iter;
       test_score := T.mean test_losses;
       cost_ij := cost_ij l |}
  else l.

(** The body of the minibatch loop, up to the test of the patience;
    [iter] is returned with the variables.  The body runs only when
    [n_train_batches] is at least 1, and then [validation_frequency] is
    positive: the modulus is never 0. *)
Definition minibatch_body (epoch minibatch_index : Z) (l : Loop S)
    : Loop S * Z :=
  let '(c, p) := train_model minibatch_index (params l) in
  let l := {| params := p; patience := patience l;
              best_validation_loss := best_validation_loss l;
              best_iter := best_iter l; test_score := test_score l;
              cost_ij := cost_ij l ++ [c] |} in
  let iter := (epoch * n_train_batches + minibatch_index)%Z in
  if ((iter + 1) mod validation_frequency =? 0)%Z then
    let l := {| params := params l; patience := patience l;
                best_validation_loss := best_validation_loss l;
                best_iter := best_iter l; test_score := test_score l;
                cost_ij := [] |} in
    let validation_losses :=
      map (fun i => validate_model i (params l)) (xrange n_valid_batches) in
    let this_validation_loss := T.mean validation_losses in
    (early_stopping iter this_validation_loss l, iter)
  else (l, iter).

(** [for minibatch_index in xrange(n_train_batches)], with its [break]. *)
Fixpoint minibatch_loop (epoch : Z) (indices : list Z) (l : Loop S) : Loop S :=
  match indices with
  | [] => l
  | minibatch_index :: indices' =>
      let '(l', iter) := minibatch_body epoch minibatch_index l in
      if (patience l' <=? iter)%Z then l'
      else minibatch_loop epoch indices' l'
  end.

(** [for epoch in xrange(training_epochs)]. *)
Definition epoch_loop (training_epochs : Z) (l : Loop S) : Loop S :=
  fold_left (fun l epoch => minibatch_loop epoch (xrange n_train_batches) l)
            (xrange training_epochs) l.

Definition fine_tune (training_epochs : Z) (p : S) : Loop S :=
  epoch_loop training_epochs
    {| params := p; patience := patience0;
       best_validation_loss := infinity; best_iter := None;
       test_score := 0%float; cost_ij := [] |}.

End FineTuning.

(** [[f(i) for i in xrange(n)]] with calls that may raise: they are made
    in order, and the first that raises ends the evaluation. *)
Fixpoint collect {A} (calls : list (result A)) : result (list A) :=
  match calls with
  | [] => Ok []
  | call :: calls' =>
      do a <- call; do rest <- collect calls'; Ok (a :: rest)
  end.

(** The loop as [sgd_optimization_mnist] runs it, on a [validate_model]
    and a [test_model] that may raise when they are called: what they
    raise ends the loop.  Where no call raises, this is the loop above. *)
Section FineTuningWithErrors.

Context {S : Type}.
Variable train_model : Z -> S -> float * S.
Variables validate_model test_model : Z -> S -> result float.
Variables n_train_batches n_valid_batches n_test_batches : Z.

Definition early_stopping_or_raise (iter : Z) (this_validation_loss : float)
    (l : Loop S) : result (Loop S) :=
  if PrimFloat.ltb this_validation_loss (best_validation_loss l) then
    let patience' :=
      if PrimFloat.ltb this_validation_loss
           (best_validation_loss l * improvement_threshold)%float
      then Z.max (patience l) (iter * patience_increase)
      else patience l in
    do test_losses <-
      collect (map (fun i => test_model i (params l)) (xrange n_test_batches));
    Ok {| params := params l; patience := patience';
          best_validation_loss := this_validation_loss;
          best_iter := Some iter;
          test_score := T.mean test_losses;
          cost_ij := cost_ij l |}
  else Ok l.

Definition minibatch_body_or_raise (epoch minibatch_index : Z) (l : Loop S)
    : result (Loop S * Z) :=
  let '(c, p) := train_model minibatch_index (params l) in
  let l := {| params := p; patience := patience l;
              best_validation_loss := best_validation_loss l;
              best_iter := best_iter l; test_score := test_score l;
              cost_ij := cost_ij l ++ [c] |} in
  let iter := (epoch * n_train_batches + minibatch_index)%Z in
  if ((iter + 1) mod validation_frequency n_train_batches =? 0)%Z then
    let l := {| params := params l; patience := patience l;
                best_validation_loss := best_validation_loss l;
                best_iter := best_iter l; test_score := test_score l;
                cost_ij := [] |} in
    do validation_losses <-
      collect (map (fun i => validate_model i (params l)) (xrange n_valid_batches));
    let this_validation_loss := T.mean validation_losses in
    do l' <- early_stopping_or_raise iter this_validation_loss l;
    Ok (l', iter)
  else Ok (l, iter).

Fixpoint minibatch_loop_or_raise (epoch : Z) (indices : list Z) (l : Loop S)
    : result (Loop S) :=
  match indices with
  | [] => Ok l
  | minibatch_index :: indices' =>
      do (l', iter) <- minibatch_body_or_raise epoch minibatch_index l;
      if (patience l' <=? iter)%Z then Ok l'
      else minibatch_loop_or_raise epoch indices' l'
  end.

Definition epoch_loop_or_raise (training_epochs : Z) (l : Loop S)
    : result (Loop S) :=
  fold_left
    (fun acc epoch =>
       do l <- acc; minibatch_loop_or_raise epoch (xrange n_train_batches) l)
    (xrange training_epochs) (Ok l).

Definition fine_tune_or_raise (training_epochs : Z) (p : S) : result (Loop S) :=
  epoch_loop_or_raise training_epochs
    {| params := p; patience := patience0;
       best_validation_loss := infinity; best_iter := None;
       test_score := 0%float; cost_ij := [] |}.

End FineTuningWithErrors.

(** ** sgd_optimization_mnist *)

Record Dataset := {
  train_set_x : Matrix; train_set_y : list Z;
  valid_set_x : Matrix; valid_set_y : list Z;
  test_set_x : Matrix; test_set_y : list Z
}.

Definition batch_size : Z := 20.

(** The state before any shared variable is created. *)
Definition no_state : State :=
  {| mat := fun _ => []; vec := fun _ => []; rng := fun _ => 0 |}.

(** The function, from the loaded data set on; what it prints is left
    out, and the variables of the fine-tuning loop are returned. *)
Definition sgd_optimization_mnist `{Backend} (learning_rate : float)
    (pretraining_epochs : Z) (pretraining_lr : float) (training_epochs : Z)
    (dataset : Dataset) : result (Loop State) :=
  let n_train_batches := (Z.of_nat (length (train_set_x dataset)) / batch_size)%Z in
  let n_valid_batches := (Z.of_nat (length (valid_set_x dataset)) / batch_size)%Z in
  let n_test_batches := (Z.of_nat (length (test_set_x dataset)) / batch_size)%Z in
  do (classifier, s) <- SdA.init x (28 * 28) [500; 500; 500]%Z 10 no_state;
  do s <- pretrain classifier pretraining_lr (train_set_x dataset) batch_size
            pretraining_epochs n_train_batches s;
  do test_model <-
    errors_model classifier (test_set_x dataset) (test_set_y dataset) batch_size;
  do validate_model <-
    errors_model classifier (valid_set_x dataset) (valid_set_y dataset) batch_size;
  do train_model <-
    train_model classifier learning_rate (train_set_x dataset)
                (train_set_y dataset) batch_size;
  fine_tune_or_raise train_model
    (fun i s => fst (validate_model i s)) (fun i s => fst (test_model i s))
    n_train_batches n_valid_batches n_test_batches training_epochs s.

(** ** The forward pass, as the chain the stacking is meant to build *)

(** [forward input k]: the clean representation that enters layer [k];
    [forward input 0] is the input, and each further stage encodes the
    previous one with the parameters of its layer. *)
Fixpoint forward `{Backend} (input : Env -> Matrix) (k : nat) : Env -> Matrix :=
  match k with
  | 0 => input
  | S k' => fun env =>
      msigmoid (T.add_row (T.dot (forward input k' env) (mat (state env) (dA_W k')))
                          (vec (state env) (dA_b k')))
  end.

(** The environment of a call whose random streams are in another state. *)
Definition with_rng (r : nat -> nat) (env : Env) : Env :=
  with_state {| mat := mat (state env); vec := vec (state env); rng := r |} env.

(** * Properties *)

(** ** Python helpers *)

Lemma bind_Ok {A B} (m : result A) (k : A -> result B) (b : B) :
  bind m k = Ok b -> exists a, m = Ok a /\ k a = Ok b.
Proof. destruct m as [a|e]; simpl; [eauto | discriminate]. Qed.

Lemma getitem_last {A} (l : list A) (a : A) :
  getitem (l ++ [a]) (-1) = Ok a.
Proof.
  unfold getitem. cbv zeta. rewrite length_app. simpl.
  replace (Z.to_nat (Z.of_nat (length l + 1) + -1)) with (length l) by lia.
  destruct (Z.ltb_spec (Z.of_nat (length l + 1) + -1) 0); [lia|].
  rewrite lookup_app_r by lia. rewrite Nat.sub_diag. reflexivity.
Qed.

Lemma getitem_nat {A} (l : list A) (i : nat) (a : A) :
  l !! i = Some a -> getitem l (Z.of_nat i) = Ok a.
Proof.
  intros Hl. unfold getitem. cbv zeta.
  assert ((Z.of_nat i <? 0)%Z = false) as E by (apply Z.ltb_ge; lia).
  rewrite E. rewrite E. rewrite Nat2Z.id, Hl. reflexivity.
Qed.

Lemma fold_left_Raise {A B} (f : result A -> B -> result A) (l : list B) e :
  (forall b, f (Raise e) b = Raise e) ->
  fold_left f l (Raise e) = Raise e.
Proof. intros Hf. induction l as [|b l IH]; simpl; [reflexivity|]. rewrite Hf. exact IH. Qed.

(** ** The layers [SdA.__init__] builds *)

(** Every layer is the dA made for its position, on the forward chain. *)
Definition stacked `{Backend} (input : Env -> Matrix) (layers : list dA.t) : Prop :=
  forall k l, layers !! k = Some l ->
    l = dA.make k (dA.n_visible l) (dA.n_hidden l) (forward input k).

Lemma dA_init_Ok `{Backend} i n_visible n_hidden input s layer s' :
  dA.init i n_visible n_hidden input s = Ok (layer, s') ->
  layer = dA.make i n_visible n_hidden input.
Proof.
  unfold dA.init. repeat case_match; intros Heq; inversion Heq; reflexivity.
Qed.

Lemma stacked_snoc `{Backend} input layers prev n_visible n_hidden :
  stacked input layers ->
  getitem layers (-1) = Ok prev ->
  stacked input
    (layers ++ [dA.make (length layers) n_visible n_hidden (dA.hidden_values prev)]).
Proof.
  intros Hst Hprev.
  induction layers as [|top front _] using rev_ind.
  - discriminate.
  - rewrite getitem_last in Hprev. inversion Hprev; subst prev.
    pose proof (Hst (length front) top) as Htop.
    rewrite lookup_app_r, Nat.sub_diag in Htop by lia.
    specialize (Htop eq_refl).
    intros k l Hk.
    destruct (decide (k < length (front ++ [top]))) as [Hlt | Hge].
    + rewrite lookup_app_l in Hk by exact Hlt. apply Hst. exact Hk.
    + rewrite lookup_app_r in Hk by lia.
      rewrite length_app in *. simpl in *.
      destruct (k - (length front + 1)) as [|m] eqn:Hm; [|destruct m; discriminate].
      simpl in Hk. inversion Hk; subst l. simpl.
      assert (k = S (length front)) as -> by lia.
      replace (length front + 1) with (S (length front)) by lia.
      rewrite Htop at 1. reflexivity.
Qed.

Lemma add_layer_Raise `{Backend} sizes e i :
  SdA.add_layer sizes (Raise e) i = Raise e.
Proof. reflexivity. Qed.

Lemma add_layer_Ok `{Backend} sizes input layers s i layers' s' :
  stacked input layers ->
  SdA.add_layer sizes (Ok (layers, s)) i = Ok (layers', s') ->
  stacked input layers' /\ length layers' = S (length layers).
Proof.
  intros Hst Hadd. unfold SdA.add_layer in Hadd. simpl in Hadd.
  apply bind_Ok in Hadd as [n_visible [_ Hadd]].
  apply bind_Ok in Hadd as [n_hidden [_ Hadd]].
  apply bind_Ok in Hadd as [prev [Hprev Hadd]].
  apply bind_Ok in Hadd as [[layer s2] [Hinit Hadd]].
  apply dA_init_Ok in Hinit. inversion Hadd; subst.
  split.
  - apply stacked_snoc; assumption.
  - rewrite length_app. simpl. lia.
Qed.

Lemma add_layers_Ok `{Backend} sizes input indices :
  forall layers s layers' s',
    stacked input layers ->
    fold_left (SdA.add_layer sizes) indices (Ok (layers, s)) = Ok (layers', s') ->
    stacked input layers' /\ length layers' = length layers + length indices.
Proof.
  induction indices as [|i indices IH]; intros layers s layers' s' Hst Hfold.
  - simpl in Hfold. inversion Hfold; subst. split; [assumption | simpl; lia].
  - cbn [fold_left] in Hfold.
    destruct (SdA.add_layer sizes (Ok (layers, s)) i) as [[layers2 s2]|e] eqn:Hadd.
    + apply (add_layer_Ok sizes input) in Hadd as [Hst2 Hlen2]; [|assumption].
      apply IH in Hfold as [Hst' Hlen']; [|assumption].
      split; [assumption | simpl; lia].
    + rewrite fold_left_Raise in Hfold; [discriminate | apply add_layer_Raise].
Qed.

(** What a successful construction returns: the layers are stacked on the
    forward chain, one per hidden size, and the logistic layer reads the
    end of the chain. *)
Lemma SdA_init_Ok `{Backend} input n_ins sizes n_outs s0 classifier s1 :
  SdA.init input n_ins sizes n_outs s0 = Ok (classifier, s1) ->
  stacked input (SdA.layers classifier) /\
  length (SdA.layers classifier) = length sizes /\
  SdA.n_layers classifier = Z.of_nat (length sizes) /\
  exists top,
    getitem (SdA.layers classifier) (-1) = Ok top /\
    SdA.logLayer classifier =
      {| LogisticRegression.W := logLayer_W;
         LogisticRegression.b := logLayer_b;
         LogisticRegression.p_y_given_x := fun env =>
           map softmax
             (T.add_row (T.dot (dA.hidden_values top env) (mat (state env) logLayer_W))
                        (vec (state env) logLayer_b));
         LogisticRegression.y_pred :=
           {| type := {| dtype := "int64"; ndim := 1 |};
              value := fun env =>
                T.argmax_axis1
                  (map softmax
                     (T.add_row (T.dot (dA.hidden_values top env)
                                       (mat (state env) logLayer_W))
                                (vec (state env) logLayer_b))) |} |}.
Proof.
  unfold SdA.init. intros Hinit.
  destruct (Z.ltb_spec (Z.of_nat (length sizes)) 1) as [|Hlen]; [discriminate|].
  apply bind_Ok in Hinit as [n_hidden [_ Hinit]].
  apply bind_Ok in Hinit as [[layer sa] [Hlayer Hinit]].
  apply bind_Ok in Hinit as [[layers sb] [Hfold Hinit]].
  apply bind_Ok in Hinit as [top [Htop Hinit]].
  apply bind_Ok in Hinit as [n_in [_ Hinit]].
  apply bind_Ok in Hinit as [[logLayer sc] [Hlog Hinit]].
  inversion Hinit; subst classifier s1; clear Hinit. simpl.
  apply dA_init_Ok in Hlayer. simpl in Hlayer.
  apply (add_layers_Ok sizes input) in Hfold as [Hst Hlength].
  - split; [exact Hst|]. simpl in Hlength.
    assert (length layers = length sizes) as Hl.
    { rewrite Hlength. unfold xrange2. rewrite length_seqZ. lia. }
    split; [exact Hl|]. split; [congruence|].
    exists top. split; [exact Htop|].
    unfold LogisticRegression.init in Hlog.
    destruct ((n_in <? 0)%Z || (n_outs <? 0)%Z); [discriminate|].
    inversion Hlog; reflexivity.
  - intros k l Hk. destruct k as [|k]; [|discriminate].
    simpl in Hk. inversion Hk; subst l. subst layer. reflexivity.
Qed.

(** ** What a list of updates does to the state *)

Lemma apply_updates_snoc us u env s :
  apply_updates (us ++ [u]) env s = apply_update env (apply_updates us env s) u.
Proof. unfold apply_updates. rewrite fold_left_app. reflexivity. Qed.

(** A matrix variable no update names keeps its value. *)
Lemma apply_updates_mat_other us env s v :
  (forall e, ~ In (UpdM v e) us) ->
  mat (apply_updates us env s) v = mat s v.
Proof.
  induction us as [|u us IH] using rev_ind; intros Hno; [reflexivity|].
  rewrite apply_updates_snoc.
  assert (mat (apply_updates us env s) v = mat s v) as <-.
  { apply IH. intros e He. apply (Hno e), in_app_iff. left. exact He. }
  destruct u as [v' e'| |]; simpl; try reflexivity.
  destruct (decide (v = v')) as [->|]; [|reflexivity].
  exfalso. apply (Hno e'), in_app_iff. right. left. reflexivity.
Qed.

Lemma apply_updates_vec_other us env s v :
  (forall e, ~ In (UpdV v e) us) ->
  vec (apply_updates us env s) v = vec s v.
Proof.
  induction us as [|u us IH] using rev_ind; intros Hno; [reflexivity|].
  rewrite apply_updates_snoc.
  assert (vec (apply_updates us env s) v = vec s v) as <-.
  { apply IH. intros e He. apply (Hno e), in_app_iff. left. exact He. }
  destruct u as [|v' e'|]; simpl; try reflexivity.
  destruct (decide (v = v')) as [->|]; [|reflexivity].
  exfalso. apply (Hno e'), in_app_iff. right. left. reflexivity.
Qed.

(** A variable named by one update gets the value of its expression in
    the environment of the call. *)
Lemma apply_updates_mat_unique us env s v e :
  In (UpdM v e) us ->
  (forall e', In (UpdM v e') us -> e' = e) ->
  mat (apply_updates us env s) v = e env.
Proof.
  induction us as [|u us IH] using rev_ind; intros Hin Huniq; [destruct Hin|].
  rewrite apply_updates_snoc.
  destruct u as [v' e'| v' e' | i]; simpl.
  - destruct (decide (v = v')) as [->|Hne].
    + rewrite (Huniq e'); [reflexivity|]. apply in_app_iff. right. left. reflexivity.
    + apply IH.
      * apply in_app_iff in Hin as [Hin|[Hin|[]]]; [exact Hin | congruence].
      * intros e2 He2. apply Huniq, in_app_iff. left. exact He2.
  - apply IH.
    + apply in_app_iff in Hin as [Hin|[Hin|[]]]; [exact Hin | discriminate].
    + intros e2 He2. apply Huniq, in_app_iff. left. exact He2.
  - apply IH.
    + apply in_app_iff in Hin as [Hin|[Hin|[]]]; [exact Hin | discriminate].
    + intros e2 He2. apply Huniq, in_app_iff. left. exact He2.
Qed.

Lemma apply_updates_vec_unique us env s v e :
  In (UpdV v e) us ->
  (forall e', In (UpdV v e') us -> e' = e) ->
  vec (apply_updates us env s) v = e env.
Proof.
  induction us as [|u us IH] using rev_ind; intros Hin Huniq; [destruct Hin|].
  rewrite apply_updates_snoc.
  destruct u as [v' e'| v' e' | i]; simpl.
  - apply IH.
    + apply in_app_iff in Hin as [Hin|[Hin|[]]]; [exact Hin | discriminate].
    + intros e2 He2. apply Huniq, in_app_iff. left. exact He2.
  - destruct (decide (v = v')) as [->|Hne].
    + rewrite (Huniq e'); [reflexivity|]. apply in_app_iff. right. left. reflexivity.
    + apply IH.
      * apply in_app_iff in Hin as [Hin|[Hin|[]]]; [exact Hin | congruence].
      * intros e2 He2. apply Huniq, in_app_iff. left. exact He2.
  - apply IH.
    + apply in_app_iff in Hin as [Hin|[Hin|[]]]; [exact Hin | discriminate].
    + intros e2 He2. apply Huniq, in_app_iff. left. exact He2.
Qed.

Lemma apply_updates_mat_expr us env s v e r :
  In (UpdM v e) us ->
  (forall e', In (UpdM v e') us -> e' = e) ->
  r = e env ->
  mat (apply_updates us env s) v = r.
Proof. intros Hin Huniq ->. apply apply_updates_mat_unique; assumption. Qed.

Lemma apply_updates_vec_expr us env s v e r :
  In (UpdV v e) us ->
  (forall e', In (UpdV v e') us -> e' = e) ->
  r = e env ->
  vec (apply_updates us env s) v = r.
Proof. intros Hin Huniq ->. apply apply_updates_vec_unique; assumption. Qed.

Lemma apply_updates_rng_other us env s :
  (forall i, ~ In (UpdRng i) us) ->
  rng (apply_updates us env s) = rng s.
Proof.
  induction us as [|u us IH] using rev_ind; intros Hno; [reflexivity|].
  rewrite apply_updates_snoc.
  assert (rng (apply_updates us env s) = rng s) as <-.
  { apply IH. intros i Hi. apply (Hno i), in_app_iff. left. exact Hi. }
  destruct u as [| |i]; simpl; try reflexivity.
  exfalso. apply (Hno i), in_app_iff. right. left. reflexivity.
Qed.

(** ** The updates of the fine-tuning step *)

(** The two entries the loop adds for the layer at position [i]. *)
Definition layer_entries `{Backend} (cost : Env -> float) (learning_rate : float)
    (i : nat) : list update :=
  [UpdM (dA_W i) (fun env =>
     T.sub (mat (state env) (dA_W i))
           (T.scale_l learning_rate (gradM cost (dA_W i) env)));
   UpdV (dA_b i) (fun env =>
     T.vsub (vec (state env) (dA_b i))
            (T.vscale_l learning_rate (gradV cost (dA_b i) env)))].

Lemma add_updates_fold `{Backend} input classifier cost learning_rate :
  stacked input (SdA.layers classifier) ->
  forall k a acc,
    a + k <= length (SdA.layers classifier) ->
    fold_left (add_updates classifier cost learning_rate)
              (map Z.of_nat (seq a k)) (Ok acc)
    = Ok (acc ++ flat_map (layer_entries cost learning_rate) (seq a k)).
Proof.
  intros Hst. induction k as [|k IH]; intros a acc Hle.
  - simpl. rewrite app_nil_r. reflexivity.
  - cbn [seq map fold_left flat_map].
    destruct (lookup_lt_is_Some_2 (SdA.layers classifier) a) as [l Hl]; [lia|].
    unfold add_updates at 2. cbn [bind].
    rewrite (getitem_nat _ _ _ Hl). cbn [bind].
    rewrite (Hst a l Hl). cbn [dA.W dA.b dA.make].
    rewrite IH by lia. rewrite <- app_assoc. reflexivity.
Qed.

Lemma xrange_of_nat (n : nat) : xrange (Z.of_nat n) = map Z.of_nat (seq 0 n).
Proof.
  unfold xrange, xrange2, seqZ. rewrite Z.sub_0_r, Nat2Z.id.
  apply map_ext. intros i. lia.
Qed.

Lemma xrange2_of_nat (a n : nat) :
  xrange2 (Z.of_nat a) (Z.of_nat (a + n)) = map Z.of_nat (seq a n).
Proof.
  unfold xrange2, seqZ.
  replace (Z.of_nat (a + n) - Z.of_nat a)%Z with (Z.of_nat n) by lia.
  rewrite Nat2Z.id.
  replace (seq a n) with (map (Nat.add a) (seq 0 n)).
  - rewrite map_map. apply map_ext. intros i. lia.
  - rewrite <- (Nat.add_0_r a) at 2. apply (fmap_add_seq a 0 n).
Qed.

Lemma finetune_updates_Ok `{Backend} input n_ins sizes n_outs s0 classifier s1
    cost learning_rate :
  SdA.init input n_ins sizes n_outs s0 = Ok (classifier, s1) ->
  finetune_updates classifier cost learning_rate
  = Ok (flat_map (layer_entries cost learning_rate) (seq 0 (length sizes)) ++
        [UpdM logLayer_W (fun env =>
           T.sub (mat (state env) logLayer_W)
                 (T.scale_l learning_rate (gradM cost logLayer_W env)));
         UpdV logLayer_b (fun env =>
           T.vsub (vec (state env) logLayer_b)
                  (T.vscale_l learning_rate (gradV cost logLayer_b env)))]).
Proof.
  intros Hinit.
  apply SdA_init_Ok in Hinit as (Hst & Hlen & Hn & top & _ & Hlog).
  unfold finetune_updates. rewrite Hn, xrange_of_nat.
  rewrite (add_updates_fold input) by (try assumption; lia).
  cbn [bind app]. rewrite Hlog. reflexivity.
Qed.

Lemma in_finetune_updates_W `{Backend} cost learning_rate n i e tail :
  In (UpdM (dA_W i) e) (flat_map (layer_entries cost learning_rate) (seq 0 n) ++ tail) ->
  (forall e', ~ In (UpdM (dA_W i) e') tail) ->
  e = (fun env => T.sub (mat (state env) (dA_W i))
                        (T.scale_l learning_rate (gradM cost (dA_W i) env))).
Proof.
  intros Hin Htail. apply in_app_iff in Hin as [Hin|Hin]; [|destruct (Htail e Hin)].
  apply in_flat_map in Hin as [j [_ Hj]].
  destruct Hj as [Hj|[Hj|[]]]; [|discriminate].
  inversion Hj; subst. reflexivity.
Qed.

Lemma in_finetune_updates_b `{Backend} cost learning_rate n i e tail :
  In (UpdV (dA_b i) e) (flat_map (layer_entries cost learning_rate) (seq 0 n) ++ tail) ->
  (forall e', ~ In (UpdV (dA_b i) e') tail) ->
  e = (fun env => T.vsub (vec (state env) (dA_b i))
                         (T.vscale_l learning_rate (gradV cost (dA_b i) env))).
Proof.
  intros Hin Htail. apply in_app_iff in Hin as [Hin|Hin]; [|destruct (Htail e Hin)].
  apply in_flat_map in Hin as [j [_ Hj]].
  destruct Hj as [Hj|[Hj|[]]]; [discriminate|].
  inversion Hj; subst. reflexivity.
Qed.

Lemma layer_entries_in `{Backend} cost learning_rate n i u tail :
  i < n ->
  In u (layer_entries cost learning_rate i) ->
  In u (flat_map (layer_entries cost learning_rate) (seq 0 n) ++ tail).
Proof.
  intros Hi Hu. apply in_app_iff. left. apply in_flat_map.
  exists i. split; [apply in_seq; lia | exact Hu].
Qed.

(** C3: one call of [train_model] replaces, in one joint update, the [W]
    and [b] of every layer and of the logistic layer by [param -
    learning_rate * grad], each gradient taken in the state before the
    call, and leaves every [b_prime] as it was. *)
Theorem finetune_joint_update `{Backend} input n_ins sizes n_outs s0 classifier s1
    learning_rate train_x train_y bs :
  SdA.init input n_ins sizes n_outs s0 = Ok (classifier, s1) ->
  exists f,
    train_model classifier learning_rate train_x train_y bs = Ok f /\
    forall index s,
      let cost := SdA.negative_log_likelihood classifier y in
      let logLayer := SdA.logLayer classifier in
      let env := {| state := s; x_given := minibatch train_x bs index;
                    y_given := minibatch train_y bs index |} in
      let s' := snd (f index s) in
      fst (f index s) = cost env /\
      (forall i layer, SdA.layers classifier !! i = Some layer ->
         mat s' (dA.W layer)
         = T.sub (mat s (dA.W layer))
                 (T.scale_l learning_rate (gradM cost (dA.W layer) env)) /\
         vec s' (dA.b layer)
         = T.vsub (vec s (dA.b layer))
                  (T.vscale_l learning_rate (gradV cost (dA.b layer) env)) /\
         vec s' (dA.b_prime layer) = vec s (dA.b_prime layer)) /\
      mat s' (LogisticRegression.W logLayer)
      = T.sub (mat s (LogisticRegression.W logLayer))
              (T.scale_l learning_rate
                 (gradM cost (LogisticRegression.W logLayer) env)) /\
      vec s' (LogisticRegression.b logLayer)
      = T.vsub (vec s (LogisticRegression.b logLayer))
               (T.vscale_l learning_rate
                  (gradV cost (LogisticRegression.b logLayer) env)) /\
      (forall i, vec s' (dA_b_prime i) = vec s (dA_b_prime i)).
Proof.
  intros Hinit.
  pose proof (finetune_updates_Ok _ _ _ _ _ _ _
                (SdA.negative_log_likelihood classifier y) learning_rate Hinit) as Hus.
  apply SdA_init_Ok in Hinit as (Hst & Hlen & Hn & top & _ & Hlog).
  eexists. split; [unfold train_model; rewrite Hus; reflexivity|].
  intros index s cost logLayer env s'.
  subst logLayer. rewrite Hlog. cbn [LogisticRegression.W LogisticRegression.b].
  assert (forall i, vec s' (dA_b_prime i) = vec s (dA_b_prime i)) as Hprime.
  { intros i. subst s'. unfold function. cbn [snd].
    apply apply_updates_vec_other. intros e He.
    apply in_app_iff in He as [He|[He|[He|[]]]]; try discriminate.
    apply in_flat_map in He as [j [_ [Hj|[Hj|[]]]]]; discriminate. }
  split; [reflexivity|]. split; [|split; [|split]].
  - intros i layer Hl.
    assert (i < length sizes) as Hi.
    { rewrite <- Hlen. eapply lookup_lt_Some. exact Hl. }
    rewrite (Hst i layer Hl). cbn [dA.W dA.b dA.b_prime dA.make].
    split; [|split; [|apply Hprime]]; subst s'; unfold function; cbn [snd].
    + apply (apply_updates_mat_expr _ _ _ _
               (fun env => T.sub (mat (state env) (dA_W i))
                   (T.scale_l learning_rate (gradM cost (dA_W i) env))));
        [| |reflexivity].
      * apply (layer_entries_in _ _ _ i); [exact Hi | left; reflexivity].
      * intros e' He'. apply (in_finetune_updates_W _ _ _ _ _ _ He').
        intros e2 [He2|[He2|[]]]; discriminate.
    + apply (apply_updates_vec_expr _ _ _ _
               (fun env => T.vsub (vec (state env) (dA_b i))
                   (T.vscale_l learning_rate (gradV cost (dA_b i) env))));
        [| |reflexivity].
      * apply (layer_entries_in _ _ _ i); [exact Hi | right; left; reflexivity].
      * intros e' He'. apply (in_finetune_updates_b _ _ _ _ _ _ He').
        intros e2 [He2|[He2|[]]]; discriminate.
  - subst s'. unfold function. cbn [snd].
    apply (apply_updates_mat_expr _ _ _ _
             (fun env => T.sub (mat (state env) logLayer_W)
                 (T.scale_l learning_rate (gradM cost logLayer_W env))));
      [| |reflexivity].
    + apply in_app_iff. right. left. reflexivity.
    + intros e' He'. apply in_app_iff in He' as [He'|[He'|[He'|[]]]].
      * apply in_flat_map in He' as [j [_ [Hj|[Hj|[]]]]]; discriminate.
      * inversion He'. reflexivity.
      * discriminate.
  - subst s'. unfold function. cbn [snd].
    apply (apply_updates_vec_expr _ _ _ _
             (fun env => T.vsub (vec (state env) logLayer_b)
                 (T.vscale_l learning_rate (gradV cost logLayer_b env))));
      [| |reflexivity].
    + apply in_app_iff. right. right. left. reflexivity.
    + intros e' He'. apply in_app_iff in He' as [He'|[He'|[He'|[]]]].
      * apply in_flat_map in He' as [j [_ [Hj|[Hj|[]]]]]; discriminate.
      * discriminate.
      * inversion He'. reflexivity.
  - exact Hprime.
Qed.

(** ** Pretraining: what one step changes, and the order of the layers *)

(** The states a compiled function reaches from [s] by any calls. *)
Inductive steps {O} (f : Z -> State -> O * State) (s : State) : State -> Prop :=
| steps_refl : steps f s s
| steps_step t index : steps f s t -> steps f s (snd (f index t)).

(** [t] differs from [s] at most in [W], [b], [b_prime] (and the random
    stream) of the dA at position [i]. *)
Definition same_except (i : nat) (s t : State) : Prop :=
  (forall v, v <> dA_W i -> mat t v = mat s v) /\
  (forall v, v <> dA_b i -> v <> dA_b_prime i -> vec t v = vec s v).

Lemma same_except_refl i s : same_except i s s.
Proof. split; reflexivity. Qed.

Lemma same_except_trans i s t u :
  same_except i s t -> same_except i t u -> same_except i s u.
Proof.
  intros [Hm1 Hv1] [Hm2 Hv2]. split; intros v.
  - intros Hv. rewrite Hm2, Hm1 by assumption. reflexivity.
  - intros Hb Hb'. rewrite Hv2, Hv1 by assumption. reflexivity.
Qed.


(** The entries of [updates] in [layer_update], for position [i]. *)
Definition pretrain_entries `{Backend} (cost : Env -> float)
    (pretraining_lr : float) (i : nat) : list update :=
  [UpdM (dA_W i) (fun env =>
     T.sub (mat (state env) (dA_W i))
           (T.scale_r (gradM cost (dA_W i) env) pretraining_lr));
   UpdV (dA_b i) (fun env =>
     T.vsub (vec (state env) (dA_b i))
            (T.vscale_r (gradV cost (dA_b i) env) pretraining_lr));
   UpdV (dA_b_prime i) (fun env =>
     T.vsub (vec (state env) (dA_b_prime i))
            (T.vscale_r (gradV cost (dA_b_prime i) env) pretraining_lr));
   UpdRng i].

Lemma layer_update_Ok `{Backend} input classifier pretraining_lr train_x bs i layer :
  stacked input (SdA.layers classifier) ->
  SdA.layers classifier !! i = Some layer ->
  layer_update classifier pretraining_lr train_x bs (Z.of_nat i)
  = Ok (function (fun env => (dA.cost layer env, dA.x layer env, dA.z layer env))
          (pretrain_entries (dA.cost layer) pretraining_lr i)
          (fun index => (minibatch train_x bs index, []))).
Proof.
  intros Hst Hl. unfold layer_update.
  rewrite (getitem_nat _ _ _ Hl). cbn [bind]. rewrite Nat2Z.id.
  rewrite (Hst i layer Hl). reflexivity.
Qed.

Lemma pretrain_entries_same_except `{Backend} cost pretraining_lr i env s :
  same_except i s (apply_updates (pretrain_entries cost pretraining_lr i) env s).
Proof.
  split; intros v; simpl.
  - intros Hv. destruct (decide (v = dA_W i)); [contradiction | reflexivity].
  - intros Hb Hb'.
    destruct (decide (v = dA_b_prime i)); [contradiction|].
    destruct (decide (v = dA_b i)); [contradiction | reflexivity].
Qed.

Lemma steps_same_except `{Backend} {O} (outputs : Env -> O) cost pretraining_lr i
    givens s t :
  steps (function outputs (pretrain_entries cost pretraining_lr i) givens) s t ->
  same_except i s t.
Proof.
  induction 1 as [|t index _ IH]; [apply same_except_refl|].
  eapply same_except_trans; [exact IH|]. apply pretrain_entries_same_except.
Qed.

Lemma pretraining_batches_steps {O} (f : Z -> State -> O * State) indices s sc :
  steps f s (fst sc) -> steps f s (fst (pretraining_batches f indices sc)).
Proof.
  unfold pretraining_batches. revert sc.
  induction indices as [|index indices IH]; intros sc Hsc; simpl; [exact Hsc|].
  apply IH. pose proof (steps_step f s (fst sc) index Hsc) as Hstep.
  destruct (f index (fst sc)) as [c t]. exact Hstep.
Qed.

(** [c] is bound after the pass when it was bound before, or when a
    minibatch was taken. *)
Lemma pretraining_batches_bound {O} (f : Z -> State -> O * State) indices sc :
  indices <> [] \/ snd sc <> None ->
  snd (pretraining_batches f indices sc) <> None.
Proof.
  unfold pretraining_batches. revert sc.
  induction indices as [|index indices IH]; intros sc Hsc; simpl.
  - destruct Hsc as [Hsc|Hsc]; [congruence | exact Hsc].
  - apply IH. right. destruct (f index (fst sc)) as [c t]. discriminate.
Qed.

Lemma xrange_nil (n : Z) : (n <= 0)%Z -> xrange n = [].
Proof. intros Hn. unfold xrange, xrange2, seqZ. replace (Z.to_nat (n - 0)) with 0 by lia. reflexivity. Qed.

Lemma xrange_cons (n : Z) : (1 <= n)%Z -> xrange n = 0%Z :: xrange2 1 n.
Proof.
  intros Hn. unfold xrange, xrange2.
  rewrite seqZ_cons by lia. repeat f_equal; lia.
Qed.

Lemma pretraining_epoch_Ok {O} (f : Z -> State -> O * State) n_train_batches sc :
  (1 <= n_train_batches)%Z \/ snd sc <> None ->
  exists sc', pretraining_epoch f n_train_batches sc = Ok sc'.
Proof.
  intros Hsc. unfold pretraining_epoch. cbv zeta.
  pose proof (pretraining_batches_bound f (xrange n_train_batches) sc) as Hbound.
  destruct (snd (pretraining_batches f (xrange n_train_batches) sc)) as [c|].
  - eexists. reflexivity.
  - exfalso. apply Hbound; [|reflexivity].
    destruct Hsc as [Hn|Hsc]; [left | right; exact Hsc].
    rewrite xrange_cons by exact Hn. discriminate.
Qed.

(** An epoch that returns has made calls of [layer_update] only, and [c]
    is bound after it. *)
Lemma pretraining_epoch_steps {O} (f : Z -> State -> O * State) n_train_batches
    s sc sc' :
  steps f s (fst sc) ->
  pretraining_epoch f n_train_batches sc = Ok sc' ->
  steps f s (fst sc') /\ snd sc' <> None.
Proof.
  intros Hsc. unfold pretraining_epoch. cbv zeta.
  pose proof (pretraining_batches_steps f (xrange n_train_batches) s sc Hsc) as Hsteps.
  destruct (snd (pretraining_batches f (xrange n_train_batches) sc)) as [c|] eqn:Hc;
    [|discriminate].
  intros Heq. inversion Heq; subst sc'. split; [exact Hsteps|].
  rewrite Hc. discriminate.
Qed.

(** With no minibatch and [c] unbound, the [print] that ends the epoch
    raises. *)
Lemma pretraining_epoch_unbound {O} (f : Z -> State -> O * State) n_train_batches s :
  (n_train_batches <= 0)%Z ->
  pretraining_epoch f n_train_batches (s, None) = Raise (UnboundLocalError "c").
Proof.
  intros Hn. unfold pretraining_epoch. rewrite (xrange_nil _ Hn). reflexivity.
Qed.

Lemma pretraining_epochs_Raise {O} (f : Z -> State -> O * State) n_train_batches
    (epochs : list Z) e :
  fold_left (fun acc (epoch : Z) =>
               do sc <- acc; pretraining_epoch f n_train_batches sc)
            epochs (Raise e) = Raise e.
Proof. apply fold_left_Raise. reflexivity. Qed.

(** The pretraining epochs of a layer are calls of its [layer_update]. *)
Lemma pretraining_epochs_loop_steps {O} (f : Z -> State -> O * State)
    pretraining_epochs n_train_batches sc sc' :
  pretraining_epochs_loop f pretraining_epochs n_train_batches sc = Ok sc' ->
  steps f (fst sc) (fst sc').
Proof.
  unfold pretraining_epochs_loop.
  assert (forall (epochs : list Z) sc1,
            steps f (fst sc) (fst sc1) ->
            fold_left (fun acc (epoch : Z) =>
                         do sc <- acc; pretraining_epoch f n_train_batches sc)
                      epochs (Ok sc1) = Ok sc' ->
            steps f (fst sc) (fst sc')) as Hfold.
  { induction epochs as [|epoch epochs IH]; intros sc1 Hsc1 Heq.
    - simpl in Heq. inversion Heq; subst sc'. exact Hsc1.
    - cbn [fold_left bind] in Heq.
      destruct (pretraining_epoch f n_train_batches sc1) as [sc2|e] eqn:Hepoch.
      + apply (IH sc2); [|exact Heq].
        apply (pretraining_epoch_steps f n_train_batches _ sc1 sc2 Hsc1 Hepoch).
      + rewrite pretraining_epochs_Raise in Heq. discriminate. }
  apply Hfold. apply steps_refl.
Qed.

(** They all return when every epoch takes a minibatch, when [c] is bound
    already, or when there is no epoch. *)
Lemma pretraining_epochs_loop_Ok {O} (f : Z -> State -> O * State)
    pretraining_epochs n_train_batches sc :
  (1 <= n_train_batches)%Z \/ (pretraining_epochs <= 0)%Z \/ snd sc <> None ->
  exists sc', pretraining_epochs_loop f pretraining_epochs n_train_batches sc = Ok sc'.
Proof.
  intros Hsc. unfold pretraining_epochs_loop.
  assert (forall (epochs : list Z) sc1,
            (1 <= n_train_batches)%Z \/ epochs = [] \/ snd sc1 <> None ->
            exists sc',
              fold_left (fun acc (epoch : Z) =>
                           do sc <- acc; pretraining_epoch f n_train_batches sc)
                        epochs (Ok sc1) = Ok sc') as Hfold.
  { induction epochs as [|epoch epochs IH]; intros sc1 Hsc1.
    - eexists. reflexivity.
    - cbn [fold_left bind].
      destruct (pretraining_epoch_Ok f n_train_batches sc1) as [sc2 Hepoch].
      { destruct Hsc1 as [Hn|[Hnil|Hc]]; [left; exact Hn | discriminate | right; exact Hc]. }
      rewrite Hepoch. apply IH. right. right.
      apply (pretraining_epoch_steps f n_train_batches (fst sc1) sc1 sc2);
        [apply steps_refl | exact Hepoch]. }
  apply Hfold.
  destruct Hsc as [Hn|[He|Hc]]; [left; exact Hn | right; left | right; right; exact Hc].
  apply xrange_nil. exact He.
Qed.

(** With no minibatch, the first epoch of the first layer raises. *)
Lemma pretraining_epochs_loop_unbound {O} (f : Z -> State -> O * State)
    pretraining_epochs n_train_batches s :
  (1 <= pretraining_epochs)%Z -> (n_train_batches <= 0)%Z ->
  pretraining_epochs_loop f pretraining_epochs n_train_batches (s, None)
  = Raise (UnboundLocalError "c").
Proof.
  intros He Hn. unfold pretraining_epochs_loop.
  rewrite (xrange_cons _ He). cbn [fold_left bind].
  rewrite (pretraining_epoch_unbound f _ s Hn).
  apply pretraining_epochs_Raise.
Qed.

Lemma pretrain_layer_Raise `{Backend} classifier pretraining_lr train_x bs
    pretraining_epochs n_train_batches (indices : list Z) e :
  fold_left (pretrain_layer classifier pretraining_lr train_x bs
               pretraining_epochs n_train_batches) indices (Raise e) = Raise e.
Proof. apply fold_left_Raise. reflexivity. Qed.

Lemma pretrain_layer_Ok `{Backend} input classifier pretraining_lr train_x bs
    pretraining_epochs n_train_batches i layer sc :
  stacked input (SdA.layers classifier) ->
  SdA.layers classifier !! i = Some layer ->
  pretrain_layer classifier pretraining_lr train_x bs pretraining_epochs
                 n_train_batches (Ok sc) (Z.of_nat i)
  = pretraining_epochs_loop
      (function (fun env => (dA.cost layer env, dA.x layer env, dA.z layer env))
         (pretrain_entries (dA.cost layer) pretraining_lr i)
         (fun index => (minibatch train_x bs index, [])))
      pretraining_epochs n_train_batches sc.
Proof.
  intros Hst Hl. unfold pretrain_layer. cbn [bind].
  rewrite (layer_update_Ok input _ _ _ _ _ layer Hst Hl). reflexivity.
Qed.

(** Pretraining the layers at the positions [indices], in that order,
    touches the variables of those layers only. *)
Lemma pretrain_layers_frame `{Backend} input classifier pretraining_lr train_x bs
    pretraining_epochs n_train_batches :
  stacked input (SdA.layers classifier) ->
  forall indices sc t,
    (forall i, In i indices -> i < length (SdA.layers classifier)) ->
    fold_left (pretrain_layer classifier pretraining_lr train_x bs
                 pretraining_epochs n_train_batches)
              (map Z.of_nat indices) (Ok sc) = Ok t ->
    (forall v, (forall i, In i indices -> v <> dA_W i) ->
               mat (fst t) v = mat (fst sc) v) /\
    (forall v, (forall i, In i indices -> v <> dA_b i /\ v <> dA_b_prime i) ->
               vec (fst t) v = vec (fst sc) v).
Proof.
  intros Hst. induction indices as [|i indices IH]; intros sc t Hlt Hfold.
  - simpl in Hfold. inversion Hfold; subst t. split; reflexivity.
  - destruct (lookup_lt_is_Some_2 (SdA.layers classifier) i) as [layer Hl].
    { apply Hlt. left. reflexivity. }
    cbn [map fold_left] in Hfold.
    rewrite (pretrain_layer_Ok input _ _ _ _ _ _ _ layer sc Hst Hl) in Hfold.
    match type of Hfold with
    | context [pretraining_epochs_loop ?f ?e ?n sc] =>
        destruct (pretraining_epochs_loop f e n sc) as [sc1|err] eqn:Hloop
    end.
    + apply pretraining_epochs_loop_steps in Hloop.
      apply steps_same_except in Hloop as [Hm Hv].
      apply IH in Hfold as [Htm Htv].
      2:{ intros j Hj. apply Hlt. right. exact Hj. }
      split; intros v Hv'.
      * rewrite Htm, Hm; [reflexivity | |].
        -- apply Hv'. left. reflexivity.
        -- intros j Hj. apply Hv'. right. exact Hj.
      * rewrite Htv, Hv; [reflexivity | | |].
        -- apply (Hv' i). left. reflexivity.
        -- apply (Hv' i). left. reflexivity.
        -- intros j Hj. apply Hv'. right. exact Hj.
    + rewrite pretrain_layer_Raise in Hfold. discriminate.
Qed.

(** It returns when every epoch takes a minibatch, or when there is no
    epoch. *)
Lemma pretrain_layers_Ok `{Backend} input classifier pretraining_lr train_x bs
    pretraining_epochs n_train_batches :
  stacked input (SdA.layers classifier) ->
  (1 <= n_train_batches)%Z \/ (pretraining_epochs <= 0)%Z ->
  forall indices sc,
    (forall i, In i indices -> i < length (SdA.layers classifier)) ->
    exists t,
      fold_left (pretrain_layer classifier pretraining_lr train_x bs
                   pretraining_epochs n_train_batches)
                (map Z.of_nat indices) (Ok sc) = Ok t.
Proof.
  intros Hst Hrun. induction indices as [|i indices IH]; intros sc Hlt.
  - exists sc. reflexivity.
  - destruct (lookup_lt_is_Some_2 (SdA.layers classifier) i) as [layer Hl].
    { apply Hlt. left. reflexivity. }
    cbn [map fold_left].
    rewrite (pretrain_layer_Ok input _ _ _ _ _ _ _ layer sc Hst Hl).
    match goal with
    | |- context [pretraining_epochs_loop ?f ?e ?n sc] =>
        destruct (pretraining_epochs_loop_Ok f e n sc) as [sc1 Hloop]
    end.
    { destruct Hrun as [Hn|He]; [left; exact Hn | right; left; exact He]. }
    rewrite Hloop. apply IH. intros j Hj. apply Hlt. right. exact Hj.
Qed.

Lemma getitem_nonempty {A} (l : list A) (a : A) :
  getitem l (-1) = Ok a -> 0 < length l.
Proof. destruct l; [discriminate | simpl; lia]. Qed.

(** With a training set of fewer examples than a minibatch and at least
    one pretraining epoch, pretraining stops at the end of the first epoch
    of the first layer: no call has assigned [c]. *)
Lemma pretrain_unbound `{Backend} input n_ins sizes n_outs s0 classifier s1
    pretraining_lr train_x bs pretraining_epochs n_train_batches s :
  SdA.init input n_ins sizes n_outs s0 = Ok (classifier, s1) ->
  (1 <= pretraining_epochs)%Z -> (n_train_batches <= 0)%Z ->
  pretrain classifier pretraining_lr train_x bs pretraining_epochs
           n_train_batches s = Raise (UnboundLocalError "c").
Proof.
  intros Hinit He Hn.
  apply SdA_init_Ok in Hinit as (Hst & Hlen & Hlayers & top & Htop & _).
  apply getitem_nonempty in Htop.
  destruct (lookup_lt_is_Some_2 (SdA.layers classifier) 0 Htop) as [layer Hl].
  unfold pretrain. rewrite Hlayers, xrange_cons by lia. cbn [fold_left].
  rewrite (pretrain_layer_Ok input _ _ _ _ _ _ 0 layer (s, None) Hst Hl).
  rewrite pretraining_epochs_loop_unbound by assumption.
  rewrite pretrain_layer_Raise. reflexivity.
Qed.



(** ** The stacked forward pass *)

Lemma forward_with_rng `{Backend} (input : Env -> Matrix) :
  (forall env r, input (with_rng r env) = input env) ->
  forall k env r, forward input k (with_rng r env) = forward input k env.
Proof.
  intros Hinput. induction k as [|k IH]; intros env r; [apply Hinput|].
  cbn [forward]. rewrite IH. reflexivity.
Qed.

(** C5: the layers are chained in order.  Layer 0 reads the input of the
    model, layer [i+1] reads the hidden values of layer [i], which are
    [sigmoid(x . W + b)] of that layer's own uncorrupted input [x], and
    the logistic layer reads the hidden values of the last layer.  No
    random draw enters the chain. *)
Theorem forward_pass_sequential `{Backend} input n_ins sizes n_outs s0 classifier s1 :
  SdA.init input n_ins sizes n_outs s0 = Ok (classifier, s1) ->
  let layers := SdA.layers classifier in
  (exists layer, layers !! 0 = Some layer /\ dA.x layer = input) /\
  (forall i layer layer', layers !! i = Some layer -> layers !! S i = Some layer' ->
     dA.x layer' = dA.hidden_values layer) /\
  (forall i layer env, layers !! i = Some layer ->
     dA.hidden_values layer env
     = msigmoid (T.add_row (T.dot (dA.x layer env) (mat (state env) (dA.W layer)))
                           (vec (state env) (dA.b layer))) /\
     dA.hidden_values layer env = forward input (S i) env) /\
  (exists top, getitem layers (-1) = Ok top /\
     forall env,
       LogisticRegression.p_y_given_x (SdA.logLayer classifier) env
       = map softmax
           (T.add_row (T.dot (dA.hidden_values top env)
                             (mat (state env) (LogisticRegression.W (SdA.logLayer classifier))))
                      (vec (state env) (LogisticRegression.b (SdA.logLayer classifier))))) /\
  ((forall env r, input (with_rng r env) = input env) ->
   forall i layer env r, layers !! i = Some layer ->
     dA.hidden_values layer (with_rng r env) = dA.hidden_values layer env).
Proof.
  intros Hinit layers.
  apply SdA_init_Ok in Hinit as (Hst & Hlen & Hn & top & Htop & Hlog).
  assert (forall i layer env, layers !! i = Some layer ->
            dA.hidden_values layer env = forward input (S i) env) as Hfwd.
  { intros i layer env Hl. rewrite (Hst i layer Hl). reflexivity. }
  split; [|split; [|split; [|split]]].
  - destruct (lookup_lt_is_Some_2 layers 0) as [layer Hl].
    { subst layers. destruct (SdA.layers classifier); [discriminate Htop | simpl; lia]. }
    exists layer. split; [exact Hl|]. rewrite (Hst 0 layer Hl). reflexivity.
  - intros i layer layer' Hl Hl'.
    rewrite (Hst i layer Hl), (Hst (S i) layer' Hl'). reflexivity.
  - intros i layer env Hl. split; [|apply Hfwd; exact Hl].
    rewrite (Hst i layer Hl). reflexivity.
  - exists top. split; [exact Htop|]. intros env. rewrite Hlog. reflexivity.
  - intros Hinput i layer env r Hl.
    rewrite !(Hfwd i layer _ Hl). apply forward_with_rng. exact Hinput.
Qed.

(** ** The reconstruction loss, example by example *)

Module Spec.

(** The operations of a layer on one example, as the specification
    words them. *)
Definition encode `{Backend} (W : Matrix) (b : Vector) (v : Vector) : Vector :=
  map sigmoid (T.vadd (T.vecmat v W) b).
Definition corrupt (mask v : Vector) : Vector := T.vmul mask v.
Definition encode_corrupted `{Backend} (W : Matrix) (b : Vector)
    (mask v : Vector) : Vector :=
  encode W b (corrupt mask v).
Definition decode `{Backend} (W : Matrix) (b_prime : Vector) (h : Vector) : Vector :=
  map sigmoid (T.vadd (T.vecmat h (T.transpose W)) b_prime).

(** [- sum_k (x_k log z_k + (1 - x_k) log (1 - z_k))]. *)
Definition cross_entropy `{Backend} (v z : Vector) : float :=
  PrimFloat.opp
    (T.sum (zip_with (fun xk zk => (xk * log zk + (1 - xk) * log (1 - zk))%float)
                     v z)).

(** The mean over the batch, each example with its own mask. *)
Definition reconstruction_loss `{Backend} (W : Matrix) (b b_prime : Vector)
    (masks batch : Matrix) : float :=
  T.mean (zip_with (fun mask v =>
                      cross_entropy v (decode W b_prime (encode_corrupted W b mask v)))
                   masks batch).

(** [mean_i 1[argmax p(.|x_i) <> y_i]]. *)
Definition error_rate (p : Matrix) (labels : list Z) : float :=
  T.mean (zip_with (fun row yi => if Z.eqb (T.argmax row) yi
                                  then of_Z 0 else of_Z 1)
                   p labels).

End Spec.

Lemma row_cross_entropy `{Backend} (v z : Vector) :
  T.sum (T.vadd (T.vmul v (vlog z))
                (T.vmul (T.vone_minus v) (vlog (T.vone_minus z))))
  = T.sum (zip_with (fun xk zk => (xk * log zk + (1 - xk) * log (1 - zk))%float) v z).
Proof.
  f_equal. revert z. induction v as [|xk v IH]; intros [|zk z]; try reflexivity.
  cbn. f_equal. apply IH.
Qed.

Lemma batch_cross_entropy `{Backend} (g : Vector -> Vector) (masks batch : Matrix) :
  let z := map g (T.mul masks batch) in
  T.vneg (T.sum_axis1
            (T.add (T.mul batch (mlog z))
                   (T.mul (T.one_minus batch) (mlog (T.one_minus z)))))
  = zip_with (fun mask v => Spec.cross_entropy v (g (Spec.corrupt mask v)))
             masks batch.
Proof.
  cbv zeta. revert batch.
  induction masks as [|mask masks IH]; intros [|v batch]; try reflexivity.
  cbn [T.mul T.add T.one_minus mlog T.sum_axis1 T.vneg zip_with map] in *.
  f_equal; [|apply IH].
  unfold Spec.cross_entropy. rewrite <- row_cross_entropy. reflexivity.
Qed.

(** C6: the cost of a dA is the mean over the batch of the summed binary
    cross-entropy of each example [x] against its reconstruction [z],
    where [z] decodes the encoding of the corrupted example while the
    entropy is taken against the uncorrupted one. *)
Theorem reconstruction_loss_formula `{Backend} i n_visible n_hidden input s layer s' :
  dA.init i n_visible n_hidden input s = Ok (layer, s') ->
  forall env,
    let batch := dA.x layer env in
    let masks := binomial i (rng (state env) i)
                   (fst (T.shape batch)) (snd (T.shape batch)) in
    dA.tilde_x layer env = zip_with Spec.corrupt masks batch /\
    dA.z layer env
    = map (fun v => Spec.decode (mat (state env) (dA.W layer))
                                (vec (state env) (dA.b_prime layer))
                      (Spec.encode (mat (state env) (dA.W layer))
                                   (vec (state env) (dA.b layer)) v))
          (dA.tilde_x layer env) /\
    dA.cost layer env
    = Spec.reconstruction_loss (mat (state env) (dA.W layer))
        (vec (state env) (dA.b layer)) (vec (state env) (dA.b_prime layer))
        masks batch.
Proof.
  intros Hinit env. apply dA_init_Ok in Hinit. subst layer.
  intros batch masks. split; [reflexivity|]. split.
  - cbn [dA.z dA.make dA.W dA.b dA.b_prime dA.tilde_x].
    unfold msigmoid, T.add_row, T.dot. rewrite !map_map. reflexivity.
  - cbn [dA.cost dA.make dA.W dA.b dA.b_prime].
    unfold Spec.reconstruction_loss, Spec.encode_corrupted. f_equal.
    rewrite <- (batch_cross_entropy
                  (fun v => Spec.decode (mat (state env) (dA_W i))
                              (vec (state env) (dA_b_prime i))
                              (Spec.encode (mat (state env) (dA_W i))
                                           (vec (state env) (dA_b i)) v))).
    cbv zeta. unfold msigmoid, T.add_row, T.dot. rewrite !map_map. reflexivity.
Qed.

(** ** Tied weights *)

(** C7: for every layer, in every environment (so in every state the
    training reaches), [W_prime] is the transpose of the current [W], and
    the reconstruction [z] decodes with it; after a pretraining step it is
    the transpose of the updated [W].  It is no shared variable of its
    own: the matrix variables are the [W] of the layers and of the
    logistic layer. *)
Theorem W_prime_is_transpose `{Backend} input n_ins sizes n_outs s0 classifier s1
    pretraining_lr train_x bs :
  SdA.init input n_ins sizes n_outs s0 = Ok (classifier, s1) ->
  forall i layer, SdA.layers classifier !! i = Some layer ->
    (forall env,
       dA.W_prime layer env = T.transpose (mat (state env) (dA.W layer))) /\
    (forall env,
       dA.z layer env
       = msigmoid (T.add_row (T.dot (dA.y layer env)
                                    (T.transpose (mat (state env) (dA.W layer))))
                             (vec (state env) (dA.b_prime layer)))) /\
    (forall O (f : Z -> State -> O * State) index st env,
       dA.W_prime layer (with_state (snd (f index st)) env)
       = T.transpose (mat (snd (f index st)) (dA.W layer))) /\
    (exists f,
       layer_update classifier pretraining_lr train_x bs (Z.of_nat i) = Ok f /\
       forall index st env,
         dA.W_prime layer (with_state (snd (f index st)) env)
         = T.transpose
             (T.sub (mat st (dA.W layer))
                    (T.scale_r
                       (gradM (dA.cost layer) (dA.W layer)
                          {| state := st; x_given := minibatch train_x bs index;
                             y_given := [] |})
                       pretraining_lr))) /\
    (forall v : matrix_var, v = logLayer_W \/ exists j, v = dA_W j).
Proof.
  intros Hinit i layer Hl.
  apply SdA_init_Ok in Hinit as (Hst & _).
  assert (forall env,
            dA.W_prime layer env = T.transpose (mat (state env) (dA.W layer)))
    as Hview.
  { intros env. rewrite (Hst i layer Hl). reflexivity. }
  split; [exact Hview|]. split; [|split; [|split]].
  - intros env. rewrite (Hst i layer Hl). reflexivity.
  - intros O f index st env. apply Hview.
  - eexists. split; [apply (layer_update_Ok input _ _ _ _ _ layer Hst Hl)|].
    intros index st env. rewrite Hview. f_equal.
    rewrite (Hst i layer Hl). cbn [dA.W dA.make].
    cbn [with_state state].
    unfold function, pretrain_entries. cbn [snd fst].
    cbn [apply_updates fold_left apply_update].
    cbn. rewrite decide_True by reflexivity. reflexivity.
  - intros [j|]; [right; exists j; reflexivity | left; reflexivity].
Qed.

(** ** Construction of the stack *)

(** C8 (the code at the failing input): with no hidden layer the
    constructor raises [NameError] for the unbound name
    [raiseException], whatever the other arguments. *)
Theorem SdA_init_no_hidden_layer `{Backend} input n_ins n_outs s :
  SdA.init input n_ins [] n_outs s = Raise (NameError "raiseException").
Proof. reflexivity. Qed.

Lemma getitem_lookup {A} (l : list A) (i : nat) :
  i < length l -> exists a, l !! i = Some a /\ getitem l (Z.of_nat i) = Ok a.
Proof.
  intros Hi. destruct (lookup_lt_is_Some_2 l i Hi) as [a Ha].
  exists a. split; [exact Ha | apply getitem_nat; exact Ha].
Qed.

Lemma dA_init_succeeds `{Backend} i n_visible n_hidden input s :
  (0 <= n_visible)%Z -> (0 < n_hidden)%Z ->
  exists s', dA.init i n_visible n_hidden input s
             = Ok (dA.make i n_visible n_hidden input, s').
Proof.
  intros Hv Hh. unfold dA.init.
  destruct (Z.eqb_spec (n_visible + n_hidden) 0) as [|_]; [lia|].
  destruct (Z.ltb_spec n_visible 0); [lia|].
  destruct (Z.ltb_spec n_hidden 0); [lia|].
  eexists. reflexivity.
Qed.

(** With positive sizes the loop over the intermediate layers goes
    through. *)
Lemma add_layers_succeed `{Backend} sizes :
  Forall (fun n => 0 < n)%Z sizes ->
  forall k a layers s,
    a + k <= length sizes -> 1 <= a -> layers <> [] ->
    exists layers' s',
      fold_left (SdA.add_layer sizes) (map Z.of_nat (seq a k)) (Ok (layers, s))
      = Ok (layers', s') /\ layers' <> [].
Proof.
  intros Hpos. induction k as [|k IH]; intros a layers s Hle Ha Hne.
  - exists layers, s. split; [reflexivity | exact Hne].
  - cbn [seq map fold_left].
    destruct (getitem_lookup sizes (a - 1)) as (nv & Hnv & Hgv); [lia|].
    destruct (getitem_lookup sizes a) as (nh & Hnh & Hgh); [lia|].
    destruct layers as [|first layers] using rev_ind; [contradiction|].
    clear IHlayers.
    destruct (dA_init_succeeds (length (layers ++ [first])) nv nh
                (dA.hidden_values first) s) as [s2 Hs2].
    { pose proof (proj1 (Forall_lookup _ _) Hpos _ _ Hnv). simpl in *. lia. }
    { exact (proj1 (Forall_lookup _ _) Hpos _ _ Hnh). }
    assert (SdA.add_layer sizes (Ok (layers ++ [first], s)) (Z.of_nat a)
            = Ok ((layers ++ [first]) ++
                    [dA.make (length (layers ++ [first])) nv nh
                             (dA.hidden_values first)], s2)) as ->.
    { unfold SdA.add_layer. cbn [bind].
      replace (Z.of_nat a - 1)%Z with (Z.of_nat (a - 1)) by lia.
      rewrite Hgv, Hgh. cbn [bind]. rewrite getitem_last. cbn [bind].
      rewrite Hs2. reflexivity. }
    apply IH; [lia | lia |]. intros Habs. apply app_eq_nil in Habs as [_ Habs].
    discriminate.
Qed.

(** Construction succeeds for hidden sizes that are all positive. *)
Lemma SdA_init_succeeds `{Backend} input n_ins sizes n_outs s :
  sizes <> [] -> Forall (fun n => 0 < n)%Z sizes ->
  (0 <= n_ins)%Z -> (0 <= n_outs)%Z ->
  exists classifier s', SdA.init input n_ins sizes n_outs s = Ok (classifier, s').
Proof.
  intros Hne Hpos Hins Houts. unfold SdA.init.
  destruct sizes as [|h0 sizes']; [contradiction|].
  set (sizes := h0 :: sizes') in *.
  destruct (Z.ltb_spec (Z.of_nat (length sizes)) 1) as [Hlt|_].
  { subst sizes. simpl in Hlt. lia. }
  assert (0 < h0)%Z as Hh0 by (inversion Hpos; assumption).
  change (getitem sizes 0) with (Ok (A:=Z) h0). cbn [bind].
  destruct (dA_init_succeeds 0 n_ins h0 input s Hins Hh0) as [sa Hsa].
  cbn [length]. rewrite Hsa. cbn [bind app].
  assert (xrange2 1 (Z.of_nat (length sizes))
          = map Z.of_nat (seq 1 (length sizes'))) as ->.
  { apply (xrange2_of_nat 1 (length sizes')). }
  destruct (add_layers_succeed sizes Hpos (length sizes') 1
              [dA.make 0 n_ins h0 input] sa)
    as (layers & sb & -> & Hlayers); [subst sizes; simpl; lia | lia | discriminate |].
  cbn [bind].
  destruct layers as [|top layers _] using rev_ind; [contradiction|].
  rewrite getitem_last. cbn [bind].
  destruct (getitem_lookup sizes (length sizes')) as (n_in & Hn_in & _).
  { subst sizes. simpl. lia. }
  assert (getitem sizes (-1) = Ok n_in) as ->.
  { unfold getitem. cbv zeta. cbn [Z.ltb Z.compare].
    replace (Z.of_nat (length sizes) + -1)%Z with (Z.of_nat (length sizes'))
      by (subst sizes; simpl; lia).
    assert ((Z.of_nat (length sizes') <? 0)%Z = false) as -> by (apply Z.ltb_ge; lia).
    rewrite Nat2Z.id, Hn_in. reflexivity. }
  cbn [bind]. unfold LogisticRegression.init.
  pose proof (proj1 (Forall_lookup _ _) Hpos _ _ Hn_in) as Hpos_in. simpl in Hpos_in.
  destruct (Z.ltb_spec n_in 0); [lia|].
  destruct (Z.ltb_spec n_outs 0); [lia|].
  cbn [orb bind]. eexists. eexists. reflexivity.
Qed.

(** ** The error rate of the logistic layer *)

Lemma neq_Ok (p q : list Z) :
  length p = length q ->
  T.neq p q = Ok (zip_with (fun a c => if Z.eqb a c then 0%Z else 1%Z) p q).
Proof. intros Hlen. unfold T.neq. rewrite Hlen, Nat.eqb_refl. reflexivity. Qed.

Lemma neq_Raise (p q : list Z) :
  length p <> length q -> T.neq p q = Raise ValueError.
Proof.
  intros Hlen. unfold T.neq.
  destruct (Nat.eqb_spec (length p) (length q)); [contradiction | reflexivity].
Qed.

Lemma mean_neq_error_rate (p : Matrix) (labels : list Z) :
  T.mean_int (zip_with (fun a c => if Z.eqb a c then 0%Z else 1%Z)
                       (T.argmax_axis1 p) labels)
  = Spec.error_rate p labels.
Proof.
  unfold T.mean_int, Spec.error_rate, T.argmax_axis1. f_equal.
  revert labels. induction p as [|row p IH]; intros [|yi labels]; try reflexivity.
  cbn [map zip_with]. f_equal; [|apply IH].
  destruct (Z.eqb (T.argmax row) yi); reflexivity.
Qed.

(** The logistic layer predicts one class per row of its input. *)
Lemma length_p_y_given_x `{Backend} input n_in n_out s self s' env :
  LogisticRegression.init input n_in n_out s = Ok (self, s') ->
  length (LogisticRegression.p_y_given_x self env) = length (input env) /\
  value (LogisticRegression.y_pred self) env
  = T.argmax_axis1 (LogisticRegression.p_y_given_x self env).
Proof.
  unfold LogisticRegression.init.
  destruct ((n_in <? 0)%Z || (n_out <? 0)%Z); [discriminate|].
  intros Hinit. inversion Hinit; subst self s'; clear Hinit.
  cbn [LogisticRegression.y_pred LogisticRegression.p_y_given_x value].
  split; [|reflexivity].
  unfold T.add_row, T.dot. rewrite !length_map. reflexivity.
Qed.

(** The first check of [errors] compares the numbers of dimensions, not
    the lengths: a label variable that is no vector is refused when the
    graph is built, by the [NameError] of the unbound [target]. *)
Remark errors_rank_mismatch `{Backend} input n_in n_out s self s' labels :
  LogisticRegression.init input n_in n_out s = Ok (self, s') ->
  ndim (type labels) <> 1 ->
  LogisticRegression.errors self labels = Raise (NameError "target").
Proof.
  unfold LogisticRegression.init.
  destruct ((n_in <? 0)%Z || (n_out <? 0)%Z); [discriminate|].
  intros Hinit Hndim. inversion Hinit; subst self s'; clear Hinit.
  unfold LogisticRegression.errors. cbn [LogisticRegression.y_pred type ndim].
  destruct (Nat.eqb_spec (ndim (type labels)) 1); [contradiction | reflexivity].
Qed.

(** C9, as the code has it, for a vector of labels.  [errors] raises
    [NotImplementedError] unless the name of the dtype starts with [int],
    which refuses the labels that are not integral and the unsigned
    integers too.  For a dtype whose name starts with [int], the
    operation fails with Theano's [ValueError] when it is called with a
    number of labels that differs from the number of examples in the
    batch, and is the mean zero-one loss when the two numbers agree. *)
Theorem errors_checks `{Backend} input n_in n_out s self s' :
  LogisticRegression.init input n_in n_out s = Ok (self, s') ->
  forall labels : TensorVariable,
    ndim (type labels) = 1 ->
    (String.prefix "int" (dtype (type labels)) = false ->
       LogisticRegression.errors self labels = Raise NotImplementedError) /\
    (String.prefix "int" (dtype (type labels)) = true ->
       exists f,
         LogisticRegression.errors self labels = Ok f /\
         forall env,
           (length (value labels env) <> length (input env) ->
              f env = Raise ValueError) /\
           (length (value labels env) = length (input env) ->
              f env = Ok (Spec.error_rate (LogisticRegression.p_y_given_x self env)
                                          (value labels env)))).
Proof.
  intros Hinit labels Hndim.
  assert (ndim (type (LogisticRegression.y_pred self)) = 1) as Hpred.
  { unfold LogisticRegression.init in Hinit.
    destruct ((n_in <? 0)%Z || (n_out <? 0)%Z); [discriminate|].
    inversion Hinit. reflexivity. }
  unfold LogisticRegression.errors. rewrite Hndim, Hpred. cbn [Nat.eqb negb].
  split.
  - intros ->. reflexivity.
  - intros ->. eexists. split; [reflexivity|].
    intros env.
    destruct (length_p_y_given_x input n_in n_out s self s' env Hinit) as [Hlen ->].
    split; intros Hlabels.
    + rewrite neq_Raise; [reflexivity|].
      unfold T.argmax_axis1. rewrite length_map, Hlen. congruence.
    + rewrite neq_Ok.
      * cbn [bind]. f_equal. apply mean_neq_error_rate.
      * unfold T.argmax_axis1. rewrite length_map, Hlen. congruence.
Qed.

(** ** Early stopping *)

(** C2: the controller, called at iteration [iter] with the mean
    validation error [v].  When [v] is below the best loss, the best loss
    becomes [v], the best iteration [iter], and the test score the mean
    test error of the current parameters; the patience becomes
    [max(patience, iter * patience_increase)] when moreover [v] is below
    the best loss times the improvement threshold, and stays otherwise.
    When [v] is not below the best loss nothing changes. *)
Theorem early_stopping_controller {S} (test_model : Z -> S -> float)
    (n_test_batches iter : Z) (v : float) (l : Loop S) :
  let l' := early_stopping test_model n_test_batches iter v l in
  (PrimFloat.ltb v (best_validation_loss l) = true ->
     best_validation_loss l' = v /\
     best_iter l' = Some iter /\
     test_score l'
     = T.mean (map (fun i => test_model i (params l)) (xrange n_test_batches)) /\
     params l' = params l /\
     (PrimFloat.ltb v (best_validation_loss l * improvement_threshold)%float = true ->
        patience l' = Z.max (patience l) (iter * patience_increase)) /\
     (PrimFloat.ltb v (best_validation_loss l * improvement_threshold)%float = false ->
        patience l' = patience l)) /\
  (PrimFloat.ltb v (best_validation_loss l) = false -> l' = l).
Proof.
  intros l'. subst l'. unfold early_stopping. split.
  - intros ->. cbn. repeat split; intros ->; reflexivity.
  - intros ->. reflexivity.
Qed.

(** The loop calls the controller with the mean of the validation errors
    of the parameters just updated, every [validation_frequency]
    iterations. *)
Lemma minibatch_body_validates {S} (train_model : Z -> S -> float * S)
    (validate_model test_model : Z -> S -> float)
    (n_train_batches n_valid_batches n_test_batches epoch minibatch_index : Z)
    (l : Loop S) :
  let iter := (epoch * n_train_batches + minibatch_index)%Z in
  let p := snd (train_model minibatch_index (params l)) in
  ((iter + 1) mod validation_frequency n_train_batches =? 0)%Z = true ->
  minibatch_body train_model validate_model test_model n_train_batches
    n_valid_batches n_test_batches epoch minibatch_index l
  = (early_stopping test_model n_test_batches iter
       (T.mean (map (fun i => validate_model i p) (xrange n_valid_batches)))
       {| params := p; patience := patience l;
          best_validation_loss := best_validation_loss l;
          best_iter := best_iter l; test_score := test_score l; cost_ij := [] |},
     iter).
Proof.
  intros iter p Hfreq. unfold minibatch_body. subst p.
  destruct (train_model minibatch_index (params l)) as [c p].
  fold iter. rewrite Hfreq. reflexivity.
Qed.

(** ** The fine-tuning loop and the patience *)

(** A model whose only parameter is the number of updates applied. *)
Definition counting_train_model : Z -> Z -> float * Z :=
  fun _ updates => (0%float, (updates + 1)%Z).
Definition constant_error (e : float) : Z -> Z -> float := fun _ _ => e.

(** C1 (the code at the failing input): 2500 training minibatches, a
    validation error that stays at 0.1, 1000 epochs.  The patience stays
    10000 and is first reached at [iter = 10000], after 10001 updates; the
    [break] leaves the minibatch loop only, and each of the 995 epochs
    that follow applies one more update before it breaks again. *)
Theorem fine_tune_updates_after_patience :
  let l := fine_tune counting_train_model (constant_error 0.1) (constant_error 0.1)
             2500 500 500 1000 0%Z in
  patience l = 10000%Z /\ best_iter l = Some 2499%Z /\
  params l = (10001 + 995)%Z.
Proof. vm_compute. repeat split. Qed.

(** ** Python ranges and folds *)

Lemma fold_left_ext_In {A B} (f g : A -> B -> A) (l : list B) :
  (forall a b, In b l -> f a b = g a b) ->
  forall a, fold_left f l a = fold_left g l a.
Proof.
  induction l as [|b l IH]; intros Hfg a; [reflexivity|].
  cbn [fold_left]. rewrite Hfg by (left; reflexivity).
  apply IH. intros a' b' Hb'. apply Hfg. right. exact Hb'.
Qed.

Lemma In_xrange (n i : Z) : In i (xrange n) -> (0 <= i < n)%Z.
Proof.
  intros Hi. apply list_elem_of_In in Hi. unfold xrange, xrange2 in Hi.
  apply elem_of_seqZ in Hi. lia.
Qed.

(** ** The loop when the validation and the test may raise *)

Lemma collect_map_Ok {A B} (g : A -> result B) (h : A -> B) (l : list A) :
  (forall a, In a l -> g a = Ok (h a)) -> collect (map g l) = Ok (map h l).
Proof.
  induction l as [|a l IH]; intros Hg; [reflexivity|].
  cbn [map collect]. rewrite Hg by (left; reflexivity). cbn [bind].
  rewrite IH; [reflexivity|]. intros a' Ha'. apply Hg. right. exact Ha'.
Qed.

(** The fine-tuning loop calls its three functions on the indices of
    their ranges only. *)
Lemma fine_tune_or_raise_ext {S} (train1 train2 : Z -> S -> float * S)
    (validate1 validate2 test1 test2 : Z -> S -> result float)
    (n_train_batches n_valid_batches n_test_batches : Z) :
  (forall i p, In i (xrange n_train_batches) -> train1 i p = train2 i p) ->
  (forall i p, In i (xrange n_valid_batches) -> validate1 i p = validate2 i p) ->
  (forall i p, In i (xrange n_test_batches) -> test1 i p = test2 i p) ->
  forall training_epochs p,
    fine_tune_or_raise train1 validate1 test1 n_train_batches n_valid_batches
                       n_test_batches training_epochs p
    = fine_tune_or_raise train2 validate2 test2 n_train_batches n_valid_batches
                         n_test_batches training_epochs p.
Proof.
  intros Htrain Hvalid Htest training_epochs p.
  assert (forall iter v l,
            early_stopping_or_raise test1 n_test_batches iter v l
            = early_stopping_or_raise test2 n_test_batches iter v l) as Hstop.
  { intros iter v l. unfold early_stopping_or_raise.
    rewrite (map_ext_in _ (fun i => test2 i (params l)));
      [reflexivity | intros i Hi; apply Htest; exact Hi]. }
  assert (forall epoch i l, In i (xrange n_train_batches) ->
            minibatch_body_or_raise train1 validate1 test1 n_train_batches
              n_valid_batches n_test_batches epoch i l
            = minibatch_body_or_raise train2 validate2 test2 n_train_batches
                n_valid_batches n_test_batches epoch i l) as Hbody.
  { intros epoch i l Hi. unfold minibatch_body_or_raise. rewrite (Htrain i _ Hi).
    destruct (train2 i (params l)) as [c q]. cbn [params].
    rewrite (map_ext_in _ (fun i => validate2 i q));
      [|intros j Hj; apply Hvalid; exact Hj].
    destruct (_ =? 0)%Z; [|reflexivity].
    destruct (collect _) as [validation_losses|e]; [|reflexivity].
    cbn [bind]. rewrite Hstop. reflexivity. }
  assert (forall epoch indices l,
            (forall i, In i indices -> In i (xrange n_train_batches)) ->
            minibatch_loop_or_raise train1 validate1 test1 n_train_batches
              n_valid_batches n_test_batches epoch indices l
            = minibatch_loop_or_raise train2 validate2 test2 n_train_batches
                n_valid_batches n_test_batches epoch indices l) as Hloop.
  { intros epoch. induction indices as [|i indices IH]; intros l Hin; [reflexivity|].
    cbn [minibatch_loop_or_raise]. rewrite Hbody by (apply Hin; left; reflexivity).
    destruct (minibatch_body_or_raise train2 validate2 test2 n_train_batches
                n_valid_batches n_test_batches epoch i l) as [[l' iter]|e];
      [|reflexivity].
    cbn [bind]. destruct (patience l' <=? iter)%Z; [reflexivity|].
    apply IH. intros j Hj. apply Hin. right. exact Hj. }
  unfold fine_tune_or_raise, epoch_loop_or_raise. apply fold_left_ext_In.
  intros acc epoch _. destruct acc as [l|e]; [|reflexivity].
  cbn [bind]. apply Hloop. intros i Hi. exact Hi.
Qed.

(** When no call of the validation and of the test raises, each part of
    the loop returns what the same part of the loop on their values
    returns. *)
Section NoRaise.

Context {S : Type}.
Variable train_model : Z -> S -> float * S.
Variables validate_or_raise test_or_raise : Z -> S -> result float.
Variables validate_model test_model : Z -> S -> float.
Variables n_train_batches n_valid_batches n_test_batches : Z.

Hypothesis validate_Ok :
  forall i p, In i (xrange n_valid_batches) ->
    validate_or_raise i p = Ok (validate_model i p).
Hypothesis test_Ok :
  forall i p, In i (xrange n_test_batches) ->
    test_or_raise i p = Ok (test_model i p).

Lemma early_stopping_or_raise_Ok iter v (l : Loop S) :
  early_stopping_or_raise test_or_raise n_test_batches iter v l
  = Ok (early_stopping test_model n_test_batches iter v l).
Proof.
  unfold early_stopping_or_raise, early_stopping.
  destruct (PrimFloat.ltb v (best_validation_loss l)); [|reflexivity].
  rewrite (collect_map_Ok _ (fun i => test_model i (params l)));
    [reflexivity | intros i Hi; apply test_Ok; exact Hi].
Qed.

Lemma minibatch_body_or_raise_Ok epoch minibatch_index (l : Loop S) :
  minibatch_body_or_raise train_model validate_or_raise test_or_raise
    n_train_batches n_valid_batches n_test_batches epoch minibatch_index l
  = Ok (minibatch_body train_model validate_model test_model n_train_batches
          n_valid_batches n_test_batches epoch minibatch_index l).
Proof.
  unfold minibatch_body_or_raise, minibatch_body.
  destruct (train_model minibatch_index (params l)) as [c q]. cbn [params].
  destruct (_ =? 0)%Z; [|reflexivity].
  rewrite (collect_map_Ok _ (fun i => validate_model i q));
    [|intros j Hj; apply validate_Ok; exact Hj].
  cbn [bind]. rewrite early_stopping_or_raise_Ok. reflexivity.
Qed.

Lemma minibatch_loop_or_raise_Ok epoch indices :
  forall l : Loop S,
    minibatch_loop_or_raise train_model validate_or_raise test_or_raise
      n_train_batches n_valid_batches n_test_batches epoch indices l
    = Ok (minibatch_loop train_model validate_model test_model n_train_batches
            n_valid_batches n_test_batches epoch indices l).
Proof.
  induction indices as [|i indices IH]; intros l; [reflexivity|].
  cbn [minibatch_loop_or_raise minibatch_loop]. rewrite minibatch_body_or_raise_Ok.
  destruct (minibatch_body train_model validate_model test_model n_train_batches
              n_valid_batches n_test_batches epoch i l) as [l' iter].
  cbn [bind]. destruct (patience l' <=? iter)%Z; [reflexivity | apply IH].
Qed.

Lemma fine_tune_or_raise_total training_epochs (p : S) :
  fine_tune_or_raise train_model validate_or_raise test_or_raise n_train_batches
                     n_valid_batches n_test_batches training_epochs p
  = Ok (fine_tune train_model validate_model test_model n_train_batches
                  n_valid_batches n_test_batches training_epochs p).
Proof.
  unfold fine_tune_or_raise, epoch_loop_or_raise, fine_tune, epoch_loop.
  generalize {| params := p; patience := patience0;
                best_validation_loss := infinity; best_iter := None;
                test_score := 0%float; cost_ij := [] |}.
  induction (xrange training_epochs) as [|epoch epochs IH]; intros l; [reflexivity|].
  cbn [fold_left bind]. rewrite minibatch_loop_or_raise_Ok. apply IH.
Qed.

End NoRaise.

(** ** Minibatches and the trailing examples *)

Lemma minibatch_of_nat {A} (data : list A) (bs : Z) (k : nat) :
  (0 <= bs)%Z ->
  minibatch data bs (Z.of_nat k)
  = take (Z.to_nat bs) (drop (k * Z.to_nat bs) data).
Proof.
  intros Hbs. unfold minibatch, slice. f_equal; [|f_equal]; nia.
Qed.

(** The minibatches of indices below [n], one after the other, are the
    first [n * batch_size] examples. *)
Lemma minibatches_concat {A} (data : list A) (bs : Z) (n : nat) :
  (0 <= bs)%Z ->
  concat (map (minibatch data bs) (map Z.of_nat (seq 0 n)))
  = take (n * Z.to_nat bs) data.
Proof.
  intros Hbs. induction n as [|n IH]; [reflexivity|].
  rewrite seq_S, !map_app, concat_app, IH. cbn [map concat Nat.add].
  rewrite app_nil_r, minibatch_of_nat by exact Hbs.
  rewrite take_take_drop. f_equal. lia.
Qed.

(** The minibatches of indices below the floor of the quotient are full. *)
Lemma length_minibatch_below {A} (data : list A) (bs index : Z) :
  (0 < bs)%Z -> (0 <= index < Z.of_nat (length data) / bs)%Z ->
  length (minibatch data bs index) = Z.to_nat bs.
Proof.
  intros Hbs Hindex.
  pose proof (Z.mul_div_le (Z.of_nat (length data)) bs Hbs) as Hfloor.
  replace index with (Z.of_nat (Z.to_nat index)) by lia.
  rewrite minibatch_of_nat by lia.
  rewrite length_take, length_drop. nia.
Qed.

(** Minibatches of the examples and of the labels of a partition that
    has as many labels as examples have the same length. *)
Lemma length_minibatch {A B} (xs : list A) (ys : list B) (bs index : Z) :
  length ys = length xs ->
  length (minibatch ys bs index) = length (minibatch xs bs index).
Proof.
  intros Hlen. unfold minibatch, slice.
  rewrite !length_take, !length_drop, Hlen. reflexivity.
Qed.

(** Two partitions with equal first [n * batch_size] examples have equal
    minibatches of every index below [n]. *)
Lemma minibatch_agree {A} (d1 d2 : list A) (bs n index : Z) :
  (0 < bs)%Z -> (0 <= index < n)%Z ->
  take (Z.to_nat (n * bs)) d1 = take (Z.to_nat (n * bs)) d2 ->
  minibatch d1 bs index = minibatch d2 bs index.
Proof.
  intros Hbs Hindex Htake.
  replace index with (Z.of_nat (Z.to_nat index)) by lia.
  rewrite !minibatch_of_nat by lia.
  rewrite !take_drop_commute.
  assert (forall d : list A,
            take (Z.to_nat index * Z.to_nat bs + Z.to_nat bs) d
            = take (Z.to_nat index * Z.to_nat bs + Z.to_nat bs)
                   (take (Z.to_nat (n * bs)) d)) as Hcut.
  { intros d. rewrite take_take. f_equal. nia. }
  rewrite (Hcut d1), (Hcut d2), Htake. reflexivity.
Qed.

Lemma pretraining_batches_ext {O} (f g : Z -> State -> O * State) indices sc :
  (forall i s, In i indices -> f i s = g i s) ->
  pretraining_batches f indices sc = pretraining_batches g indices sc.
Proof.
  intros Hfg. unfold pretraining_batches. apply fold_left_ext_In.
  intros sc' i Hi. rewrite Hfg by exact Hi. reflexivity.
Qed.

Lemma pretrain_ext `{Backend} classifier pretraining_lr (train1 train2 : Matrix)
    bs pretraining_epochs n_train_batches s :
  (0 < bs)%Z ->
  take (Z.to_nat (n_train_batches * bs)) train1
  = take (Z.to_nat (n_train_batches * bs)) train2 ->
  pretrain classifier pretraining_lr train1 bs pretraining_epochs n_train_batches s
  = pretrain classifier pretraining_lr train2 bs pretraining_epochs n_train_batches s.
Proof.
  intros Hbs Htake. unfold pretrain. f_equal. apply fold_left_ext_In.
  intros acc i _. unfold pretrain_layer.
  destruct acc as [sc|e]; [|reflexivity]. cbn [bind].
  unfold layer_update.
  destruct (getitem (SdA.layers classifier) i) as [layer|e]; [|reflexivity].
  cbn [bind]. unfold pretraining_epochs_loop.
  apply fold_left_ext_In. intros acc epoch _.
  destruct acc as [sc2|e]; [|reflexivity]. cbn [bind].
  unfold pretraining_epoch.
  erewrite pretraining_batches_ext; [reflexivity|].
  intros index s3 Hindex. apply In_xrange in Hindex. unfold function.
  rewrite (minibatch_agree train1 train2 bs n_train_batches index Hbs Hindex Htake).
  reflexivity.
Qed.

(** ** What the function returns *)

Lemma length_forward `{Backend} (input : Env -> Matrix) (k : nat) (env : Env) :
  length (forward input k env) = length (input env).
Proof.
  induction k as [|k IH]; [reflexivity|].
  cbn [forward]. unfold msigmoid, T.add_row, T.dot.
  rewrite !length_map. exact IH.
Qed.

Lemma getitem_Ok_lookup {A} (l : list A) (i : Z) (a : A) :
  getitem l i = Ok a -> exists k, l !! k = Some a.
Proof.
  unfold getitem. cbv zeta. destruct (_ <? 0)%Z; [discriminate|].
  match goal with |- context [l !! ?k] => destruct (l !! k) eqn:Hk end;
    [|discriminate].
  intros Heq. inversion Heq; subst. eexists. exact Hk.
Qed.

(** [errors(y)] of a constructed model is compiled, and on a batch with
    one label per example it is the error rate of the predictions. *)
Lemma SdA_errors_Ok `{Backend} input n_ins sizes n_outs s0 classifier s1 :
  SdA.init input n_ins sizes n_outs s0 = Ok (classifier, s1) ->
  exists errors,
    SdA.errors classifier y = Ok errors /\
    forall env,
      length (y_given env) = length (input env) ->
      errors env
      = Ok (Spec.error_rate
              (LogisticRegression.p_y_given_x (SdA.logLayer classifier) env)
              (y_given env)).
Proof.
  intros Hinit.
  apply SdA_init_Ok in Hinit as (Hst & _ & _ & top & Htop & Hlog).
  apply getitem_Ok_lookup in Htop as [k Hk].
  unfold SdA.errors, LogisticRegression.errors. rewrite Hlog.
  cbn [LogisticRegression.y_pred LogisticRegression.p_y_given_x type ndim dtype
       value y Nat.eqb negb String.prefix].
  eexists. split; [reflexivity|].
  intros env Hlen. cbv beta. rewrite neq_Ok.
  - cbn [bind]. f_equal. apply mean_neq_error_rate.
  - unfold T.argmax_axis1, T.add_row, T.dot. rewrite !length_map, Hlen.
    rewrite (Hst k top Hk).
    change (dA.hidden_values (dA.make k _ _ (forward input k)) env)
      with (forward input (S k) env).
    apply length_forward.
Qed.

(** The error rate of the classifier in state [s] on the minibatch
    [index] of a partition. *)
Definition batch_error (classifier : SdA.t) (set_x : Matrix) (set_y : list Z)
    (index : Z) (s : State) : float :=
  Spec.error_rate
    (LogisticRegression.p_y_given_x (SdA.logLayer classifier)
       {| state := s; x_given := minibatch set_x batch_size index;
          y_given := minibatch set_y batch_size index |})
    (minibatch set_y batch_size index).

(** A partition as the data set has it: one label per example, examples
    of [28 * 28] pixels, labels among the ten classes. *)
Definition well_formed_partition (set_x : Matrix) (set_y : list Z) : Prop :=
  length set_y = length set_x /\
  Forall (fun example => Z.of_nat (length example) = (28 * 28)%Z) set_x /\
  Forall (fun label => (0 <= label < 10)%Z) set_y.

Definition well_formed (dataset : Dataset) : Prop :=
  well_formed_partition (train_set_x dataset) (train_set_y dataset) /\
  well_formed_partition (valid_set_x dataset) (valid_set_y dataset) /\
  well_formed_partition (test_set_x dataset) (test_set_y dataset).

Lemma errors_model_Ok `{Backend} n_ins sizes n_outs s0 classifier s1 set_x set_y :
  SdA.init x n_ins sizes n_outs s0 = Ok (classifier, s1) ->
  length set_y = length set_x ->
  exists f,
    errors_model classifier set_x set_y batch_size = Ok f /\
    forall index s, fst (f index s) = Ok (batch_error classifier set_x set_y index s).
Proof.
  intros Hinit Hlen.
  destruct (SdA_errors_Ok _ _ _ _ _ _ _ Hinit) as (errors & Herrors & Hrate).
  unfold errors_model. rewrite Herrors. cbn [bind].
  eexists. split; [reflexivity|].
  intros index s. unfold function. cbn [fst].
  rewrite Hrate; [reflexivity|].
  cbn [y_given x x_given]. apply length_minibatch. exact Hlen.
Qed.

Lemma pretrain_Ok `{Backend} input n_ins sizes n_outs s0 classifier s1
    pretraining_lr train_x bs pretraining_epochs n_train_batches s :
  SdA.init input n_ins sizes n_outs s0 = Ok (classifier, s1) ->
  (1 <= n_train_batches)%Z \/ (pretraining_epochs <= 0)%Z ->
  exists s2,
    pretrain classifier pretraining_lr train_x bs pretraining_epochs
             n_train_batches s = Ok s2.
Proof.
  intros Hinit Hrun.
  apply SdA_init_Ok in Hinit as (Hst & Hlen & Hn & _).
  destruct (pretrain_layers_Ok input classifier pretraining_lr train_x bs
              pretraining_epochs n_train_batches Hst Hrun
              (seq 0 (length (SdA.layers classifier))) (s, None)) as [t Ht].
  { intros i Hi. apply in_seq in Hi. lia. }
  unfold pretrain. rewrite Hn, xrange_of_nat, <- Hlen, Ht.
  eexists. reflexivity.
Qed.

(** On a well-formed data set, with a training set of at least one
    minibatch or no pretraining epoch, the function returns: the stack
    of three layers of 500 units is built, every layer is pretrained, the
    three functions are compiled, and the result is that of the
    fine-tuning loop, on all the minibatches of the training set, with the
    error rates of the minibatches of the validation and test sets. *)
Lemma sgd_optimization_mnist_Ok `{Backend} learning_rate pretraining_epochs
    pretraining_lr training_epochs (dataset : Dataset) :
  well_formed dataset ->
  (20 <= length (train_set_x dataset))%nat \/ (pretraining_epochs <= 0)%Z ->
  let n_train_batches := (Z.of_nat (length (train_set_x dataset)) / batch_size)%Z in
  let n_valid_batches := (Z.of_nat (length (valid_set_x dataset)) / batch_size)%Z in
  let n_test_batches := (Z.of_nat (length (test_set_x dataset)) / batch_size)%Z in
  exists classifier s1 s2 train,
    SdA.init x (28 * 28) [500; 500; 500]%Z 10 no_state = Ok (classifier, s1) /\
    pretrain classifier pretraining_lr (train_set_x dataset) batch_size
             pretraining_epochs n_train_batches s1 = Ok s2 /\
    train_model classifier learning_rate (train_set_x dataset)
                (train_set_y dataset) batch_size = Ok train /\
    sgd_optimization_mnist learning_rate pretraining_epochs pretraining_lr
      training_epochs dataset
    = Ok (fine_tune train
            (batch_error classifier (valid_set_x dataset) (valid_set_y dataset))
            (batch_error classifier (test_set_x dataset) (test_set_y dataset))
            n_train_batches n_valid_batches n_test_batches training_epochs s2).
Proof.
  intros (_ & (Hvalid & _) & (Htest & _)) Hrun n_train_batches n_valid_batches
         n_test_batches.
  destruct (SdA_init_succeeds x (28 * 28)%Z [500; 500; 500]%Z 10 no_state)
    as (classifier & s1 & Hinit).
  { discriminate. }
  { repeat constructor. }
  { lia. }
  { lia. }
  destruct (pretrain_Ok x _ _ _ _ _ _ pretraining_lr (train_set_x dataset) batch_size
              pretraining_epochs n_train_batches s1 Hinit) as [s2 Hpretrain].
  { destruct Hrun as [Hrun|Hrun]; [left | right; exact Hrun].
    subst n_train_batches. apply Z.div_le_lower_bound; unfold batch_size; lia. }
  destruct (errors_model_Ok _ _ _ _ _ _ (valid_set_x dataset) (valid_set_y dataset)
              Hinit Hvalid) as (validate & Hvalidate & Hvalidate_rate).
  destruct (errors_model_Ok _ _ _ _ _ _ (test_set_x dataset) (test_set_y dataset)
              Hinit Htest) as (test & Htest_model & Htest_rate).
  pose proof (finetune_updates_Ok _ _ _ _ _ _ _
                (SdA.negative_log_likelihood classifier y) learning_rate Hinit)
    as Hupdates.
  exists classifier, s1, s2. eexists.
  split; [exact Hinit|]. split; [exact Hpretrain|].
  split; [unfold train_model; rewrite Hupdates; reflexivity|].
  unfold sgd_optimization_mnist. rewrite Hinit. cbn [bind].
  fold n_train_batches n_valid_batches n_test_batches.
  rewrite Hpretrain, Htest_model, Hvalidate. cbn [bind].
  unfold train_model. rewrite Hupdates. cbn [bind].
  apply fine_tune_or_raise_total.
  - intros i p _. apply Hvalidate_rate.
  - intros i p _. apply Htest_rate.
Qed.

(** Two partitions have the same minibatches: as many, and the same
    examples and labels in them. *)
Definition same_batches (x1 : Matrix) (y1 : list Z) (x2 : Matrix) (y2 : list Z)
    : Prop :=
  let n := (Z.of_nat (length x1) / batch_size)%Z in
  (Z.of_nat (length x2) / batch_size)%Z = n /\
  take (Z.to_nat (n * batch_size)) x1 = take (Z.to_nat (n * batch_size)) x2 /\
  take (Z.to_nat (n * batch_size)) y1 = take (Z.to_nat (n * batch_size)) y2.

(** C10: a partition of [len] examples has [n = len / batch_size]
    minibatches, the quotient rounded down: [n * batch_size <= len <
    (n + 1) * batch_size]; each of them is full, and together they are
    the first [n * batch_size] examples.  What comes after them is never
    read: data sets that differ in those trailing examples only give the
    same pretraining, the same updates, the same validation and test
    errors, hence the same result.  On a well-formed data set whose
    training set has a minibatch (or with no pretraining epoch) the
    function returns, and its result is that of the fine-tuning loop over
    exactly these numbers of minibatches: the updates of the [n]
    training minibatches, and the means of the error rates of the [n]
    validation and the [n] test minibatches. *)
Theorem trailing_examples_unused `{Backend} learning_rate pretraining_epochs
    pretraining_lr training_epochs (d1 d2 : Dataset) :
  (forall (A : Type) (data : list A),
     let n := (Z.of_nat (length data) / batch_size)%Z in
     (n * batch_size <= Z.of_nat (length data) < (n + 1) * batch_size)%Z /\
     concat (map (minibatch data batch_size) (xrange n))
     = take (Z.to_nat (n * batch_size)) data /\
     (forall index, In index (xrange n) ->
        length (minibatch data batch_size index) = Z.to_nat batch_size)) /\
  (same_batches (train_set_x d1) (train_set_y d1) (train_set_x d2) (train_set_y d2) ->
   same_batches (valid_set_x d1) (valid_set_y d1) (valid_set_x d2) (valid_set_y d2) ->
   same_batches (test_set_x d1) (test_set_y d1) (test_set_x d2) (test_set_y d2) ->
   sgd_optimization_mnist learning_rate pretraining_epochs pretraining_lr
     training_epochs d1
   = sgd_optimization_mnist learning_rate pretraining_epochs pretraining_lr
       training_epochs d2) /\
  (well_formed d1 ->
   (20 <= length (train_set_x d1))%nat \/ (pretraining_epochs <= 0)%Z ->
   let n_train_batches := (Z.of_nat (length (train_set_x d1)) / batch_size)%Z in
   let n_valid_batches := (Z.of_nat (length (valid_set_x d1)) / batch_size)%Z in
   let n_test_batches := (Z.of_nat (length (test_set_x d1)) / batch_size)%Z in
   exists classifier s1 s2 train,
     SdA.init x (28 * 28) [500; 500; 500]%Z 10 no_state = Ok (classifier, s1) /\
     pretrain classifier pretraining_lr (train_set_x d1) batch_size
              pretraining_epochs n_train_batches s1 = Ok s2 /\
     train_model classifier learning_rate (train_set_x d1) (train_set_y d1)
                 batch_size = Ok train /\
     sgd_optimization_mnist learning_rate pretraining_epochs pretraining_lr
       training_epochs d1
     = Ok (fine_tune train
             (batch_error classifier (valid_set_x d1) (valid_set_y d1))
             (batch_error classifier (test_set_x d1) (test_set_y d1))
             n_train_batches n_valid_batches n_test_batches training_epochs s2)).
Proof.
  assert (0 < batch_size)%Z as Hbs by reflexivity.
  split; [|split; [|apply sgd_optimization_mnist_Ok]].
  - intros A data n.
    pose proof (Z.mul_div_le (Z.of_nat (length data)) batch_size Hbs) as Hfloor.
    pose proof (Z.mul_succ_div_gt (Z.of_nat (length data)) batch_size Hbs) as Hnext.
    assert (0 <= n)%Z as Hn by (apply Z.div_pos; lia).
    split; [subst n; unfold Z.succ in Hnext; lia|]. split.
    + replace n with (Z.of_nat (Z.to_nat n)) at 1 by lia.
      rewrite xrange_of_nat, minibatches_concat by lia.
      f_equal. lia.
    + intros index Hindex. apply In_xrange in Hindex.
      apply length_minibatch_below; [exact Hbs | exact Hindex].
  - intros (Hn_train & Htrain_x & Htrain_y) (Hn_valid & Hvalid_x & Hvalid_y)
           (Hn_test & Htest_x & Htest_y).
    unfold sgd_optimization_mnist. rewrite Hn_train, Hn_valid, Hn_test.
    destruct (SdA.init x (28 * 28) [500%Z; 500%Z; 500%Z] 10 no_state)
      as [[classifier s]|e]; [|reflexivity].
    cbn [bind].
    rewrite (pretrain_ext classifier pretraining_lr (train_set_x d1)
               (train_set_x d2) batch_size pretraining_epochs _ s Hbs Htrain_x).
    destruct (pretrain classifier pretraining_lr (train_set_x d2) batch_size
                pretraining_epochs
                (Z.of_nat (length (train_set_x d1)) / batch_size) s)
      as [s2|e]; [|reflexivity].
    cbn [bind]. unfold errors_model, train_model.
    destruct (SdA.errors classifier y) as [errors|e]; [|reflexivity].
    cbn [bind].
    destruct (finetune_updates classifier
                (SdA.negative_log_likelihood classifier y) learning_rate)
      as [updates|e]; [|reflexivity].
    cbn [bind]. apply fine_tune_or_raise_ext.
    + intros i p Hi. apply In_xrange in Hi. unfold function.
      rewrite (minibatch_agree _ _ _ _ i Hbs Hi Htrain_x).
      rewrite (minibatch_agree _ _ _ _ i Hbs Hi Htrain_y). reflexivity.
    + intros i p Hi. apply In_xrange in Hi. unfold function.
      rewrite (minibatch_agree _ _ _ _ i Hbs Hi Hvalid_x).
      rewrite (minibatch_agree _ _ _ _ i Hbs Hi Hvalid_y). reflexivity.
    + intros i p Hi. apply In_xrange in Hi. unfold function.
      rewrite (minibatch_agree _ _ _ _ i Hbs Hi Htest_x).
      rewrite (minibatch_agree _ _ _ _ i Hbs Hi Htest_y). reflexivity.
Qed.

(** * The model at work on a small instance *)

(** A backend that computes: the fast sigmoid [1/2 + v / (2 (1 + |v|))],
    the first term of the area-tangent series for the logarithm, the odds
    of the sigmoid for the exponential of the softmax, masks and initial
    weights laid out by position, and gradients by forward differences. *)
Module Numeric.

Definition sigmoid (v : float) : float :=
  (0.5 + 0.5 * (v / (1 + PrimFloat.abs v)))%float.
Definition log (v : float) : float := (2 * ((v - 1) / (v + 1)))%float.
Definition exp (v : float) : float := (sigmoid v / (1 - sigmoid v))%float.
Definition softmax (row : Vector) : Vector :=
  map (fun v => (exp v / T.sum (map exp row))%float) row.

Definition table (rows cols : nat) (entry : nat -> nat -> float) : Matrix :=
  map (fun r => map (entry r) (seq 0 cols)) (seq 0 rows).

Definition binomial (i k rows cols : nat) : Matrix :=
  table rows cols
    (fun r c => if ((r + c + k + i) mod 10 =? 0)%nat then 0%float else 1%float).

Definition uniform (i : nat) (low high : float) (n m : Z) : Matrix :=
  table (Z.to_nat n) (Z.to_nat m)
    (fun r c =>
       (low + (high - low)
              * (of_Z (Z.of_nat ((7 * r + 3 * c + i) mod 10)) / 10))%float).

Definition h : float := 0.0001%float.

Definition nudge (m : Matrix) (r c : nat) : Matrix :=
  imap (fun r' row =>
          imap (fun c' v => if ((r' =? r) && (c' =? c))%nat then (v + h)%float else v)
               row) m.
Definition vnudge (u : Vector) (c : nat) : Vector :=
  imap (fun c' v => if (c' =? c)%nat then (v + h)%float else v) u.

Definition gradM (cost : Env -> float) (v : matrix_var) (env : Env) : Matrix :=
  let m := mat (state env) v in
  imap (fun r row =>
          imap (fun c _ =>
                  ((cost (with_state (set_mat v (nudge m r c) (state env)) env)
                    - cost env) / h)%float) row) m.
Definition gradV (cost : Env -> float) (v : vector_var) (env : Env) : Vector :=
  let u := vec (state env) v in
  imap (fun c _ =>
          ((cost (with_state (set_vec v (vnudge u c) (state env)) env)
            - cost env) / h)%float) u.

End Numeric.

Global Instance numeric_backend : Backend := {|
  sigmoid := Numeric.sigmoid;
  log := Numeric.log;
  softmax := Numeric.softmax;
  binomial := Numeric.binomial;
  uniform := Numeric.uniform;
  gradM := Numeric.gradM;
  gradV := Numeric.gradV
|}.

(** A stack of two layers (2 inputs, 2 then 1 hidden units, 2 classes). *)
Definition empty_SdA : SdA.t :=
  {| SdA.layers := []; SdA.n_layers := 0;
     SdA.logLayer :=
       {| LogisticRegression.W := logLayer_W; LogisticRegression.b := logLayer_b;
          LogisticRegression.p_y_given_x := fun _ => [];
          LogisticRegression.y_pred :=
            {| type := {| dtype := "int64"; ndim := 1 |}; value := fun _ => [] |} |} |}.

Definition small_init : result (SdA.t * State) := SdA.init x 2 [2; 1]%Z 2 no_state.
Definition small_classifier : SdA.t :=
  match small_init with Ok (c, _) => c | Raise _ => empty_SdA end.
Definition small_state : State :=
  match small_init with Ok (_, s) => s | Raise _ => no_state end.

Lemma small_init_Ok : small_init = Ok (small_classifier, small_state).
Proof. reflexivity. Qed.

Definition small_x : Matrix := [[0.5; 1]; [0; 0.25]; [1; 1]; [0.75; 0]]%float.
Definition small_y : list Z := [1; 0; 1; 0]%Z.
Definition small_env : Env :=
  {| state := small_state; x_given := small_x; y_given := small_y |}.

Definition small_layer0 : dA.t := dA.make 0 2 2 x.
Definition small_layer1 : dA.t := dA.make 1 2 1 (dA.hidden_values small_layer0).

Lemma small_layers : SdA.layers small_classifier = [small_layer0; small_layer1].
Proof. reflexivity. Qed.

(** The controller at iteration 4 with a patience of 6, a best loss of
    0.4 and a validation error of 0.39. *)
Lemma early_stopping_controller_witness :
  let l := {| params := tt; patience := 6; best_validation_loss := 0.4%float;
              best_iter := Some 2%Z; test_score := 0.3%float; cost_ij := [] |} in
  let l' := early_stopping (fun _ _ => 0.25%float) 3 4 0.39%float l in
  PrimFloat.ltb 0.39 (best_validation_loss l) = true /\
  PrimFloat.ltb 0.39 (best_validation_loss l * improvement_threshold)%float = true /\
  patience l' = 8%Z /\ best_validation_loss l' = 0.39%float /\
  best_iter l' = Some 4%Z /\ test_score l' = 0.25%float.
Proof.
  intros l l'.
  destruct (early_stopping_controller (fun _ _ => 0.25%float) 3 4 0.39%float l)
    as [Hbetter _].
  destruct (Hbetter eq_refl) as (Hbest & Hiter & Htest & _ & Hsig & _).
  split; [reflexivity|]. split; [reflexivity|].
  split; [exact (Hsig eq_refl)|]. split; [exact Hbest|]. split; [exact Hiter|].
  subst l'. rewrite Htest. reflexivity.
Defined.

(** One fine-tuning step of the small stack. *)
Lemma finetune_joint_update_witness :
  SdA.init x 2 [2; 1]%Z 2 no_state = Ok (small_classifier, small_state) /\
  exists f,
    train_model small_classifier 0.1%float small_x small_y 2 = Ok f /\
    let s' := snd (f 0%Z small_state) in
    let env := {| state := small_state; x_given := minibatch small_x 2 0;
                  y_given := minibatch small_y 2 0 |} in
    let cost := SdA.negative_log_likelihood small_classifier y in
    mat s' logLayer_W
    = T.sub (mat small_state logLayer_W)
            (T.scale_l 0.1%float (gradM cost logLayer_W env)) /\
    mat s' (dA_W 1)
    = T.sub (mat small_state (dA_W 1))
            (T.scale_l 0.1%float (gradM cost (dA_W 1) env)) /\
    vec s' (dA_b_prime 0) = vec small_state (dA_b_prime 0).
Proof.
  split; [exact small_init_Ok|].
  destruct (finetune_joint_update x 2 [2; 1]%Z 2 no_state small_classifier
              small_state 0.1%float small_x small_y 2 small_init_Ok)
    as [f [Hf Hstep]].
  exists f. split; [exact Hf|].
  destruct (Hstep 0%Z small_state) as (_ & Hlayers & HlogW & _ & Hprime).
  destruct (Hlayers 1 small_layer1 eq_refl) as (HW1 & _ & _).
  split; [exact HlogW|]. split; [exact HW1 | exact (Hprime 0)].
Defined.


(** The chain of the small stack. *)
Lemma forward_pass_sequential_witness :
  SdA.init x 2 [2; 1]%Z 2 no_state = Ok (small_classifier, small_state) /\
  dA.x small_layer0 = x /\
  dA.x small_layer1 = dA.hidden_values small_layer0 /\
  forall env r, dA.hidden_values small_layer1 (with_rng r env)
                = dA.hidden_values small_layer1 env.
Proof.
  split; [exact small_init_Ok|].
  destruct (forward_pass_sequential x 2 [2; 1]%Z 2 no_state small_classifier
              small_state small_init_Ok)
    as ([layer [Hl Hx]] & Hnext & _ & _ & Hclean).
  split; [inversion Hl; subst layer; exact Hx|].
  split; [exact (Hnext 0 small_layer0 small_layer1 eq_refl eq_refl)|].
  intros env r. exact (Hclean (fun _ _ => eq_refl) 1 small_layer1 env r eq_refl).
Defined.

(** The cost of the first layer on the small batch. *)
Lemma reconstruction_loss_formula_witness :
  exists s',
    dA.init 0 2 2 x no_state = Ok (small_layer0, s') /\
    dA.cost small_layer0 small_env
    = Spec.reconstruction_loss (mat small_state (dA_W 0)) (vec small_state (dA_b 0))
        (vec small_state (dA_b_prime 0)) (binomial 0 0 4 2) small_x.
Proof.
  eexists. split; [reflexivity|].
  exact (proj2 (proj2 (reconstruction_loss_formula 0 2 2 x no_state small_layer0 _
                         eq_refl small_env))).
Defined.

(** The decode weights of the second layer. *)
Lemma W_prime_is_transpose_witness :
  SdA.init x 2 [2; 1]%Z 2 no_state = Ok (small_classifier, small_state) /\
  SdA.layers small_classifier !! 1 = Some small_layer1 /\
  forall env, dA.W_prime small_layer1 env = T.transpose (mat (state env) (dA_W 1)).
Proof.
  split; [exact small_init_Ok|]. split; [reflexivity|].
  exact (proj1 (W_prime_is_transpose x 2 [2; 1]%Z 2 no_state small_classifier
                  small_state 0.1%float small_x 2 small_init_Ok 1 small_layer1
                  eq_refl)).
Defined.

(** The logistic layer of the small stack, and label variables of other
    types than [y]. *)
Definition small_logLayer : LogisticRegression.t := SdA.logLayer small_classifier.

Definition uint8_labels : TensorVariable :=
  {| type := {| dtype := "uint8"; ndim := 1 |}; value := y_given |}.

(** A dtype of integers, signed or not. *)
Definition integral (dtype : string) : bool :=
  String.prefix "int" dtype || String.prefix "uint" dtype.

(** Labels of the right dtype, one fewer than the batch has examples. *)
Definition short_labels : TensorVariable :=
  {| type := {| dtype := "int32"; ndim := 1 |};
     value := fun env => tail (y_given env) |}.

Lemma errors_checks_witness :
  exists s',
    LogisticRegression.init (dA.hidden_values small_layer1) 1 2 no_state
    = Ok (small_logLayer, s') /\
    (exists f,
       LogisticRegression.errors small_logLayer y = Ok f /\
       f small_env
       = Ok (Spec.error_rate (LogisticRegression.p_y_given_x small_logLayer small_env)
                             small_y)) /\
    (exists f,
       LogisticRegression.errors small_logLayer short_labels = Ok f /\
       f small_env = Raise ValueError).
Proof.
  eexists. split; [reflexivity|].
  pose proof (errors_checks (dA.hidden_values small_layer1) 1 2 no_state
                small_logLayer _ eq_refl) as Hchecks.
  split.
  - destruct (Hchecks y eq_refl) as (_ & Hint).
    destruct (Hint eq_refl) as [f [Hf Hrate]].
    exists f. split; [exact Hf|]. apply (Hrate small_env). reflexivity.
  - destruct (Hchecks short_labels eq_refl) as (_ & Hint).
    destruct (Hint eq_refl) as [f [Hf Hrate]].
    exists f. split; [exact Hf|]. apply (Hrate small_env). discriminate.
Defined.

(** C9 as stated fails: labels of dtype [uint8] are integral, and there
    are as many as examples in the batch, yet [errors] raises
    [NotImplementedError] instead of returning the mean zero-one loss. *)
Lemma errors_refuses_unsigned_labels :
  integral (dtype (type uint8_labels)) = true /\
  ndim (type uint8_labels) = 1 /\
  length (value uint8_labels small_env) = length (x small_env) /\
  LogisticRegression.errors small_logLayer uint8_labels = Raise NotImplementedError.
Proof. repeat split. Qed.

(** Two hidden layers of size 0: the second dA divides by zero. *)
Remark SdA_init_zero_sizes :
  SdA.init x (28 * 28) [0; 0]%Z 10 no_state = Raise ZeroDivisionError.
Proof. reflexivity. Qed.

(** Two data sets of 21 training examples that differ in the last one. *)
Definition tail_dataset (last : float) : Dataset :=
  {| train_set_x := replicate 20 [0.5%float] ++ [[last]];
     train_set_y := replicate 20 1%Z ++ [0%Z];
     valid_set_x := []; valid_set_y := [];
     test_set_x := []; test_set_y := [] |}.

(** Two data sets of 21 training images that differ in the last one, with
    20 validation and 20 test images. *)
Definition image (v : float) : Vector := replicate (28 * 28) v.
Definition padded_dataset (last : float) : Dataset :=
  {| train_set_x := replicate 20 (image 0.5) ++ [image last];
     train_set_y := replicate 20 1%Z ++ [0%Z];
     valid_set_x := replicate 20 (image 0.25); valid_set_y := replicate 20 1%Z;
     test_set_x := replicate 20 (image 0.75); test_set_y := replicate 20 2%Z |}.

Lemma padded_dataset_well_formed last : well_formed (padded_dataset last).
Proof.
  assert (forall v, Z.of_nat (length (image v)) = (28 * 28)%Z) as Himage.
  { intros v. unfold image. rewrite length_replicate. reflexivity. }
  unfold well_formed, well_formed_partition, padded_dataset.
  cbn [train_set_x train_set_y valid_set_x valid_set_y test_set_x test_set_y].
  repeat split;
    repeat (apply Forall_app; split);
    try (apply Forall_replicate);
    try (apply Forall_cons; split; [|apply Forall_nil]);
    try apply Himage; lia.
Qed.

Lemma trailing_examples_unused_witness :
  same_batches (train_set_x (padded_dataset 0)) (train_set_y (padded_dataset 0))
               (train_set_x (padded_dataset 1)) (train_set_y (padded_dataset 1)) /\
  concat (map (minibatch (train_set_x (padded_dataset 1)) batch_size) (xrange 1))
  = replicate 20 (image 0.5) /\
  sgd_optimization_mnist 0.1%float 5 0.1%float 1000 (padded_dataset 0)
  = sgd_optimization_mnist 0.1%float 5 0.1%float 1000 (padded_dataset 1) /\
  well_formed (padded_dataset 0) /\
  exists l,
    sgd_optimization_mnist 0.1%float 5 0.1%float 1000 (padded_dataset 0) = Ok l.
Proof.
  destruct (trailing_examples_unused 0.1%float 5 0.1%float 1000
              (padded_dataset 0) (padded_dataset 1)) as (Hcover & Hsame & Hreturns).
  assert (same_batches (train_set_x (padded_dataset 0)) (train_set_y (padded_dataset 0))
            (train_set_x (padded_dataset 1)) (train_set_y (padded_dataset 1)))
    as Htrain.
  { repeat split. }
  split; [exact Htrain|]. split; [|split; [|split]].
  - exact (proj1 (proj2 (Hcover _ (train_set_x (padded_dataset 1))))).
  - apply Hsame; [exact Htrain | repeat split | repeat split].
  - apply padded_dataset_well_formed.
  - destruct (Hreturns (padded_dataset_well_formed 0))
      as (classifier & s1 & s2 & train & _ & _ & _ & Hrun).
    + left. cbn. lia.
    + eexists. exact Hrun.
Defined.

(** * Further properties of the code *)

(** ** Minibatches *)

(** Every minibatch the loops take is full, and holds the examples of
    the partition in their order: example [i] of minibatch [index] is
    example [index * batch_size + i] of the partition. *)
Theorem minibatch_full {A} (data : list A) (bs index : Z) :
  (0 < bs)%Z ->
  In index (xrange (Z.of_nat (length data) / bs)) ->
  length (minibatch data bs index) = Z.to_nat bs /\
  forall i, i < Z.to_nat bs ->
    minibatch data bs index !! i = data !! (Z.to_nat index * Z.to_nat bs + i).
Proof.
  intros Hbs Hindex. apply In_xrange in Hindex.
  pose proof (Z.mul_div_le (Z.of_nat (length data)) bs Hbs) as Hfloor.
  assert (minibatch data bs index
          = take (Z.to_nat bs) (drop (Z.to_nat index * Z.to_nat bs) data)) as ->.
  { rewrite <- (minibatch_of_nat data bs (Z.to_nat index)) by lia.
    f_equal. lia. }
  split.
  - rewrite length_take, length_drop. nia.
  - intros i Hi. rewrite lookup_take_lt by exact Hi. rewrite lookup_drop. reflexivity.
Qed.

Lemma minibatch_full_witness :
  length (minibatch (train_set_x (tail_dataset 0)) batch_size 0) = 20 /\
  minibatch (train_set_x (tail_dataset 0)) batch_size 0 !! 19 = Some [0.5%float].
Proof.
  destruct (minibatch_full (train_set_x (tail_dataset 0)) batch_size 0)
    as [Hlen Hget].
  - reflexivity.
  - left. reflexivity.
  - split; [exact Hlen|]. rewrite (Hget 19); [reflexivity | vm_compute; lia].
Defined.

(** ** The validation cadence *)

(** With at most 5000 training minibatches the validation frequency is
    their number, and the validation runs at the last minibatch of every
    epoch and at no other: elsewhere the body only trains. *)
Theorem validation_once_per_epoch {S} (train_model : Z -> S -> float * S)
    (validate_model test_model : Z -> S -> float)
    (n_train_batches n_valid_batches n_test_batches epoch minibatch_index : Z)
    (l : Loop S) :
  (n_train_batches <= patience0 / 2)%Z ->
  In minibatch_index (xrange n_train_batches) ->
  let iter := (epoch * n_train_batches + minibatch_index)%Z in
  let c := fst (train_model minibatch_index (params l)) in
  let p := snd (train_model minibatch_index (params l)) in
  let body := minibatch_body train_model validate_model test_model
                n_train_batches n_valid_batches n_test_batches epoch
                minibatch_index l in
  validation_frequency n_train_batches = n_train_batches /\
  (minibatch_index = (n_train_batches - 1)%Z ->
     body = (early_stopping test_model n_test_batches iter
               (T.mean (map (fun i => validate_model i p) (xrange n_valid_batches)))
               {| params := p; patience := patience l;
                  best_validation_loss := best_validation_loss l;
                  best_iter := best_iter l; test_score := test_score l;
                  cost_ij := [] |}, iter)) /\
  (minibatch_index <> (n_train_batches - 1)%Z ->
     body = ({| params := p; patience := patience l;
                best_validation_loss := best_validation_loss l;
                best_iter := best_iter l; test_score := test_score l;
                cost_ij := cost_ij l ++ [c] |}, iter)).
Proof.
  intros Hsmall Hindex iter c p body. apply In_xrange in Hindex.
  assert (validation_frequency n_train_batches = n_train_batches) as Hfreq.
  { unfold validation_frequency. lia. }
  assert ((iter + 1) mod n_train_batches = (minibatch_index + 1) mod n_train_batches)%Z
    as Hmod.
  { subst iter.
    replace (epoch * n_train_batches + minibatch_index + 1)%Z
      with (minibatch_index + 1 + epoch * n_train_batches)%Z by lia.
    apply Z_mod_plus_full. }
  split; [exact Hfreq|]. subst body c p. unfold minibatch_body.
  destruct (train_model minibatch_index (params l)) as [c p]. cbn [fst snd].
  fold iter. rewrite Hfreq, Hmod. split; intros Hlast.
  - replace (minibatch_index + 1)%Z with n_train_batches by lia.
    rewrite Z_mod_same_full. reflexivity.
  - rewrite Z.mod_small by lia.
    destruct (Z.eqb_spec (minibatch_index + 1) 0); [lia | reflexivity].
Qed.

Lemma validation_once_per_epoch_witness :
  let l := {| params := 0%Z; patience := patience0;
              best_validation_loss := infinity; best_iter := None;
              test_score := 0%float; cost_ij := [] |} in
  validation_frequency 3 = 3%Z /\
  best_iter (fst (minibatch_body counting_train_model (constant_error 0.1)
                    (constant_error 0.2) 3 1 1 0 2 l)) = Some 2%Z /\
  best_iter (fst (minibatch_body counting_train_model (constant_error 0.1)
                    (constant_error 0.2) 3 1 1 0 1 l)) = None.
Proof.
  intros l.
  destruct (validation_once_per_epoch counting_train_model (constant_error 0.1)
              (constant_error 0.2) 3 1 1 0 2 l) as (Hfreq & Hlast & _).
  { vm_compute. discriminate. }
  { right. right. left. reflexivity. }
  destruct (validation_once_per_epoch counting_train_model (constant_error 0.1)
              (constant_error 0.2) 3 1 1 0 1 l) as (_ & _ & Hother).
  { vm_compute. discriminate. }
  { right. left. reflexivity. }
  split; [exact Hfreq|]. split.
  - rewrite (Hlast eq_refl). reflexivity.
  - rewrite Hother; [reflexivity | discriminate].
Defined.

(** ** Invariants of the fine-tuning loop *)

Section LoopInvariants.

Context {S : Type}.
Variable train_model : Z -> S -> float * S.
Variables validate_model test_model : Z -> S -> float.
Variables n_train_batches n_valid_batches n_test_batches : Z.

Let body := minibatch_body train_model validate_model test_model
              n_train_batches n_valid_batches n_test_batches.
Let inner := minibatch_loop train_model validate_model test_model
               n_train_batches n_valid_batches n_test_batches.

Lemma minibatch_body_iter epoch minibatch_index l :
  snd (body epoch minibatch_index l) = (epoch * n_train_batches + minibatch_index)%Z.
Proof.
  unfold body, minibatch_body.
  destruct (train_model minibatch_index (params l)) as [c p].
  destruct (_ =? 0)%Z; reflexivity.
Qed.

(** What holds before the loop and is kept by one turn of the body, at
    the indices the loops go through, holds at the end. *)
Lemma epoch_loop_invariant (Inv : Loop S -> Prop) (training_epochs : Z) :
  (forall epoch minibatch_index l,
     (0 <= epoch < training_epochs)%Z ->
     In minibatch_index (xrange n_train_batches) ->
     Inv l -> Inv (fst (body epoch minibatch_index l))) ->
  forall l, Inv l ->
    Inv (epoch_loop train_model validate_model test_model n_train_batches
           n_valid_batches n_test_batches training_epochs l).
Proof.
  intros Hbody.
  assert (forall epoch indices l,
            (0 <= epoch < training_epochs)%Z ->
            (forall i, In i indices -> In i (xrange n_train_batches)) ->
            Inv l -> Inv (inner epoch indices l)) as Hinner.
  { intros epoch. induction indices as [|i indices IH]; intros l He Hin Hl.
    - exact Hl.
    - unfold inner. cbn [minibatch_loop]. fold body.
      pose proof (Hbody epoch i l He (Hin i (or_introl eq_refl)) Hl) as Hl'.
      destruct (body epoch i l) as [l' iter]. cbn [fst] in Hl'.
      destruct (patience l' <=? iter)%Z; [exact Hl'|].
      apply IH; [exact He | | exact Hl'].
      intros j Hj. apply Hin. right. exact Hj. }
  unfold epoch_loop.
  assert (forall epochs l,
            (forall e, In e epochs -> In e (xrange training_epochs)) ->
            Inv l ->
            Inv (fold_left (fun l epoch => inner epoch (xrange n_train_batches) l)
                           epochs l)) as Houter.
  { induction epochs as [|e epochs IH]; intros l Hin Hl; [exact Hl|].
    cbn [fold_left]. apply IH.
    - intros e' He'. apply Hin. right. exact He'.
    - apply Hinner; [|intros i Hi; exact Hi | exact Hl].
      apply In_xrange. apply Hin. left. reflexivity. }
  intros l Hl. apply Houter; [intros e He; exact He | exact Hl].
Qed.

(** The patience never goes below its initial 10000.  As long as no
    validation error was below the best one, the best loss is infinite,
    the test score 0 and the patience 10000.  The best iteration, once
    there is one, is an iteration of the run at which the validation
    ran. *)
Theorem fine_tune_invariants (training_epochs : Z) (p : S) :
  let l := fine_tune train_model validate_model test_model n_train_batches
             n_valid_batches n_test_batches training_epochs p in
  (patience0 <= patience l)%Z /\
  (best_iter l = None ->
     best_validation_loss l = infinity /\ test_score l = 0%float /\
     patience l = patience0) /\
  (forall iter, best_iter l = Some iter ->
     (0 <= iter < training_epochs * n_train_batches)%Z /\
     ((iter + 1) mod validation_frequency n_train_batches = 0)%Z).
Proof.
  unfold fine_tune.
  apply (epoch_loop_invariant
           (fun l =>
              (patience0 <= patience l)%Z /\
              (best_iter l = None ->
                 best_validation_loss l = infinity /\ test_score l = 0%float /\
                 patience l = patience0) /\
              (forall iter, best_iter l = Some iter ->
                 (0 <= iter < training_epochs * n_train_batches)%Z /\
                 ((iter + 1) mod validation_frequency n_train_batches = 0)%Z))).
  - intros epoch i l He Hi (Hpat & Hnone & Hsome). apply In_xrange in Hi.
    unfold body, minibatch_body.
    destruct (train_model i (params l)) as [c q]. cbn [params patience
      best_validation_loss best_iter test_score cost_ij].
    destruct (Z.eqb_spec ((epoch * n_train_batches + i + 1)
                            mod validation_frequency n_train_batches) 0)
      as [Hfreq|_]; cbn [fst]; [|repeat split; try apply Hnone; try apply Hsome; assumption].
    unfold early_stopping. cbn [params patience best_validation_loss best_iter
      test_score cost_ij].
    destruct (PrimFloat.ltb _ (best_validation_loss l));
      [|repeat split; try apply Hnone; try apply Hsome; assumption].
    cbn [patience best_iter]. split; [|split].
    + destruct (PrimFloat.ltb _ _); lia.
    + discriminate.
    + intros iter Hiter. inversion Hiter; subst iter. split; [nia | exact Hfreq].
  - cbn. split; [lia|]. split; [intros _; repeat split | discriminate].
Qed.

End LoopInvariants.

(** ** How many updates the fine-tuning loop applies *)

(** The loop is run on parameters paired with a counter of the calls of
    [train_model]; the validation and test functions read the parameters
    only. *)
Definition counted {S} (train_model : Z -> S -> float * S)
    : Z -> S * Z -> float * (S * Z) :=
  fun index pc =>
    let '(c, p) := train_model index (fst pc) in (c, (p, (snd pc + 1)%Z)).
Definition on_params {S} (f : Z -> S -> float) : Z -> S * Z -> float :=
  fun index pc => f index (fst pc).
Definition forget {S} (l : Loop (S * Z)) : Loop S :=
  {| params := fst (params l); patience := patience l;
     best_validation_loss := best_validation_loss l;
     best_iter := best_iter l; test_score := test_score l;
     cost_ij := cost_ij l |}.

Section Counting.

Context {S : Type}.
Variable train_model : Z -> S -> float * S.
Variables validate_model test_model : Z -> S -> float.
Variables n_train_batches n_valid_batches n_test_batches : Z.

Let body := minibatch_body train_model validate_model test_model
              n_train_batches n_valid_batches n_test_batches.
Let cbody := minibatch_body (counted train_model) (on_params validate_model)
               (on_params test_model)
               n_train_batches n_valid_batches n_test_batches.
Let inner := minibatch_loop train_model validate_model test_model
               n_train_batches n_valid_batches n_test_batches.
Let cinner := minibatch_loop (counted train_model) (on_params validate_model)
                (on_params test_model)
                n_train_batches n_valid_batches n_test_batches.

Lemma forget_early_stopping iter v (l : Loop (S * Z)) :
  forget (early_stopping (on_params test_model) n_test_batches iter v l)
  = early_stopping test_model n_test_batches iter v (forget l).
Proof.
  unfold early_stopping. cbn [forget best_validation_loss patience params cost_ij].
  destruct (PrimFloat.ltb v (best_validation_loss l)); reflexivity.
Qed.

Lemma forget_body epoch minibatch_index (l : Loop (S * Z)) :
  forget (fst (cbody epoch minibatch_index l))
  = fst (body epoch minibatch_index (forget l)) /\
  snd (cbody epoch minibatch_index l) = snd (body epoch minibatch_index (forget l)).
Proof.
  unfold cbody, body, minibatch_body, counted.
  cbn [forget params patience best_validation_loss best_iter test_score cost_ij].
  destruct (train_model minibatch_index (fst (params l))) as [c p].
  cbn [params patience best_validation_loss best_iter test_score cost_ij].
  destruct (_ =? 0)%Z; cbn [fst snd]; [|split; reflexivity].
  rewrite forget_early_stopping. split; reflexivity.
Qed.

Lemma forget_inner epoch indices :
  forall l : Loop (S * Z),
    forget (cinner epoch indices l) = inner epoch indices (forget l).
Proof.
  induction indices as [|i indices IH]; intros l; [reflexivity|].
  unfold cinner, inner. cbn [minibatch_loop]. fold cbody body cinner inner.
  destruct (forget_body epoch i l) as [Hl Hiter].
  destruct (cbody epoch i l) as [l1 iter1], (body epoch i (forget l)) as [l2 iter2].
  cbn [fst snd] in Hl, Hiter. subst l2 iter2. cbn [forget patience].
  destruct (patience l1 <=? iter1)%Z; [reflexivity | apply IH].
Qed.

(** The counter changes nothing else. *)
Lemma forget_fine_tune training_epochs (p : S) (count : Z) :
  forget (fine_tune (counted train_model) (on_params validate_model)
            (on_params test_model) n_train_batches n_valid_batches
            n_test_batches training_epochs (p, count))
  = fine_tune train_model validate_model test_model n_train_batches
      n_valid_batches n_test_batches training_epochs p.
Proof.
  unfold fine_tune, epoch_loop. fold cinner inner.
  set (l0 := {| params := (p, count); patience := patience0;
                best_validation_loss := infinity; best_iter := None;
                test_score := 0%float; cost_ij := [] |}).
  change {| params := p; patience := patience0;
            best_validation_loss := infinity; best_iter := None;
            test_score := 0%float; cost_ij := [] |} with (forget l0).
  generalize l0. clear l0.
  induction (xrange training_epochs) as [|e epochs IH]; intros l; [reflexivity|].
  cbn [fold_left]. rewrite IH, forget_inner. reflexivity.
Qed.

Lemma cbody_count epoch minibatch_index (l : Loop (S * Z)) :
  snd (params (fst (cbody epoch minibatch_index l))) = (snd (params l) + 1)%Z /\
  (patience l <= patience (fst (cbody epoch minibatch_index l)))%Z /\
  snd (cbody epoch minibatch_index l)
  = (epoch * n_train_batches + minibatch_index)%Z.
Proof.
  unfold cbody, minibatch_body, counted.
  destruct (train_model minibatch_index (fst (params l))) as [c p].
  cbn [params patience best_validation_loss best_iter test_score cost_ij].
  destruct (_ =? 0)%Z; cbn [fst snd params patience]; [|repeat split; lia].
  unfold early_stopping.
  cbn [params patience best_validation_loss best_iter test_score cost_ij].
  destruct (PrimFloat.ltb _ (best_validation_loss l));
    cbn [params patience]; [|repeat split; lia].
  destruct (PrimFloat.ltb _ _); repeat split; lia.
Qed.

(** One turn of the minibatch loop applies between one update (when it
    has an index to go through) and one per index; all of them when the
    patience is not reached. *)
Lemma cinner_count epoch indices :
  forall l : Loop (S * Z),
    let l' := cinner epoch indices l in
    (patience l <= patience l')%Z /\
    (snd (params l) <= snd (params l') <= snd (params l) + Z.of_nat (length indices))%Z /\
    (indices <> [] -> (snd (params l) + 1 <= snd (params l'))%Z) /\
    ((forall i, In i indices -> (epoch * n_train_batches + i < patience l)%Z) ->
     snd (params l') = (snd (params l) + Z.of_nat (length indices))%Z).
Proof.
  induction indices as [|i indices IH]; intros l.
  - cbn. repeat split; try lia. intros Habs. contradiction.
  - cbv zeta. unfold cinner. cbn [minibatch_loop]. fold cbody cinner.
    destruct (cbody_count epoch i l) as (Hcount & Hpat & Hiter).
    destruct (cbody epoch i l) as [l1 iter]. cbn [fst snd] in Hcount, Hpat, Hiter.
    subst iter. cbn [length].
    destruct (Z.leb_spec (patience l1) (epoch * n_train_batches + i)) as [Hstop|Hgo].
    + repeat split; try lia. intros Hbelow.
      specialize (Hbelow i (or_introl eq_refl)). lia.
    + destruct (IH l1) as (Hpat' & Hbounds & _ & Hall).
      repeat split; try lia. intros Hbelow. rewrite Hall; [lia|].
      intros j Hj. specialize (Hbelow j (or_intror Hj)). lia.
Qed.

Lemma xrange_succ (n : Z) : (0 <= n)%Z -> xrange (n + 1) = xrange n ++ [n].
Proof.
  intros Hn. unfold xrange, xrange2.
  replace (n + 1 - 0)%Z with ((n - 0) + 1)%Z by lia.
  rewrite seqZ_app by lia. f_equal.
  replace (0 + (n - 0))%Z with n by lia. reflexivity.
Qed.

(** Every epoch of the fine-tuning loop applies at least one update, also
    after the patience is reached, and at most one per minibatch: the
    counter after [epoch + 1] epochs is that after [epoch] epochs plus a
    number between 1 and [n_train_batches].  Over the run, between one
    update per epoch and one per minibatch and epoch. *)
Theorem fine_tune_update_count (training_epochs : Z) (p : S) :
  (1 <= n_train_batches)%Z -> (0 <= training_epochs)%Z ->
  let run := fun epochs =>
    fine_tune (counted train_model) (on_params validate_model)
      (on_params test_model) n_train_batches n_valid_batches
      n_test_batches epochs (p, 0%Z) in
  let l := run training_epochs in
  forget l = fine_tune train_model validate_model test_model n_train_batches
               n_valid_batches n_test_batches training_epochs p /\
  (forall epoch, (0 <= epoch < training_epochs)%Z ->
     run (epoch + 1)%Z
     = minibatch_loop (counted train_model) (on_params validate_model)
         (on_params test_model) n_train_batches n_valid_batches n_test_batches
         epoch (xrange n_train_batches) (run epoch) /\
     (snd (params (run epoch)) + 1 <= snd (params (run (epoch + 1)%Z))
      <= snd (params (run epoch)) + n_train_batches)%Z) /\
  (training_epochs <= snd (params l) <= training_epochs * n_train_batches)%Z.
Proof.
  intros Hn He run l. split; [apply forget_fine_tune|].
  assert (length (xrange n_train_batches) = Z.to_nat n_train_batches) as Hlen.
  { unfold xrange, xrange2. rewrite length_seqZ. f_equal. lia. }
  assert (xrange n_train_batches <> []) as Hne.
  { intros Habs. rewrite Habs in Hlen. simpl in Hlen. lia. }
  split.
  - intros epoch Hepoch.
    assert (run (epoch + 1)%Z = cinner epoch (xrange n_train_batches) (run epoch))
      as Hrun.
    { subst run. cbv beta. unfold fine_tune, epoch_loop.
      rewrite xrange_succ by lia. rewrite fold_left_app. reflexivity. }
    split; [exact Hrun|]. rewrite Hrun.
    destruct (cinner_count epoch (xrange n_train_batches) (run epoch))
      as (_ & Hbounds & Hone & _).
    specialize (Hone Hne). rewrite Hlen in Hbounds. lia.
  - subst l run. cbv beta. unfold fine_tune, epoch_loop. fold cinner.
    assert (forall (epochs : list Z) (l : Loop (S * Z)),
              let l' := fold_left (fun l epoch => cinner epoch (xrange n_train_batches) l)
                                  epochs l in
              (snd (params l) + Z.of_nat (length epochs) <= snd (params l')
               <= snd (params l) + Z.of_nat (length epochs) * n_train_batches)%Z)
      as Hfold.
    { induction epochs as [|e epochs IH]; intros l; [cbn; lia|].
      cbv zeta. cbn [fold_left length].
      destruct (cinner_count e (xrange n_train_batches) l) as (_ & Hbounds & Hone & _).
      specialize (IH (cinner e (xrange n_train_batches) l)). cbv zeta in IH.
      rewrite Hlen in Hbounds.
      specialize (Hone Hne). nia. }
    specialize (Hfold (xrange training_epochs)
                  {| params := (p, 0%Z); patience := patience0;
                     best_validation_loss := infinity; best_iter := None;
                     test_score := 0%float; cost_ij := [] |}).
    cbv zeta in Hfold. cbn [params snd] in Hfold.
    assert (length (xrange training_epochs) = Z.to_nat training_epochs) as Hlen'.
    { unfold xrange, xrange2. rewrite length_seqZ. f_equal. lia. }
    rewrite Hlen' in Hfold. lia.
Qed.

(** A run of at most 10000 iterations is never cut short: every
    minibatch of every epoch is trained on, whatever the validation
    errors are. *)
Theorem fine_tune_short_run_complete (training_epochs : Z) (p : S) :
  (0 <= n_train_batches)%Z -> (0 <= training_epochs)%Z ->
  (training_epochs * n_train_batches <= patience0)%Z ->
  let l := fine_tune (counted train_model) (on_params validate_model)
             (on_params test_model) n_train_batches n_valid_batches
             n_test_batches training_epochs (p, 0%Z) in
  forget l = fine_tune train_model validate_model test_model n_train_batches
               n_valid_batches n_test_batches training_epochs p /\
  snd (params l) = (training_epochs * n_train_batches)%Z.
Proof.
  intros Hn He Hshort l. split; [apply forget_fine_tune|].
  subst l. unfold fine_tune, epoch_loop. fold cinner.
  assert (length (xrange n_train_batches) = Z.to_nat n_train_batches) as Hlen.
  { unfold xrange, xrange2. rewrite length_seqZ. f_equal. lia. }
  assert (forall (epochs : list Z) (l : Loop (S * Z)),
            (forall e, In e epochs -> In e (xrange training_epochs)) ->
            (patience0 <= patience l)%Z ->
            let l' := fold_left (fun l epoch => cinner epoch (xrange n_train_batches) l)
                                epochs l in
            snd (params l')
            = (snd (params l) + Z.of_nat (length epochs) * n_train_batches)%Z)
    as Hfold.
  { induction epochs as [|e epochs IH]; intros l Hin Hpat; [cbn; lia|].
    cbv zeta. cbn [fold_left length].
    destruct (cinner_count e (xrange n_train_batches) l) as (Hpat' & _ & _ & Hall).
    rewrite IH.
    - rewrite Hall, Hlen; [nia|].
      intros i Hi. apply In_xrange in Hi.
      pose proof (In_xrange _ _ (Hin e (or_introl eq_refl))). nia.
    - intros e' He'. apply Hin. right. exact He'.
    - lia. }
  rewrite Hfold; [|intros e Hin; exact Hin | cbn; lia].
  cbn [params snd].
  assert (length (xrange training_epochs) = Z.to_nat training_epochs) as ->.
  { unfold xrange, xrange2. rewrite length_seqZ. f_equal. lia. }
  lia.
Qed.

End Counting.

(** ** What the constructors build *)

(** The sizes [SdA.__init__] passes to the dA at position [k], and the
    initial [W] that [dA.__init__] samples. *)
Definition layer_n_visible (n_ins : Z) (sizes : list Z) (k : nat) : Z :=
  match k with
  | 0 => n_ins
  | S k' => default 0%Z (sizes !! k')
  end.
Definition layer_n_hidden (sizes : list Z) (k : nat) : Z :=
  default 0%Z (sizes !! k).
Definition initial_W `{Backend} (i : nat) (n_visible n_hidden : Z) : Matrix :=
  let bound := PrimFloat.sqrt (6 / of_Z (n_visible + n_hidden))%float in
  uniform i (PrimFloat.opp bound) bound n_visible n_hidden.

(** Sizes [dA.__init__] accepts. *)
Definition dA_sizes_ok (n_visible n_hidden : Z) : Prop :=
  (0 <= n_visible)%Z /\ (0 <= n_hidden)%Z /\ (n_visible + n_hidden <> 0)%Z.

(** The layers built so far and the state they left, from the state [s0]
    before the construction. *)
Definition built `{Backend} (n_ins : Z) (sizes : list Z) (s0 : State)
    (layers : list dA.t) (s : State) : Prop :=
  (forall k l, layers !! k = Some l ->
     dA.n_visible l = layer_n_visible n_ins sizes k /\
     dA.n_hidden l = layer_n_hidden sizes k /\
     dA_sizes_ok (dA.n_visible l) (dA.n_hidden l) /\
     mat s (dA_W k) = initial_W k (dA.n_visible l) (dA.n_hidden l) /\
     vec s (dA_b k) = T.zeros (dA.n_hidden l) /\
     vec s (dA_b_prime k) = T.zeros (dA.n_visible l)) /\
  mat s logLayer_W = mat s0 logLayer_W /\
  vec s logLayer_b = vec s0 logLayer_b /\
  rng s = rng s0.

Lemma dA_init_inv `{Backend} i n_visible n_hidden input s layer s' :
  dA.init i n_visible n_hidden input s = Ok (layer, s') ->
  dA_sizes_ok n_visible n_hidden /\
  layer = dA.make i n_visible n_hidden input /\
  s' = set_vec (dA_b_prime i) (T.zeros n_visible)
         (set_vec (dA_b i) (T.zeros n_hidden)
            (set_mat (dA_W i) (initial_W i n_visible n_hidden) s)).
Proof.
  unfold dA.init, dA_sizes_ok.
  destruct (Z.eqb_spec (n_visible + n_hidden) 0); [discriminate|].
  destruct (Z.ltb_spec n_visible 0); [discriminate|].
  destruct (Z.ltb_spec n_hidden 0); [discriminate|].
  cbn [orb]. intros Heq. inversion Heq. repeat split; assumption.
Qed.

Lemma dA_init_sizes_ok `{Backend} i n_visible n_hidden input s :
  dA_sizes_ok n_visible n_hidden ->
  exists s', dA.init i n_visible n_hidden input s
             = Ok (dA.make i n_visible n_hidden input, s').
Proof.
  intros (Hv & Hh & Hsum). unfold dA.init.
  destruct (Z.eqb_spec (n_visible + n_hidden) 0); [contradiction|].
  destruct (Z.ltb_spec n_visible 0); [lia|].
  destruct (Z.ltb_spec n_hidden 0); [lia|].
  eexists. reflexivity.
Qed.

Lemma getitem_nat_inv {A} (l : list A) (i : nat) (a : A) :
  getitem l (Z.of_nat i) = Ok a -> l !! i = Some a.
Proof.
  unfold getitem. cbv zeta.
  assert ((Z.of_nat i <? 0)%Z = false) as E by (apply Z.ltb_ge; lia).
  rewrite E. rewrite E. rewrite Nat2Z.id.
  destruct (l !! i); [intros Heq; inversion Heq; reflexivity | discriminate].
Qed.

Lemma built_snoc `{Backend} n_ins sizes s0 layers s n_visible n_hidden input :
  built n_ins sizes s0 layers s ->
  n_visible = layer_n_visible n_ins sizes (length layers) ->
  n_hidden = layer_n_hidden sizes (length layers) ->
  dA_sizes_ok n_visible n_hidden ->
  built n_ins sizes s0
    (layers ++ [dA.make (length layers) n_visible n_hidden input])
    (set_vec (dA_b_prime (length layers)) (T.zeros n_visible)
       (set_vec (dA_b (length layers)) (T.zeros n_hidden)
          (set_mat (dA_W (length layers))
             (initial_W (length layers) n_visible n_hidden) s))).
Proof.
  intros (Hlayers & HW & Hb & Hrng) Hv Hh Hok.
  split; [|repeat split; assumption].
  intros k l Hk.
  destruct (decide (k < length layers)) as [Hlt|Hge].
  - rewrite lookup_app_l in Hk by exact Hlt.
    destruct (Hlayers k l Hk) as (H1 & H2 & H3 & H4 & H5 & H6).
    repeat split; try assumption; try apply H3; cbn.
    + rewrite decide_False by (intros E; inversion E; lia). exact H4.
    + rewrite decide_False by discriminate.
      rewrite decide_False by (intros E; inversion E; lia). exact H5.
    + rewrite decide_False by (intros E; inversion E; lia).
      rewrite decide_False by discriminate. exact H6.
  - rewrite lookup_app_r in Hk by lia.
    destruct (k - length layers) as [|m] eqn:Hm; [|destruct m; discriminate].
    assert (k = length layers) as -> by lia.
    cbn in Hk. inversion Hk; subst l. cbn [dA.n_visible dA.n_hidden dA.make].
    repeat split; try assumption; try apply Hok; cbn.
    + rewrite decide_True by reflexivity. reflexivity.
    + rewrite decide_False by discriminate.
      rewrite decide_True by reflexivity. reflexivity.
    + rewrite decide_True by reflexivity. reflexivity.
Qed.

Lemma add_layers_built `{Backend} n_ins sizes s0 :
  forall k a layers s layers' s',
    length layers = a -> 1 <= a ->
    fold_left (SdA.add_layer sizes) (map Z.of_nat (seq a k)) (Ok (layers, s))
    = Ok (layers', s') ->
    built n_ins sizes s0 layers s ->
    built n_ins sizes s0 layers' s' /\ length layers' = a + k.
Proof.
  induction k as [|k IH]; intros a layers s layers' s' Hlen Ha Hfold Hbuilt.
  - cbn in Hfold. inversion Hfold; subst. split; [exact Hbuilt | lia].
  - cbn [seq map fold_left] in Hfold.
    destruct (SdA.add_layer sizes (Ok (layers, s)) (Z.of_nat a))
      as [[layers2 s2]|e] eqn:Hadd.
    2: { rewrite fold_left_Raise in Hfold; [discriminate | apply add_layer_Raise]. }
    unfold SdA.add_layer in Hadd. cbn [bind] in Hadd.
    apply bind_Ok in Hadd as [n_visible [Hgv Hadd]].
    apply bind_Ok in Hadd as [n_hidden [Hgh Hadd]].
    apply bind_Ok in Hadd as [prev [_ Hadd]].
    apply bind_Ok in Hadd as [[layer s3] [Hinit Hadd]].
    inversion Hadd; subst layers2 s2; clear Hadd.
    apply dA_init_inv in Hinit as (Hok & -> & ->).
    replace (Z.of_nat a - 1)%Z with (Z.of_nat (a - 1)) in Hgv by lia.
    apply getitem_nat_inv in Hgv. apply getitem_nat_inv in Hgh.
    apply IH in Hfold.
    + destruct Hfold as [Hb Hl]. split; [exact Hb | lia].
    + rewrite length_app. cbn. lia.
    + lia.
    + apply built_snoc; [exact Hbuilt | | | exact Hok].
      * rewrite Hlen. destruct a as [|a']; [lia|].
        cbn [layer_n_visible]. replace (S a' - 1) with a' in Hgv by lia.
        rewrite Hgv. reflexivity.
      * rewrite Hlen. unfold layer_n_hidden. rewrite Hgh. reflexivity.
Qed.

(** Everything a successful [SdA.__init__] leaves behind. *)
Lemma SdA_init_built `{Backend} input n_ins sizes n_outs s0 classifier s1 :
  SdA.init input n_ins sizes n_outs s0 = Ok (classifier, s1) ->
  exists s n_in,
    built n_ins sizes s0 (SdA.layers classifier) s /\
    length (SdA.layers classifier) = length sizes /\
    getitem sizes (-1) = Ok n_in /\ (0 <= n_in)%Z /\ (0 <= n_outs)%Z /\
    s1 = set_vec logLayer_b (T.zeros n_outs)
           (set_mat logLayer_W (T.zeros2 n_in n_outs) s).
Proof.
  unfold SdA.init. intros Hinit.
  destruct (Z.ltb_spec (Z.of_nat (length sizes)) 1) as [|Hlen]; [discriminate|].
  apply bind_Ok in Hinit as [n_hidden [Hg0 Hinit]].
  apply bind_Ok in Hinit as [[layer sa] [Hlayer Hinit]].
  apply bind_Ok in Hinit as [[layers sb] [Hfold Hinit]].
  apply bind_Ok in Hinit as [top [_ Hinit]].
  apply bind_Ok in Hinit as [n_in [Hn_in Hinit]].
  apply bind_Ok in Hinit as [[logLayer sc] [Hlog Hinit]].
  inversion Hinit; subst classifier s1; clear Hinit. cbn [SdA.layers].
  apply dA_init_inv in Hlayer as (Hok & -> & ->).
  apply (getitem_nat_inv sizes 0) in Hg0.
  assert (xrange2 1 (Z.of_nat (length sizes))
          = map Z.of_nat (seq 1 (length sizes - 1))) as Hrange.
  { rewrite <- xrange2_of_nat. f_equal; lia. }
  rewrite Hrange in Hfold.
  apply (add_layers_built n_ins sizes s0) in Hfold as [Hbuilt Hlength];
    [|reflexivity | lia |].
  - unfold LogisticRegression.init in Hlog.
    destruct (Z.ltb_spec n_in 0); [discriminate|].
    destruct (Z.ltb_spec n_outs 0); [discriminate|].
    cbn [orb] in Hlog. inversion Hlog; subst logLayer sc.
    exists sb, n_in. split; [exact Hbuilt|]. split; [lia|].
    split; [exact Hn_in|]. split; [lia|]. split; [lia | reflexivity].
  - apply (built_snoc n_ins sizes s0 [] s0 n_ins n_hidden input).
    + split; [intros k l Hk; destruct k; discriminate | repeat split].
    + reflexivity.
    + unfold layer_n_hidden. cbn [length]. rewrite Hg0. reflexivity.
    + exact Hok.
Qed.

(** The stack has one layer per hidden size; layer 0 has [n_ins] visible
    units, layer [k] has [hidden_layers_sizes[k]] hidden units, and each
    layer has as many visible units as the layer below has hidden ones. *)
Theorem SdA_architecture `{Backend} input n_ins sizes n_outs s0 classifier s1 :
  SdA.init input n_ins sizes n_outs s0 = Ok (classifier, s1) ->
  length (SdA.layers classifier) = length sizes /\
  SdA.n_layers classifier = Z.of_nat (length sizes) /\
  forall k layer, SdA.layers classifier !! k = Some layer ->
    sizes !! k = Some (dA.n_hidden layer) /\
    dA.n_visible layer = layer_n_visible n_ins sizes k /\
    forall layer', SdA.layers classifier !! S k = Some layer' ->
      dA.n_visible layer' = dA.n_hidden layer.
Proof.
  intros Hinit.
  pose proof (SdA_init_Ok _ _ _ _ _ _ _ Hinit) as (_ & _ & Hn & _).
  apply SdA_init_built in Hinit as (s & n_in & (Hlayers & _) & Hlen & _).
  split; [exact Hlen|]. split; [exact Hn|].
  intros k layer Hk.
  destruct (Hlayers k layer Hk) as (Hv & Hh & _).
  assert (sizes !! k = Some (dA.n_hidden layer)) as Hsize.
  { destruct (lookup_lt_is_Some_2 sizes k) as [n Hsk].
    - rewrite <- Hlen. eapply lookup_lt_Some. exact Hk.
    - rewrite Hh. unfold layer_n_hidden. rewrite Hsk. reflexivity. }
  split; [exact Hsize|]. split; [exact Hv|].
  intros layer' Hk'. destruct (Hlayers (S k) layer' Hk') as (Hv' & _).
  rewrite Hv'. cbn [layer_n_visible]. rewrite Hsize. reflexivity.
Qed.

Lemma SdA_architecture_witness :
  SdA.init x 2 [2; 1]%Z 2 no_state = Ok (small_classifier, small_state) /\
  length (SdA.layers small_classifier) = 2 /\
  dA.n_visible small_layer1 = dA.n_hidden small_layer0.
Proof.
  split; [exact small_init_Ok|].
  destruct (SdA_architecture x 2 [2; 1]%Z 2 no_state small_classifier small_state
              small_init_Ok) as (Hlen & _ & Hlayers).
  split; [exact Hlen|].
  destruct (Hlayers 0 small_layer0 eq_refl) as (_ & _ & Hnext).
  exact (Hnext small_layer1 eq_refl).
Defined.

(** After the construction every layer's [b] and [b_prime] are zero
    vectors of its hidden and visible sizes, its [W] is the sample drawn
    within [+- sqrt(6 / (n_visible + n_hidden))], and the logistic layer's
    [W] and [b] are zero; no random stream has drawn. *)
Theorem SdA_initial_parameters `{Backend} input n_ins sizes n_outs s0 classifier s1 :
  SdA.init input n_ins sizes n_outs s0 = Ok (classifier, s1) ->
  (forall k layer, SdA.layers classifier !! k = Some layer ->
     mat s1 (dA.W layer) = initial_W k (dA.n_visible layer) (dA.n_hidden layer) /\
     vec s1 (dA.b layer) = T.zeros (dA.n_hidden layer) /\
     vec s1 (dA.b_prime layer) = T.zeros (dA.n_visible layer)) /\
  (exists n_in,
     getitem sizes (-1) = Ok n_in /\
     mat s1 (LogisticRegression.W (SdA.logLayer classifier)) = T.zeros2 n_in n_outs) /\
  vec s1 (LogisticRegression.b (SdA.logLayer classifier)) = T.zeros n_outs /\
  rng s1 = rng s0.
Proof.
  intros Hinit.
  pose proof (SdA_init_Ok _ _ _ _ _ _ _ Hinit) as (Hst & _ & _ & top & _ & Hlog).
  apply SdA_init_built in Hinit
    as (s & n_in & (Hlayers & _ & _ & Hrng) & _ & Hn_in & _ & _ & ->).
  rewrite Hlog. cbn [LogisticRegression.W LogisticRegression.b].
  split; [|split; [|split]].
  - intros k layer Hk.
    destruct (Hlayers k layer Hk) as (_ & _ & _ & HW & Hb & Hb').
    assert (dA.W layer = dA_W k /\ dA.b layer = dA_b k /\
            dA.b_prime layer = dA_b_prime k) as (-> & -> & ->).
    { rewrite (Hst k layer Hk). repeat split. }
    cbn [set_vec set_mat mat vec].
    split; [|split].
    + rewrite decide_False by discriminate. exact HW.
    + rewrite decide_False by discriminate. exact Hb.
    + rewrite decide_False by discriminate. exact Hb'.
  - exists n_in. split; [exact Hn_in|]. cbn.
    rewrite decide_True by reflexivity. reflexivity.
  - cbn. rewrite decide_True by reflexivity. reflexivity.
  - exact Hrng.
Qed.

Lemma SdA_initial_parameters_witness :
  SdA.init x 2 [2; 1]%Z 2 no_state = Ok (small_classifier, small_state) /\
  vec small_state (dA_b 0) = [0; 0]%float /\
  vec small_state (dA_b_prime 1) = [0; 0]%float /\
  mat small_state logLayer_W = [[0; 0]]%float.
Proof.
  split; [exact small_init_Ok|].
  destruct (SdA_initial_parameters x 2 [2; 1]%Z 2 no_state small_classifier
              small_state small_init_Ok) as (Hlayers & (n_in & Hn_in & HW) & _).
  destruct (Hlayers 0 small_layer0 eq_refl) as (_ & Hb0 & _).
  destruct (Hlayers 1 small_layer1 eq_refl) as (_ & _ & Hb1).
  split; [exact Hb0|]. split; [exact Hb1|].
  inversion Hn_in; subst n_in. exact HW.
Defined.

(** The arguments [SdA.__init__] accepts. *)
Definition SdA_sizes_ok (n_ins : Z) (sizes : list Z) (n_outs : Z) : Prop :=
  sizes <> [] /\ (0 <= n_outs)%Z /\
  forall k, k < length sizes ->
    dA_sizes_ok (layer_n_visible n_ins sizes k) (layer_n_hidden sizes k).

Lemma add_layers_sizes_ok `{Backend} n_ins sizes :
  forall k a layers s,
    a + k <= length sizes -> 1 <= a -> layers <> [] ->
    (forall j, a <= j < a + k ->
       dA_sizes_ok (layer_n_visible n_ins sizes j) (layer_n_hidden sizes j)) ->
    exists layers' s',
      fold_left (SdA.add_layer sizes) (map Z.of_nat (seq a k)) (Ok (layers, s))
      = Ok (layers', s') /\ layers' <> [].
Proof.
  induction k as [|k IH]; intros a layers s Hle Ha Hne Hok.
  - exists layers, s. split; [reflexivity | exact Hne].
  - cbn [seq map fold_left].
    destruct (getitem_lookup sizes (a - 1)) as (nv & Hnv & Hgv); [lia|].
    destruct (getitem_lookup sizes a) as (nh & Hnh & Hgh); [lia|].
    destruct layers as [|first layers _] using rev_ind; [contradiction|].
    destruct (dA_init_sizes_ok (length (layers ++ [first])) nv nh
                (dA.hidden_values first) s) as [s2 Hs2].
    { specialize (Hok a). destruct a as [|a']; [lia|].
      cbn [layer_n_visible] in Hok. unfold layer_n_hidden in Hok.
      replace (S a' - 1) with a' in Hnv by lia.
      rewrite Hnv, Hnh in Hok. apply Hok. lia. }
    assert (SdA.add_layer sizes (Ok (layers ++ [first], s)) (Z.of_nat a)
            = Ok ((layers ++ [first]) ++
                    [dA.make (length (layers ++ [first])) nv nh
                             (dA.hidden_values first)], s2)) as ->.
    { unfold SdA.add_layer. cbn [bind].
      replace (Z.of_nat a - 1)%Z with (Z.of_nat (a - 1)) by lia.
      rewrite Hgv, Hgh. cbn [bind]. rewrite getitem_last. cbn [bind].
      rewrite Hs2. reflexivity. }
    apply IH; [lia | lia | |].
    + intros Habs. apply app_eq_nil in Habs as [_ Habs]. discriminate.
    + intros j Hj. apply Hok. lia.
Qed.

(** [SdA.__init__] returns a model exactly when there is a hidden layer,
    [n_ins], the hidden sizes and [n_outs] are not negative, and no layer
    has 0 visible and 0 hidden units. *)
Theorem SdA_init_Ok_iff `{Backend} input n_ins sizes n_outs s0 :
  (exists classifier s1,
     SdA.init input n_ins sizes n_outs s0 = Ok (classifier, s1))
  <-> SdA_sizes_ok n_ins sizes n_outs.
Proof.
  split.
  - intros (classifier & s1 & Hinit).
    apply SdA_init_built in Hinit
      as (s & n_in & (Hlayers & _) & Hlen & Hn_in & _ & Houts & _).
    split; [|split; [exact Houts|]].
    + intros ->. discriminate.
    + intros k Hk.
      destruct (lookup_lt_is_Some_2 (SdA.layers classifier) k) as [l Hl]; [lia|].
      destruct (Hlayers k l Hl) as (Hv & Hh & Hok & _).
      rewrite <- Hv, <- Hh. exact Hok.
  - intros (Hne & Houts & Hok). unfold SdA.init.
    destruct sizes as [|h0 sizes']; [contradiction|].
    set (sizes := h0 :: sizes') in *.
    destruct (Z.ltb_spec (Z.of_nat (length sizes)) 1) as [Hlt|_].
    { subst sizes. simpl in Hlt. lia. }
    change (getitem sizes 0) with (Ok (A:=Z) h0). cbn [bind].
    destruct (dA_init_sizes_ok 0 n_ins h0 input s0) as [sa Hsa].
    { apply (Hok 0). subst sizes. simpl. lia. }
    cbn [length]. rewrite Hsa. cbn [bind app].
    assert (xrange2 1 (Z.of_nat (length sizes))
            = map Z.of_nat (seq 1 (length sizes'))) as ->.
    { apply (xrange2_of_nat 1 (length sizes')). }
    destruct (add_layers_sizes_ok n_ins sizes (length sizes') 1
                [dA.make 0 n_ins h0 input] sa)
      as (layers & sb & -> & Hlayers);
      [subst sizes; simpl; lia | lia | discriminate | |].
    { intros j Hj. apply Hok. subst sizes. simpl. lia. }
    cbn [bind].
    destruct layers as [|top layers _] using rev_ind; [contradiction|].
    rewrite getitem_last. cbn [bind].
    destruct (getitem_lookup sizes (length sizes')) as (n_in & Hn_in & _).
    { subst sizes. simpl. lia. }
    assert (getitem sizes (-1) = Ok n_in) as ->.
    { unfold getitem. cbv zeta. cbn [Z.ltb Z.compare].
      replace (Z.of_nat (length sizes) + -1)%Z with (Z.of_nat (length sizes'))
        by (subst sizes; simpl; lia).
      assert ((Z.of_nat (length sizes') <? 0)%Z = false) as ->
        by (apply Z.ltb_ge; lia).
      rewrite Nat2Z.id, Hn_in. reflexivity. }
    cbn [bind]. unfold LogisticRegression.init.
    destruct (Hok (length sizes')) as (_ & Hnh & _).
    { subst sizes. simpl. lia. }
    unfold layer_n_hidden in Hnh. rewrite Hn_in in Hnh. cbn in Hnh.
    destruct (Z.ltb_spec n_in 0); [lia|].
    destruct (Z.ltb_spec n_outs 0); [lia|].
    cbn [orb bind]. eexists. eexists. reflexivity.
Qed.

(** ** What fine-tuning and pretraining leave alone *)

Lemma train_model_frame `{Backend} input n_ins sizes n_outs s0 classifier s1
    learning_rate train_x train_y bs f :
  SdA.init input n_ins sizes n_outs s0 = Ok (classifier, s1) ->
  train_model classifier learning_rate train_x train_y bs = Ok f ->
  forall index s,
    (forall i, vec (snd (f index s)) (dA_b_prime i) = vec s (dA_b_prime i)) /\
    rng (snd (f index s)) = rng s.
Proof.
  intros Hinit Hf.
  pose proof (finetune_updates_Ok _ _ _ _ _ _ _
                (SdA.negative_log_likelihood classifier y) learning_rate Hinit) as Hus.
  unfold train_model in Hf. rewrite Hus in Hf. cbn [bind] in Hf.
  inversion Hf; subst f; clear Hf.
  intros index s. unfold function. cbn [snd]. split.
  - intros i. apply apply_updates_vec_other. intros e He.
    apply in_app_iff in He as [He|[He|[He|[]]]]; try discriminate.
    apply in_flat_map in He as [j [_ [Hj|[Hj|[]]]]]; discriminate.
  - apply apply_updates_rng_other. intros i He.
    apply in_app_iff in He as [He|[He|[He|[]]]]; try discriminate.
    apply in_flat_map in He as [j [_ [Hj|[Hj|[]]]]]; discriminate.
Qed.

(** What every call of [train_model] keeps, the whole loop keeps. *)
Lemma fine_tune_params_invariant {S} (train : Z -> S -> float * S)
    (validate test : Z -> S -> float) (n n_valid n_test training_epochs : Z)
    (P : S -> Prop) (p : S) :
  (forall index q, P q -> P (snd (train index q))) ->
  P p ->
  P (params (fine_tune train validate test n n_valid n_test training_epochs p)).
Proof.
  intros Hstep Hp. unfold fine_tune.
  apply (epoch_loop_invariant train validate test n n_valid n_test
           (fun l => P (params l))); [|exact Hp].
  intros epoch index l _ _ Hl. unfold minibatch_body.
  pose proof (Hstep index (params l) Hl) as Hq.
  destruct (train index (params l)) as [c q]. cbn [snd] in Hq.
  cbn [params]. destruct (_ =? 0)%Z; cbn [fst params]; [|exact Hq].
  unfold early_stopping. cbn [params best_validation_loss].
  destruct (PrimFloat.ltb _ _); exact Hq.
Qed.

(** Fine-tuning, from its first to its last call of [train_model], never
    changes a decode bias [b_prime] and never advances a random stream:
    no corruption mask is drawn in this phase. *)
Theorem fine_tuning_keeps_decode_bias `{Backend} input n_ins sizes n_outs s0
    classifier s1 learning_rate train_x train_y bs f
    (validate test : Z -> State -> float) (n n_valid n_test training_epochs : Z)
    (s : State) :
  SdA.init input n_ins sizes n_outs s0 = Ok (classifier, s1) ->
  train_model classifier learning_rate train_x train_y bs = Ok f ->
  let l := fine_tune f validate test n n_valid n_test training_epochs s in
  (forall i, vec (params l) (dA_b_prime i) = vec s (dA_b_prime i)) /\
  rng (params l) = rng s.
Proof.
  intros Hinit Hf l. subst l.
  apply (fine_tune_params_invariant f validate test n n_valid n_test
           training_epochs
           (fun q => (forall i, vec q (dA_b_prime i) = vec s (dA_b_prime i)) /\
                     rng q = rng s)).
  - intros index q [Hb Hr].
    destruct (train_model_frame _ _ _ _ _ _ _ _ _ _ _ _ Hinit Hf index q) as [Hb' Hr'].
    split; [intros i; rewrite Hb', Hb; reflexivity | rewrite Hr', Hr; reflexivity].
  - split; reflexivity.
Qed.

(** Pretraining changes no parameter of the logistic layer: when
    fine-tuning starts its [W] and [b] are still zero. *)
Theorem pretraining_keeps_logistic_zero `{Backend} input n_ins sizes n_outs s0
    classifier s1 pretraining_lr train_x bs pretraining_epochs n_train_batches s2 :
  SdA.init input n_ins sizes n_outs s0 = Ok (classifier, s1) ->
  pretrain classifier pretraining_lr train_x bs pretraining_epochs
           n_train_batches s1 = Ok s2 ->
  exists n_in,
    getitem sizes (-1) = Ok n_in /\
    mat s2 (LogisticRegression.W (SdA.logLayer classifier)) = T.zeros2 n_in n_outs /\
    vec s2 (LogisticRegression.b (SdA.logLayer classifier)) = T.zeros n_outs.
Proof.
  intros Hinit Hpre.
  pose proof (SdA_init_Ok _ _ _ _ _ _ _ Hinit) as (Hst & Hlen & Hn & top & _ & Hlog).
  apply SdA_init_built in Hinit as (s & n_in & _ & _ & Hn_in & _ & _ & ->).
  rewrite Hlog. cbn [LogisticRegression.W LogisticRegression.b].
  unfold pretrain in Hpre. rewrite Hn, xrange_of_nat, <- Hlen in Hpre.
  apply bind_Ok in Hpre as (t & Ht & Heq). inversion Heq; subst s2; clear Heq.
  apply (pretrain_layers_frame input) in Ht as [Hm Hv]; [|exact Hst|].
  2:{ intros i Hi. apply in_seq in Hi. lia. }
  cbn [fst] in Hm, Hv.
  exists n_in. split; [exact Hn_in|]. split.
  - rewrite Hm by (intros; discriminate). cbn.
    rewrite decide_True by reflexivity. reflexivity.
  - rewrite Hv by (intros; split; discriminate). cbn.
    rewrite decide_True by reflexivity. reflexivity.
Qed.

(** ** Nothing to train on *)

Lemma pretraining_epochs_loop_none {O} (f : Z -> State -> O * State)
    (pretraining_epochs n_train_batches : Z) (sc : State * option O) :
  (pretraining_epochs <= 0)%Z ->
  pretraining_epochs_loop f pretraining_epochs n_train_batches sc = Ok sc.
Proof.
  intros He. unfold pretraining_epochs_loop.
  rewrite (xrange_nil pretraining_epochs He). reflexivity.
Qed.

Lemma pretrain_none `{Backend} input classifier pretraining_lr train_x bs
    pretraining_epochs n_train_batches s :
  stacked input (SdA.layers classifier) ->
  SdA.n_layers classifier = Z.of_nat (length (SdA.layers classifier)) ->
  (pretraining_epochs <= 0)%Z ->
  pretrain classifier pretraining_lr train_x bs pretraining_epochs
           n_train_batches s = Ok s.
Proof.
  intros Hst Hn Hnone. unfold pretrain. rewrite Hn, xrange_of_nat.
  assert (forall indices sc,
            (forall i, In i indices -> i < length (SdA.layers classifier)) ->
            fold_left (pretrain_layer classifier pretraining_lr train_x bs
                         pretraining_epochs n_train_batches)
                      (map Z.of_nat indices) (Ok sc) = Ok sc) as Hfold.
  { induction indices as [|i indices IH]; intros sc Hlt; [reflexivity|].
    destruct (lookup_lt_is_Some_2 (SdA.layers classifier) i) as [layer Hl].
    { apply Hlt. left. reflexivity. }
    cbn [map fold_left].
    rewrite (pretrain_layer_Ok input _ _ _ _ _ _ _ layer sc Hst Hl).
    rewrite pretraining_epochs_loop_none by exact Hnone.
    apply IH. intros j Hj. apply Hlt. right. exact Hj. }
  rewrite Hfold; [reflexivity|]. intros i Hi. apply in_seq in Hi. lia.
Qed.

(** With no epoch, or no minibatch in an epoch, the loop calls nothing. *)
Lemma fine_tune_or_raise_none {S} (train : Z -> S -> float * S)
    (validate test : Z -> S -> result float)
    (n n_valid n_test training_epochs : Z) (p : S) :
  (training_epochs <= 0)%Z \/ (n <= 0)%Z ->
  fine_tune_or_raise train validate test n n_valid n_test training_epochs p
  = Ok {| params := p; patience := patience0; best_validation_loss := infinity;
          best_iter := None; test_score := 0%float; cost_ij := [] |}.
Proof.
  intros [He|Hn]; unfold fine_tune_or_raise, epoch_loop_or_raise.
  - rewrite (xrange_nil training_epochs He). reflexivity.
  - rewrite (xrange_nil n Hn).
    induction (xrange training_epochs) as [|epoch epochs IH]; [reflexivity|].
    cbn [fold_left bind minibatch_loop_or_raise]. exact IH.
Qed.

(** With no pretraining epoch, and fewer than 20 training examples or
    no fine-tuning epoch, the function trains nothing: it returns the
    parameters as the constructor left them, an infinite best validation
    loss, no best iteration and a test score of 0.  With fewer than 20
    training examples and a pretraining epoch it returns nothing: the
    [print] at the end of the first pretraining epoch reads [c], which no
    minibatch has assigned, and raises [UnboundLocalError]. *)
Theorem sgd_nothing_to_train `{Backend} learning_rate pretraining_epochs
    pretraining_lr training_epochs (dataset : Dataset) :
  exists classifier s1,
    SdA.init x (28 * 28) [500; 500; 500]%Z 10 no_state = Ok (classifier, s1) /\
    ((pretraining_epochs <= 0)%Z ->
     (length (train_set_x dataset) < 20)%nat \/ (training_epochs <= 0)%Z ->
     sgd_optimization_mnist learning_rate pretraining_epochs pretraining_lr
       training_epochs dataset
     = Ok {| params := s1; patience := patience0;
             best_validation_loss := infinity; best_iter := None;
             test_score := 0%float; cost_ij := [] |}) /\
    ((1 <= pretraining_epochs)%Z ->
     (length (train_set_x dataset) < 20)%nat ->
     sgd_optimization_mnist learning_rate pretraining_epochs pretraining_lr
       training_epochs dataset
     = Raise (UnboundLocalError "c")).
Proof.
  destruct (SdA_init_succeeds x (28 * 28)%Z [500; 500; 500]%Z 10 no_state)
    as (classifier & s1 & Hinit).
  { discriminate. }
  { repeat constructor. }
  { lia. }
  { lia. }
  exists classifier, s1. split; [exact Hinit|].
  set (n_train_batches := (Z.of_nat (length (train_set_x dataset)) / batch_size)%Z).
  assert ((length (train_set_x dataset) < 20)%nat -> n_train_batches = 0%Z) as Hsmall.
  { intros Hlt. subst n_train_batches. apply Z.div_small. unfold batch_size. lia. }
  split.
  - intros Hpe Hnone.
    unfold sgd_optimization_mnist. rewrite Hinit. cbn [bind].
    pose proof (finetune_updates_Ok _ _ _ _ _ _ _
                  (SdA.negative_log_likelihood classifier y) learning_rate Hinit)
      as Hupdates.
    destruct (SdA_errors_Ok _ _ _ _ _ _ _ Hinit) as (errors & Herrors & _).
    apply SdA_init_Ok in Hinit as (Hst & Hlen & Hn & _).
    rewrite (pretrain_none x); [|exact Hst | rewrite Hn, Hlen; reflexivity | exact Hpe].
    cbn [bind].
    unfold errors_model, train_model. rewrite Herrors, Hupdates. cbn [bind].
    apply fine_tune_or_raise_none. fold n_train_batches.
    destruct Hnone as [Hlt|He]; [right; rewrite (Hsmall Hlt); lia | left; exact He].
  - intros Hpe Hlt.
    unfold sgd_optimization_mnist. rewrite Hinit. cbn [bind].
    rewrite (pretrain_unbound x _ _ _ _ _ _ _ _ _ _ _ _ Hinit Hpe); [reflexivity|].
    fold n_train_batches. rewrite (Hsmall Hlt). lia.
Qed.

(** A data set of three training examples. *)
Definition tiny_dataset : Dataset :=
  {| train_set_x := replicate 3 [0.5%float]; train_set_y := replicate 3 1%Z;
     valid_set_x := []; valid_set_y := [];
     test_set_x := []; test_set_y := [] |}.

Lemma sgd_nothing_to_train_witness :
  (exists l,
     sgd_optimization_mnist 0.1%float 0 0.1%float 1000 tiny_dataset = Ok l /\
     best_iter l = None /\ best_validation_loss l = infinity) /\
  sgd_optimization_mnist 0.1%float 5 0.1%float 1000 tiny_dataset
  = Raise (UnboundLocalError "c").
Proof.
  assert (length (train_set_x tiny_dataset) < 20)%nat as Htiny by (cbn; lia).
  split.
  - destruct (sgd_nothing_to_train 0.1%float 0 0.1%float 1000 tiny_dataset)
      as (classifier & s1 & _ & Hrun & _).
    eexists. split; [apply Hrun; [lia | left; exact Htiny]|].
    split; reflexivity.
  - destruct (sgd_nothing_to_train 0.1%float 5 0.1%float 1000 tiny_dataset)
      as (classifier & s1 & _ & _ & Hraise).
    apply Hraise; [lia | exact Htiny].
Defined.

(** ** One prediction per example *)

(** Whatever the depth of the stack, a batch of [n] examples gives [n]
    rows of hidden values at every layer, [n] rows of class probabilities
    and [n] predicted classes. *)
Theorem one_prediction_per_example `{Backend} input n_ins sizes n_outs s0
    classifier s1 :
  SdA.init input n_ins sizes n_outs s0 = Ok (classifier, s1) ->
  forall env,
    (forall k layer, SdA.layers classifier !! k = Some layer ->
       length (dA.hidden_values layer env) = length (input env)) /\
    length (LogisticRegression.p_y_given_x (SdA.logLayer classifier) env)
    = length (input env) /\
    length (value (LogisticRegression.y_pred (SdA.logLayer classifier)) env)
    = length (input env).
Proof.
  intros Hinit env.
  apply SdA_init_Ok in Hinit as (Hst & _ & _ & top & Htop & Hlog).
  assert (forall k layer, SdA.layers classifier !! k = Some layer ->
            length (dA.hidden_values layer env) = length (input env)) as Hrows.
  { intros k layer Hk. rewrite (Hst k layer Hk).
    change (dA.hidden_values (dA.make k _ _ (forward input k)) env)
      with (forward input (S k) env).
    apply length_forward. }
  split; [exact Hrows|].
  apply getitem_Ok_lookup in Htop as [k Hk].
  rewrite Hlog. cbn [LogisticRegression.p_y_given_x LogisticRegression.y_pred value].
  unfold T.argmax_axis1, T.add_row, T.dot. rewrite !length_map.
  split; apply (Hrows k top Hk).
Qed.

Lemma one_prediction_per_example_witness :
  SdA.init x 2 [2; 1]%Z 2 no_state = Ok (small_classifier, small_state) /\
  length (value (LogisticRegression.y_pred small_logLayer) small_env) = 4.
Proof.
  split; [exact small_init_Ok|].
  exact (proj2 (proj2 (one_prediction_per_example x 2 [2; 1]%Z 2 no_state
                         small_classifier small_state small_init_Ok small_env))).
Defined.

(** ** The other properties on small instances *)

Lemma fine_tune_update_count_witness :
  let run := fun epochs =>
    fine_tune (counted counting_train_model)
      (on_params (constant_error 0.1)) (on_params (constant_error 0.2))
      3 1 1 epochs (0%Z, 0%Z) in
  (1 <= 3)%Z /\ (0 <= 4)%Z /\
  (snd (params (run 2%Z)) + 1 <= snd (params (run (2 + 1)%Z))
   <= snd (params (run 2%Z)) + 3)%Z /\
  (4 <= snd (params (run 4%Z)) <= 4 * 3)%Z.
Proof.
  intros run. assert (1 <= 3)%Z as Hn by lia. assert (0 <= 4)%Z as He by lia.
  split; [exact Hn|]. split; [exact He|].
  destruct (fine_tune_update_count counting_train_model (constant_error 0.1)
              (constant_error 0.2) 3 1 1 4 0%Z Hn He) as (_ & Hepoch & Htotal).
  split; [|exact Htotal].
  apply (Hepoch 2%Z). lia.
Defined.

Lemma fine_tune_short_run_complete_witness :
  let l := fine_tune (counted counting_train_model)
             (on_params (constant_error 0.1)) (on_params (constant_error 0.2))
             3 1 1 4 (0%Z, 0%Z) in
  (4 * 3 <= patience0)%Z /\ snd (params l) = 12%Z.
Proof.
  intros l. assert (4 * 3 <= patience0)%Z as Hshort by (vm_compute; discriminate).
  split; [exact Hshort|].
  exact (proj2 (fine_tune_short_run_complete counting_train_model
                  (constant_error 0.1) (constant_error 0.2) 3 1 1 4 0%Z
                  ltac:(lia) ltac:(lia) Hshort)).
Defined.

Definition small_train_model : Z -> State -> float * State :=
  match train_model small_classifier 0.1%float small_x small_y 2 with
  | Ok f => f
  | Raise _ => fun _ s => (0%float, s)
  end.

Lemma small_train_model_Ok :
  train_model small_classifier 0.1%float small_x small_y 2 = Ok small_train_model.
Proof. reflexivity. Qed.

Lemma fine_tuning_keeps_decode_bias_witness :
  SdA.init x 2 [2; 1]%Z 2 no_state = Ok (small_classifier, small_state) /\
  train_model small_classifier 0.1%float small_x small_y 2 = Ok small_train_model /\
  let l := fine_tune small_train_model (fun _ _ => 0.5%float) (fun _ _ => 0.5%float)
             2 1 1 3 small_state in
  vec (params l) (dA_b_prime 0) = vec small_state (dA_b_prime 0) /\
  rng (params l) = rng small_state.
Proof.
  split; [exact small_init_Ok|]. split; [exact small_train_model_Ok|].
  destruct (fine_tuning_keeps_decode_bias x 2 [2; 1]%Z 2 no_state small_classifier
              small_state 0.1%float small_x small_y 2 small_train_model
              (fun _ _ => 0.5%float) (fun _ _ => 0.5%float) 2 1 1 3 small_state
              small_init_Ok small_train_model_Ok) as [Hb Hr].
  split; [exact (Hb 0) | exact Hr].
Defined.

Definition small_pretrained : State :=
  match pretrain small_classifier 0.1%float small_x 2 1 2 small_state with
  | Ok s => s
  | Raise _ => small_state
  end.

Lemma small_pretrained_Ok :
  pretrain small_classifier 0.1%float small_x 2 1 2 small_state = Ok small_pretrained.
Proof. vm_compute. reflexivity. Qed.

Lemma pretraining_keeps_logistic_zero_witness :
  SdA.init x 2 [2; 1]%Z 2 no_state = Ok (small_classifier, small_state) /\
  pretrain small_classifier 0.1%float small_x 2 1 2 small_state = Ok small_pretrained /\
  mat small_pretrained logLayer_W = [[0; 0]]%float /\
  vec small_pretrained logLayer_b = [0; 0]%float.
Proof.
  split; [exact small_init_Ok|]. split; [exact small_pretrained_Ok|].
  destruct (pretraining_keeps_logistic_zero x 2 [2; 1]%Z 2 no_state small_classifier
              small_state 0.1%float small_x 2 1 2 small_pretrained
              small_init_Ok small_pretrained_Ok) as (n_in & Hn_in & HW & Hb).
  inversion Hn_in; subst n_in. split; [exact HW | exact Hb].
Defined.

(** ** The cost of fine-tuning *)

(** [- mean_i log p(y_i | x_i)], example by example. *)
Definition log_likelihood_of `{Backend} (row : Vector) (yi : Z) : float :=
  log (default 0%float (row !! Z.to_nat yi)).
Definition mean_negative_log_likelihood `{Backend} (p : Matrix) (labels : list Z)
    : float :=
  PrimFloat.opp (T.mean (zip_with log_likelihood_of p labels)).

Lemma py_index_log `{Backend} (row : Vector) (yi : Z) :
  (0 <= yi < Z.of_nat (length row))%Z ->
  py_index (vlog row) yi = log_likelihood_of row yi.
Proof.
  intros Hyi. unfold py_index, log_likelihood_of, vlog. cbv zeta.
  assert ((yi <? 0)%Z = false) as E by (apply Z.ltb_ge; lia).
  rewrite E. rewrite E.
  destruct (lookup_lt_is_Some_2 row (Z.to_nat yi)) as [v Hv]; [lia|].
  rewrite list_lookup_fmap, Hv. reflexivity.
Qed.

Lemma picked_log_likelihoods `{Backend} (p : Matrix) (labels : list Z) :
  Forall2 (fun row yi => (0 <= yi < Z.of_nat (length row))%Z) p labels ->
  forall (q : Matrix) (k : nat),
    (forall i, q !! (k + i) = mlog p !! i) ->
    imap (fun i yi => py_index (default [] (q !! (k + i))) yi) labels
    = zip_with log_likelihood_of p labels.
Proof.
  induction 1 as [|row yi p labels Hyi _ IH]; intros q k Hq; [reflexivity|].
  cbn [imap zip_with]. f_equal.
  - rewrite Hq. cbn. apply py_index_log. exact Hyi.
  - rewrite <- (IH q (S k)).
    + apply imap_ext. intros i y' _. cbn. f_equal. f_equal. f_equal. lia.
    + intros i. replace (S k + i) with (k + S i) by lia. rewrite Hq. reflexivity.
Qed.

(** When every label is a class of its row of probabilities, the cost of
    the model, which is that of its logistic layer, is minus the mean of
    the logarithms of the probabilities of the true classes. *)
Theorem negative_log_likelihood_formula `{Backend} (classifier : SdA.t)
    (labels : TensorVariable) (env : Env) :
  let p := LogisticRegression.p_y_given_x (SdA.logLayer classifier) env in
  Forall2 (fun row yi => (0 <= yi < Z.of_nat (length row))%Z) p (value labels env) ->
  SdA.negative_log_likelihood classifier labels env
  = mean_negative_log_likelihood p (value labels env) /\
  SdA.negative_log_likelihood classifier labels env
  = LogisticRegression.negative_log_likelihood (SdA.logLayer classifier) labels env.
Proof.
  intros p Hlabels. split; [|reflexivity].
  unfold SdA.negative_log_likelihood, LogisticRegression.negative_log_likelihood,
    mean_negative_log_likelihood.
  f_equal. f_equal. fold p.
  apply (picked_log_likelihoods p (value labels env) Hlabels (mlog p) 0).
  intros i. reflexivity.
Qed.

Lemma negative_log_likelihood_formula_witness :
  Forall2 (fun row yi => (0 <= yi < Z.of_nat (length row))%Z)
          (LogisticRegression.p_y_given_x small_logLayer small_env) small_y /\
  SdA.negative_log_likelihood small_classifier y small_env
  = mean_negative_log_likelihood
      (LogisticRegression.p_y_given_x small_logLayer small_env) small_y.
Proof.
  assert (Forall2 (fun row yi => (0 <= yi < Z.of_nat (length row))%Z)
            (LogisticRegression.p_y_given_x small_logLayer small_env) small_y)
    as Hlabels.
  { vm_compute. repeat constructor; discriminate. }
  split; [exact Hlabels|].
  exact (proj1 (negative_log_likelihood_formula small_classifier y small_env Hlabels)).
Defined.
